(** * AI Document Manager backend: the chat proxy and the document directory

    A shallow embedding of [ChatService] (chat.service.ts),
    [DocumentsService] (documents.service.ts) and [LogosService]
    (logos.service.ts), and the properties of their specification.

    Conventions of the model.
    - Strings are byte strings holding UTF-8 text ([String.string]).  A
      lone surrogate of a JavaScript string is kept as the three bytes of
      its code point, and two halves that meet when strings are
      concatenated are one character of four bytes ([Json.paired]).
      [toUpperCase] is written out on ASCII strings and is an interface,
      [JsUnicode], on the others.
    - The relational store is a record of tables; every statement of the
      services that writes to it is an entry of a chronological trace, next
      to every outbound call to the Logos service, every chunk a generator
      yields and the warning [DocumentsService.delete] logs.  Reads leave no
      entry.
    - An [async] method is a computation of the monad [M]: it reads and
      writes the store, extends the trace and either returns or throws.
      One request runs alone (no interleaving with other requests).
    - An [async *] generator is run against a consumer that drains it, as
      [ChatController.chat] does: each [yield] is an [EvYield] entry.
    - The Logos service is an interface ([Logos]): what its endpoints answer
      is a parameter of the model.  A member of a body that is [string |
      null] is absent, [null] or a string ([Field]).  A chunk of a streamed
      response is a buffer of bytes, and [chunk.toString()] decodes each
      chunk on its own ([Buffer.toString]).  A failed request is an
      [AxiosError] with its message, or another error.
    - The store keeps the constraints of the migrations (primary and
      foreign keys with their cascades, the unique index of a session's
      document, the [DocumentStatus] enum).  An update leaves a column
      whose value is [undefined] as it is.  The value given for the column
      [chunk_ids], a list of strings, is checked by the client: an array
      of strings is stored, an array with another element is refused, and
      what the client does with a value that is no array is an interface,
      [PrismaClient].
    - [JSON.parse] is a parser of the JSON grammar written below.  The value
      of a number is not computed: what ECMAScript's Number type decides
      (truthiness, [ToString]) is an interface, [JsNumber].  The conversion
      of a parsed value to a string, [ToString], throws on an object with a
      member [toString] of its own, which hides the method.
    - The upload and the synchronisation of documents
      ([DocumentsService.uploadDocument], [syncDocument], the handler of
      [DocumentsController]) run in a second monad, [Directory.D]: its
      state has the rows of ["User"] beside the store, and its trace has
      the entries of [M] and those of the two other Logos endpoints
      ([LogosDocuments]) and of [document.create].
    - [ChatController.chat] is the list of what it does to the response;
      [JSON.stringify] is written out for the object it serialises. *)

From Stdlib Require Import ZArith String Ascii List Lia Sorted Permutation.
From stdpp Require Import gmap strings list fin_maps pretty.

Open Scope list_scope.

(* ===================================================================== *)
(** * Part I: definitions                                                 *)
(* ===================================================================== *)

(** ** JavaScript strings: [split], [startsWith], [slice] *)

(** The case mapping of the runtime on the strings that hold a character
    outside ASCII. *)
Class JsUnicode := { Unicode_toUpperCase : string -> string }.

Module JsString.

(** The line feed, the separator of [chunk.toString().split('\n')]. *)
Definition LF : ascii := ascii_of_nat 10.

(** The double quote. *)
Definition DQ : ascii := ascii_of_nat 34.

(** Text with double quotes, written with single quotes: every ['] of
    [s] becomes a double quote. *)
Fixpoint quoted (s : string) : string :=
  match s with
  | EmptyString => EmptyString
  | String c rest => String (if Ascii.eqb c "'" then DQ else c) (quoted rest)
  end.

(** [s.split(sep)] for a one-character separator: never empty, one more
    piece than there are separators. *)
Fixpoint split (sep : ascii) (s : string) : list string :=
  match s with
  | EmptyString => [EmptyString]
  | String c rest =>
      if Ascii.eqb c sep then EmptyString :: split sep rest
      else match split sep rest with
           | [] => [String c EmptyString]
           | piece :: pieces => String c piece :: pieces
           end
  end.

(** [pieces.join(sep)] for a one-character separator. *)
Definition join (sep : ascii) (pieces : list string) : string :=
  String.concat (String sep EmptyString) pieces.

(** [s.startsWith(p)]. *)
Definition startsWith (p s : string) : bool := String.prefix p s.

(** [s.slice(n)] for [n >= 0]: the string without its first [n]
    characters. *)
Fixpoint slice (n : nat) (s : string) : string :=
  match n, s with
  | O, _ => s
  | S _, EmptyString => EmptyString
  | S n', String _ rest => slice n' rest
  end.

(** The string of a list of characters. *)
Fixpoint of_chars (cs : list ascii) : string :=
  match cs with
  | [] => EmptyString
  | c :: rest => String c (of_chars rest)
  end.

(** [s] holds no occurrence of [c]. *)
Fixpoint lacks (c : ascii) (s : string) : bool :=
  match s with
  | EmptyString => true
  | String d rest => negb (Ascii.eqb d c) && lacks c rest
  end.

(** [s] holds ASCII characters only. *)
Fixpoint is_ascii (s : string) : bool :=
  match s with
  | EmptyString => true
  | String c rest => (nat_of_ascii c <? 128)%nat && is_ascii rest
  end.

(** [s.toUpperCase()].  On a string of ASCII characters the letters a to
    z are mapped to A to Z and the rest is kept; on a string that holds
    another character the result is read from the Unicode tables of the
    runtime, [Unicode_toUpperCase] (a letter outside ASCII may have an
    upper case inside it). *)
Definition upper_char (c : ascii) : ascii :=
  let n := nat_of_ascii c in
  if (97 <=? n)%nat && (n <=? 122)%nat then ascii_of_nat (n - 32) else c.

Fixpoint upper_chars (s : string) : string :=
  match s with
  | EmptyString => EmptyString
  | String c rest => String (upper_char c) (upper_chars rest)
  end.

Definition toUpperCase {js_unicode : JsUnicode} (s : string) : string :=
  if is_ascii s then upper_chars s else Unicode_toUpperCase s.

End JsString.

(** ** [Buffer.prototype.toString] *)

(** A chunk of a streamed response is a buffer of bytes, and
    [chunk.toString()] decodes it as UTF-8, each chunk on its own.  The
    decoder is that of the Encoding Standard: a character that is well
    formed is kept, and every maximal part of an ill-formed one, also the
    beginning of a character that the end of the chunk cuts, becomes
    U+FFFD.  The value is the UTF-8 text of the decoded string. *)
Module Buffer.

(** U+FFFD in UTF-8. *)
Definition replacement : string :=
  String (ascii_of_nat 239) (String (ascii_of_nat 191) (String (ascii_of_nat 189) "")).

Definition between (lo hi : N) (c : ascii) : bool :=
  (lo <=? N_of_ascii c)%N && (N_of_ascii c <=? hi)%N.

(** The bounds of the byte that follows the first byte [c] of a character
    of three or of four bytes. *)
Definition lower_after (c : ascii) : N :=
  if (N_of_ascii c =? 224)%N then 160%N
  else if (N_of_ascii c =? 240)%N then 144%N else 128%N.

Definition upper_after (c : ascii) : N :=
  if (N_of_ascii c =? 237)%N then 159%N
  else if (N_of_ascii c =? 244)%N then 143%N else 191%N.

(** [need] more bytes of the character [pending] are awaited (none: a
    character begins), the next of them between [lo] and [hi].  A byte
    that cannot follow ends the character with U+FFFD and is read again
    as the beginning of the next one. *)
Fixpoint decode (need : nat) (lo hi : N) (pending bytes : string) : string :=
  match bytes with
  | EmptyString =>
      match need with
      | O => EmptyString
      | S _ => replacement
      end
  | String c rest =>
      let begin (before : string) : string :=
        if between 0 127 c then before +:+ String c (decode 0 128 191 "" rest)
        else if between 194 223 c
        then before +:+ decode 1 128 191 (String c "") rest
        else if between 224 239 c
        then before +:+ decode 2 (lower_after c) (upper_after c) (String c "") rest
        else if between 240 244 c
        then before +:+ decode 3 (lower_after c) (upper_after c) (String c "") rest
        else before +:+ replacement +:+ decode 0 128 191 "" rest in
      match need with
      | O => begin ""
      | S O =>
          if between lo hi c then pending +:+ String c (decode 0 128 191 "" rest)
          else begin replacement
      | S (S _ as need') =>
          if between lo hi c then decode need' 128 191 (pending +:+ String c "") rest
          else begin replacement
      end
  end.

(** [chunk.toString()]. *)
Definition toString (chunk : string) : string := decode 0 128 191 "" chunk.

(** Well-formed UTF-8 (the Unicode Standard, table 3-7), read by the same
    automaton. *)
Fixpoint awaits (need : nat) (lo hi : N) (bytes : string) : bool :=
  match bytes with
  | EmptyString =>
      match need with
      | O => true
      | S _ => false
      end
  | String c rest =>
      match need with
      | O =>
          if between 0 127 c then awaits 0 128 191 rest
          else if between 194 223 c then awaits 1 128 191 rest
          else if between 224 239 c then awaits 2 (lower_after c) (upper_after c) rest
          else if between 240 244 c then awaits 3 (lower_after c) (upper_after c) rest
          else false
      | S need' => between lo hi c && awaits need' 128 191 rest
      end
  end.

Definition well_formed (chunk : string) : bool := awaits 0 128 191 chunk.

End Buffer.

(** ** JSON values and [JSON.parse] *)

(** A number keeps the text of its literal: its value is an IEEE-754 double,
    which the model does not compute (see [JsNumber]). *)
#[warnings="-register-all"]
Inductive json : Type :=
| JNull
| JBool (b : bool)
| JNumber (literal : string)
| JString (s : string)
| JArray (elements : list json)
| JObject (members : list (string * json)).

Module Json.

Import JsString.

(** *** Lexical analysis *)

Inductive token : Type :=
| TLBrace | TRBrace | TLBracket | TRBracket | TColon | TComma
| TScalar (j : json).

(** A piece of a string literal: a byte of the source text, or the UTF-16
    code unit of an escape [\uXXXX]. *)
Inductive str_item : Type :=
| Byte (c : ascii)
| Unit (u : N).

Definition byte_of (n : N) : ascii := ascii_of_N n.

(** UTF-8 encoding of a code point. *)
Definition utf8 (cp : N) : list ascii :=
  if (cp <? 128)%N then [byte_of cp]
  else if (cp <? 2048)%N then
    [byte_of (192 + cp / 64); byte_of (128 + cp mod 64)]
  else if (cp <? 65536)%N then
    [byte_of (224 + cp / 4096); byte_of (128 + (cp / 64) mod 64);
     byte_of (128 + cp mod 64)]
  else
    [byte_of (240 + cp / 262144); byte_of (128 + (cp / 4096) mod 64);
     byte_of (128 + (cp / 64) mod 64); byte_of (128 + cp mod 64)].

Definition is_high_surrogate (u : N) : bool := (55296 <=? u)%N && (u <=? 56319)%N.
Definition is_low_surrogate (u : N) : bool := (56320 <=? u)%N && (u <=? 57343)%N.

(** The text of a string literal from its pieces, in source order: a
    surrogate pair is one code point, and a surrogate without its partner
    is written as the three bytes of its own code point, so that the
    string still holds the code unit (see the conventions above). *)
Fixpoint encode_items (items : list str_item) : list ascii :=
  match items with
  | [] => []
  | Byte c :: rest => c :: encode_items rest
  | Unit hi :: rest =>
      if is_high_surrogate hi then
        match rest with
        | Unit lo :: rest' =>
            if is_low_surrogate lo
            then utf8 (65536 + (hi - 55296) * 1024 + (lo - 56320)) ++ encode_items rest'
            else utf8 hi ++ encode_items rest
        | _ => utf8 hi ++ encode_items rest
        end
      else utf8 hi ++ encode_items rest
  end.

(** Strings appended one after the other: when the first ends with the
    first half of a surrogate pair and the next begins with the second,
    the halves stand side by side, each as its three bytes.  [paired]
    writes every such pair as the four bytes of its code point, which
    gives the UTF-8 text of the string; a half left alone is kept. *)
Definition is_pair (b1 b2 b3 b4 b5 b6 : ascii) : bool :=
  (N_of_ascii b1 =? 237)%N
  && (160 <=? N_of_ascii b2)%N && (N_of_ascii b2 <=? 175)%N
  && (128 <=? N_of_ascii b3)%N && (N_of_ascii b3 <=? 191)%N
  && (N_of_ascii b4 =? 237)%N
  && (176 <=? N_of_ascii b5)%N && (N_of_ascii b5 <=? 191)%N
  && (128 <=? N_of_ascii b6)%N && (N_of_ascii b6 <=? 191)%N.

Fixpoint paired (s : string) : string :=
  match s with
  | EmptyString => EmptyString
  | String b1 tail =>
      match tail with
      | String b2 (String b3 (String b4 (String b5 (String b6 rest)))) =>
          if is_pair b1 b2 b3 b4 b5 b6
          then of_chars
                 (utf8 (65536
                        + ((N_of_ascii b2 - 160) * 64 + (N_of_ascii b3 - 128)) * 1024
                        + ((N_of_ascii b5 - 176) * 64 + (N_of_ascii b6 - 128))))
               +:+ paired rest
          else String b1 (paired tail)
      | _ => String b1 (paired tail)
      end
  end.

Definition is_ws (c : ascii) : bool :=
  let n := nat_of_ascii c in
  (n =? 32)%nat || (n =? 9)%nat || (n =? 10)%nat || (n =? 13)%nat.

Definition is_digit (c : ascii) : bool :=
  let n := nat_of_ascii c in (48 <=? n)%nat && (n <=? 57)%nat.

Definition is_lower (c : ascii) : bool :=
  let n := nat_of_ascii c in (97 <=? n)%nat && (n <=? 122)%nat.

Definition hex_value (c : ascii) : option N :=
  let n := N_of_ascii c in
  if (48 <=? n)%N && (n <=? 57)%N then Some (n - 48)%N
  else if (65 <=? n)%N && (n <=? 70)%N then Some (n - 55)%N
  else if (97 <=? n)%N && (n <=? 102)%N then Some (n - 87)%N
  else None.

(** The characters a number literal is made of. *)
Definition is_number_char (c : ascii) : bool :=
  is_digit c || Ascii.eqb c "-" || Ascii.eqb c "+" || Ascii.eqb c "."
  || Ascii.eqb c "e" || Ascii.eqb c "E".

Fixpoint drop_digits (cs : list ascii) : list ascii :=
  match cs with
  | c :: rest => if is_digit c then drop_digits rest else cs
  | [] => []
  end.

(** At least one digit, then the rest. *)
Definition digits1 (cs : list ascii) : option (list ascii) :=
  match cs with
  | c :: rest => if is_digit c then Some (drop_digits rest) else None
  | [] => None
  end.

(** The grammar of a JSON number: an optional minus sign; then a zero, or
    a digit from 1 to 9 and any digits; then, optionally, a dot and one or
    more digits; then, optionally, e or E, an optional sign and one or
    more digits. *)
Definition valid_number (cs : list ascii) : bool :=
  let cs1 := match cs with
             | c :: rest => if Ascii.eqb c "-" then rest else cs
             | [] => cs
             end in
  let after_int :=
    match cs1 with
    | c :: rest =>
        if Ascii.eqb c "0" then Some rest
        else if is_digit c then Some (drop_digits rest) else None
    | [] => None
    end in
  let after_frac :=
    match after_int with
    | Some (c :: rest) => if Ascii.eqb c "." then digits1 rest else after_int
    | other => other
    end in
  let after_exp :=
    match after_frac with
    | Some (c :: rest) =>
        if Ascii.eqb c "e" || Ascii.eqb c "E" then
          match rest with
          | s :: rest' =>
              if Ascii.eqb s "+" || Ascii.eqb s "-" then digits1 rest' else digits1 rest
          | [] => None
          end
        else after_frac
    | other => other
    end in
  match after_exp with
  | Some [] => true
  | _ => false
  end.

Definition number_token (rev_chars : list ascii) : option token :=
  let cs := rev rev_chars in
  if valid_number cs then Some (TScalar (JNumber (of_chars cs))) else None.

Definition literal_token (rev_chars : list ascii) : option token :=
  let word := of_chars (rev rev_chars) in
  if String.eqb word "true" then Some (TScalar (JBool true))
  else if String.eqb word "false" then Some (TScalar (JBool false))
  else if String.eqb word "null" then Some (TScalar JNull)
  else None.

(** The lexer reads one character at a time.  Accumulators are kept in
    reverse. *)
Inductive lex_mode : Type :=
| LIdle
| LString (acc : list str_item)
| LEscape (acc : list str_item)
| LUnicode (acc : list str_item) (seen : nat) (value : N)
| LNumber (acc : list ascii)
| LLiteral (acc : list ascii).

(** Between tokens. *)
Definition lex_idle (c : ascii) : option (lex_mode * list token) :=
  if is_ws c then Some (LIdle, [])
  else if Ascii.eqb c "{" then Some (LIdle, [TLBrace])
  else if Ascii.eqb c "}" then Some (LIdle, [TRBrace])
  else if Ascii.eqb c "[" then Some (LIdle, [TLBracket])
  else if Ascii.eqb c "]" then Some (LIdle, [TRBracket])
  else if Ascii.eqb c ":" then Some (LIdle, [TColon])
  else if Ascii.eqb c "," then Some (LIdle, [TComma])
  else if Ascii.eqb c DQ then Some (LString [], [])
  else if Ascii.eqb c "-" || is_digit c then Some (LNumber [c], [])
  else if is_lower c then Some (LLiteral [c], [])
  else None.

(** A token that ends because [c] does not belong to it, then [c]. *)
Definition lex_after (t : option token) (c : ascii) : option (lex_mode * list token) :=
  match t, lex_idle c with
  | Some t, Some (mode, ts) => Some (mode, t :: ts)
  | _, _ => None
  end.

Definition lex_escape (acc : list str_item) (c : ascii) : option (lex_mode * list token) :=
  let plain (n : nat) := Some (LString (Byte (ascii_of_nat n) :: acc), []) in
  if Ascii.eqb c DQ then plain 34%nat
  else if Ascii.eqb c "\" then plain 92%nat
  else if Ascii.eqb c "/" then plain 47%nat
  else if Ascii.eqb c "b" then plain 8%nat
  else if Ascii.eqb c "f" then plain 12%nat
  else if Ascii.eqb c "n" then plain 10%nat
  else if Ascii.eqb c "r" then plain 13%nat
  else if Ascii.eqb c "t" then plain 9%nat
  else if Ascii.eqb c "u" then Some (LUnicode acc 0 0%N, [])
  else None.

Definition lex_step (mode : lex_mode) (c : ascii) : option (lex_mode * list token) :=
  match mode with
  | LIdle => lex_idle c
  | LString acc =>
      if Ascii.eqb c DQ then
        Some (LIdle, [TScalar (JString (of_chars (encode_items (rev acc))))])
      else if Ascii.eqb c "\" then Some (LEscape acc, [])
      else if (nat_of_ascii c <? 32)%nat then None
      else Some (LString (Byte c :: acc), [])
  | LEscape acc => lex_escape acc c
  | LUnicode acc seen value =>
      match hex_value c with
      | Some h =>
          let value' := (value * 16 + h)%N in
          if (seen =? 3)%nat then Some (LString (Unit value' :: acc), [])
          else Some (LUnicode acc (S seen) value', [])
      | None => None
      end
  | LNumber acc =>
      if is_number_char c then Some (LNumber (c :: acc), [])
      else lex_after (number_token acc) c
  | LLiteral acc =>
      if is_lower c then Some (LLiteral (c :: acc), [])
      else lex_after (literal_token acc) c
  end.

(** The end of the text. *)
Definition lex_end (mode : lex_mode) : option (list token) :=
  match mode with
  | LIdle => Some []
  | LNumber acc => option_map (fun t => [t]) (number_token acc)
  | LLiteral acc => option_map (fun t => [t]) (literal_token acc)
  | LString _ | LEscape _ | LUnicode _ _ _ => None
  end.

Fixpoint lex (mode : lex_mode) (s : string) : option (list token) :=
  match s with
  | EmptyString => lex_end mode
  | String c rest =>
      match lex_step mode c with
      | Some (mode', ts) => option_map (app ts) (lex mode' rest)
      | None => None
      end
  end.

(** *** Syntax analysis: a pushdown automaton over the tokens *)

(** An open array with its elements so far, or an open object with its
    members so far and the key waiting for its value (both reversed). *)
Inductive frame : Type :=
| FArray (elements : list json)
| FObject (members : list (string * json)) (key : option string).

Inductive expect : Type :=
| XValue          (* a value: at the start, after ':' and after ',' in an array *)
| XArrayStart     (* after '[': a value or ']' *)
| XObjectStart    (* after '{': a key or '}' *)
| XKey            (* after ',' in an object: a key *)
| XColon          (* after a key *)
| XAfter          (* after a value inside an array or object: ',' or the end of it *)
| XDone (v : json). (* the text was one value: nothing may follow *)

Definition pstate : Type := (list frame * expect)%type.

(** A complete value goes to the innermost open array or object. *)
Definition deliver (stack : list frame) (v : json) : option pstate :=
  match stack with
  | [] => Some ([], XDone v)
  | FArray els :: below => Some (FArray (v :: els) :: below, XAfter)
  | FObject mems (Some k) :: below => Some (FObject ((k, v) :: mems) None :: below, XAfter)
  | FObject _ None :: _ => None
  end.

Definition open_or_scalar (stack : list frame) (t : token) : option pstate :=
  match t with
  | TLBracket => Some (FArray [] :: stack, XArrayStart)
  | TLBrace => Some (FObject [] None :: stack, XObjectStart)
  | TScalar v => deliver stack v
  | _ => None
  end.

Definition close_array (stack : list frame) : option pstate :=
  match stack with
  | FArray els :: below => deliver below (JArray (rev els))
  | _ => None
  end.

Definition close_object (stack : list frame) : option pstate :=
  match stack with
  | FObject mems None :: below => deliver below (JObject (rev mems))
  | _ => None
  end.

Definition take_key (stack : list frame) (t : token) : option pstate :=
  match t, stack with
  | TScalar (JString k), FObject mems None :: below =>
      Some (FObject mems (Some k) :: below, XColon)
  | _, _ => None
  end.

Definition parse_step (st : pstate) (t : token) : option pstate :=
  let '(stack, x) := st in
  match x with
  | XValue => open_or_scalar stack t
  | XArrayStart =>
      match t with
      | TRBracket => close_array stack
      | _ => open_or_scalar stack t
      end
  | XObjectStart =>
      match t with
      | TRBrace => close_object stack
      | _ => take_key stack t
      end
  | XKey => take_key stack t
  | XColon =>
      match t with
      | TColon => Some (stack, XValue)
      | _ => None
      end
  | XAfter =>
      match t, stack with
      | TComma, FArray _ :: _ => Some (stack, XValue)
      | TComma, FObject _ _ :: _ => Some (stack, XKey)
      | TRBracket, _ => close_array stack
      | TRBrace, _ => close_object stack
      | _, _ => None
      end
  | XDone _ => None
  end.

Fixpoint parse_tokens (st : pstate) (ts : list token) : option json :=
  match ts with
  | [] => match st with
          | ([], XDone v) => Some v
          | _ => None
          end
  | t :: rest =>
      match parse_step st t with
      | Some st' => parse_tokens st' rest
      | None => None
      end
  end.

(** [JSON.parse(text)]: [None] is a thrown [SyntaxError]. *)
Definition parse (text : string) : option json :=
  match lex LIdle text with
  | Some ts => parse_tokens ([], XValue) ts
  | None => None
  end.

(** *** Reading a parsed value *)

(** [data[key]] on an object made by [JSON.parse] for a key that no
    prototype defines: the last member of that name ([None] is
    [undefined]).  Arrays, strings, numbers and booleans have no such
    property; [null] is handled by the caller (the access throws). *)
Fixpoint lookup_last (key : string) (members : list (string * json)) : option json :=
  match members with
  | [] => None
  | (k, v) :: rest =>
      match lookup_last key rest with
      | Some later => Some later
      | None => if String.eqb k key then Some v else None
      end
  end.

Definition prop (data : json) (key : string) : option json :=
  match data with
  | JObject members => lookup_last key members
  | _ => None
  end.

End Json.

(** What the model takes from ECMAScript's Number type, for a number given
    by its JSON literal: whether it is truthy (neither [0] nor [-0]) and its
    [ToString]. *)
Class JsNumber : Type := {
  Number_ToBoolean : string -> bool;
  Number_ToString : string -> string
}.

Section JsValues.

Context {js_number : JsNumber}.

(** [ToBoolean(v)]; [None] is [undefined]. *)
Definition truthy (v : option json) : bool :=
  match v with
  | None => false
  | Some JNull => false
  | Some (JBool b) => b
  | Some (JNumber lit) => Number_ToBoolean lit
  | Some (JString s) => negb (String.eqb s "")
  | Some (JArray _) => true
  | Some (JObject _) => true
  end.

(** An object made by [JSON.parse] has the member [toString] of its own:
    the value of that member is no function, and it hides the method of
    [Object.prototype]. *)
Definition hides_toString (members : list (string * json)) : bool :=
  existsb (fun member => String.eqb (fst member) "toString") members.

(** [ToString(v)], the right operand of [fullResponse += v]; [None] is a
    thrown [TypeError].  An array is its elements joined by commas, with
    [null] elements empty; an object is [[object Object]], unless it has
    a member [toString] of its own: then no method converts it, neither
    on its own nor as an element of an array. *)
Fixpoint ToString (v : json) : option string :=
  match v with
  | JNull => Some "null"
  | JBool true => Some "true"
  | JBool false => Some "false"
  | JNumber lit => Some (Number_ToString lit)
  | JString s => Some s
  | JArray els =>
      option_map (String.concat ",")
        ((fix elements (es : list json) : option (list string) :=
            match es with
            | [] => Some []
            | e :: rest =>
                match match e with JNull => Some "" | _ => ToString e end,
                      elements rest with
                | Some text, Some texts => Some (text :: texts)
                | _, _ => None
                end
            end) els)
  | JObject members =>
      if hides_toString members then None else Some "[object Object]"
  end.

End JsValues.

(** ** The relational store (the Prisma migrations) *)

(** [CREATE TYPE "DocumentStatus" AS ENUM (...)]. *)
Inductive DocumentStatus : Type := PENDING | PROCESSING | COMPLETED | FAILED.

Global Instance DocumentStatus_eq_dec : EqDecision DocumentStatus.
Proof. solve_decision. Defined.

(** The enum members are strings at run time. *)
Definition status_name (s : DocumentStatus) : string :=
  match s with
  | PENDING => "PENDING"
  | PROCESSING => "PROCESSING"
  | COMPLETED => "COMPLETED"
  | FAILED => "FAILED"
  end.

Definition status_of_name (name : string) : option DocumentStatus :=
  if String.eqb name "PENDING" then Some PENDING
  else if String.eqb name "PROCESSING" then Some PROCESSING
  else if String.eqb name "COMPLETED" then Some COMPLETED
  else if String.eqb name "FAILED" then Some FAILED
  else None.

(** A row of ["Document"]; the primary key [id] is the key of the table
    [documents] below.  [None] is SQL [NULL]. *)
Record Document : Type := {
  doc_user_id : string;
  doc_filename : string;
  doc_content_type : string;
  doc_logos_id : option string;
  doc_status : DocumentStatus;
  doc_summary : option string;
  doc_classification : option string;
  doc_error_message : option string;
  doc_created_at : Z;
  doc_updated_at : Z
}.

(** A row of ["ChatSession"]; [document_id], which has a unique index, is
    the key of the table [chatSessions] below. *)
Record ChatSession : Type := {
  session_id : string;
  session_created_at : Z;
  session_updated_at : Z
}.

Inductive Role : Type := user | assistant.

Global Instance Role_eq_dec : EqDecision Role.
Proof. solve_decision. Defined.

(** A row of ["ChatMessage"].  [msg_chunk_ids] is the list kept in the
    column [chunk_ids], as a JSON array. *)
Record ChatMessage : Type := {
  msg_id : string;
  msg_session_id : string;
  msg_role : Role;
  msg_content : string;
  msg_chunk_ids : json;
  msg_created_at : Z
}.

(** The tables, the clock behind [CURRENT_TIMESTAMP] (logical: it advances
    with every row inserted or updated) and the source of generated ids.  [chatMessages] is in
    insertion order. *)
Record Store : Type := {
  documents : gmap string Document;
  chatSessions : gmap string ChatSession;
  chatMessages : list ChatMessage;
  clock : Z;
  next_id : N
}.

(** ** Errors, the trace and the monad of the services *)

(** A failed HTTP exchange as the HTTP client reports it: an [AxiosError]
    with its [message] and what is known of the response (its status and
    the [detail] of its body), or another error with its message. *)
Inductive Failure : Type :=
| Axios (message : string) (status : option Z) (detail : option string)
| NotAxios (description : string).

(** The exceptions of the services.  [NotFoundException] is the
    specification's NotFound, [ForbiddenException] its Forbidden and
    [BadRequestException] its InvalidState. *)
Inductive Exception : Type :=
| NotFoundException (message : string)
| ForbiddenException (message : string)
| BadRequestException (message : string)
| HttpException (message : string) (status : Z)
| Unhandled (f : Failure)
| PrismaError (message : string).

Definition exception_message (e : Exception) : string :=
  match e with
  | NotFoundException m | ForbiddenException m | BadRequestException m
  | HttpException m _ | PrismaError m => m
  | Unhandled (Axios m _ _) => m
  | Unhandled (NotAxios d) => d
  end.

(** One element of a conversation sent to Logos ([ChatMessageDto]). *)
Record ChatMessageDto : Type := {
  dto_role : Role;
  dto_content : string
}.

Inductive Event : Type :=
| EvSessionCreate (document_id : string) (s : ChatSession)
| EvMessageCreate (m : ChatMessage)
| EvSessionDeleteMany (document_id : string)
| EvDocumentUpdate (id : string) (d : Document)
| EvDocumentDelete (id : string)
| EvLogosStatus (logos_id : string)
| EvLogosDelete (logos_id : string)
| EvLogosChat (logos_id message : string) (history : list ChatMessageDto)
| EvYield (chunk : string)
| EvWarn (message : string).

(** The trace is chronological: the latest entry is the last. *)
Record State : Type := {
  store : Store;
  trace : list Event
}.

Inductive Result (A : Type) : Type :=
| Ok (a : A)
| Throw (e : Exception).
Arguments Ok {A} a.
Arguments Throw {A} e.

Definition M (A : Type) : Type := State -> Result A * State.

Global Instance M_ret : MRet M := fun A (a : A) st => (Ok a, st).

Global Instance M_bind : MBind M := fun A B (k : A -> M B) (m : M A) st =>
  match m st with
  | (Ok a, st') => k a st'
  | (Throw e, st') => (Throw e, st')
  end.

Definition throw {A : Type} (e : Exception) : M A := fun st => (Throw e, st).

(** [try { body } catch (error) { handler }]. *)
Definition try_catch {A : Type} (body : M A) (handler : Exception -> M A) : M A :=
  fun st =>
    match body st with
    | (Ok a, st') => (Ok a, st')
    | (Throw e, st') => handler e st'
    end.

Definition emit (e : Event) : M unit :=
  fun st => (Ok tt, {| store := store st; trace := trace st ++ [e] |}).

Definition read_store : M Store := fun st => (Ok (store st), st).

Definition write_store (s : Store) : M unit :=
  fun st => (Ok tt, {| store := s; trace := trace st |}).

(** A member of a body of Logos whose type is [string | null]: the body
    may also lack it, and the member is then [undefined]. *)
Inductive Field : Type :=
| Undefined
| Null
| Text (s : string).

(** The value read from a nullable column. *)
Definition column (c : option string) : Field :=
  match c with
  | Some s => Text s
  | None => Null
  end.

(** The nullable column [stored] after [f] was given for it: Prisma leaves
    a column whose value is [undefined] as it is. *)
Definition written (f : Field) (stored : option string) : option string :=
  match f with
  | Undefined => stored
  | Null => None
  | Text s => Some s
  end.

(** ** Prisma: the statements the services issue *)

(** What the Prisma client makes of a value given for a column of type
    [String[]] when the value is no array: the list it stores for it, or
    [None] when it refuses the value with a validation error.  (An array
    is decided below: the model takes no side on the other values.) *)
Class PrismaClient : Type := {
  scalar_list_of : json -> option json
}.

Module Prisma.

(** A generated primary key. *)
Definition fresh_id (s : Store) : string := "id-" +:+ pretty (next_id s).

(** [orderBy: { created_at: 'asc' }]: rows with equal timestamps keep
    their insertion order. *)
Fixpoint insert_by_created_at (m : ChatMessage) (l : list ChatMessage) : list ChatMessage :=
  match l with
  | [] => [m]
  | x :: rest =>
      if (msg_created_at m <=? msg_created_at x)%Z then m :: l
      else x :: insert_by_created_at m rest
  end.

Definition orderBy_created_at_asc (l : list ChatMessage) : list ChatMessage :=
  foldr insert_by_created_at [] l.

Definition of_session (sid : string) (m : ChatMessage) : bool :=
  String.eqb (msg_session_id m) sid.

(** The rows of ["ChatMessage"] that reference the session [sid]. *)
Definition messages_of (sid : string) (s : Store) : list ChatMessage :=
  List.filter (of_session sid) (chatMessages s).

(** Some row of ["ChatSession"] has the primary key [sid]. *)
Definition session_exists (sid : string) (s : Store) : bool :=
  existsb (fun kv => String.eqb (session_id (snd kv)) sid)
          (map_to_list (chatSessions s)).

(** [prisma.document.findUnique({ where: { id } })]. *)
Definition document_findUnique (id : string) : M (option Document) :=
  s ← read_store; mret (documents s !! id).

(** [prisma.chatSession.findUnique({ where: { document_id } })]. *)
Definition chatSession_findUnique (document_id : string) : M (option ChatSession) :=
  s ← read_store; mret (chatSessions s !! document_id).

(** [prisma.chatSession.findUnique({ where: { document_id }, include:
    { messages: { orderBy: { created_at: 'asc' } } } })]. *)
Definition chatSession_findUnique_with_messages (document_id : string)
  : M (option (ChatSession * list ChatMessage)) :=
  s ← read_store;
  mret (match chatSessions s !! document_id with
        | Some session =>
            Some (session, orderBy_created_at_asc (messages_of (session_id session) s))
        | None => None
        end).

(** [prisma.chatSession.create({ data: { document_id } })]: the foreign
    key to ["Document"] and the unique index on [document_id] hold. *)
Definition chatSession_create (document_id : string) : M ChatSession :=
  s ← read_store;
  match documents s !! document_id, chatSessions s !! document_id with
  | None, _ => throw (PrismaError "Foreign key constraint failed")
  | Some _, Some _ => throw (PrismaError "Unique constraint failed")
  | Some _, None =>
      let session := {| session_id := fresh_id s;
                        session_created_at := clock s;
                        session_updated_at := clock s |} in
      _ ← write_store {| documents := documents s;
                         chatSessions := <[document_id := session]> (chatSessions s);
                         chatMessages := chatMessages s;
                         clock := (clock s + 1)%Z;
                         next_id := (next_id s + 1)%N |};
      _ ← emit (EvSessionCreate document_id session);
      mret session
  end.

Definition is_string (v : json) : bool :=
  match v with
  | JString _ => true
  | _ => false
  end.

(** The list stored for the column [chunk_ids] ([TEXT[]]) when [v] is
    given for it: an array of strings is stored as it is, an array with
    an element that is no string is refused ([None]: the client throws a
    validation error before anything is sent to the database). *)
Definition chunk_ids_input {client : PrismaClient} (v : json) : option json :=
  match v with
  | JArray elements => if forallb is_string elements then Some v else None
  | _ => scalar_list_of v
  end.

(** [prisma.chatMessage.create({ data })]: the value of [chunk_ids] is
    validated, and the foreign key to ["ChatSession"] holds. *)
Definition chatMessage_create {client : PrismaClient} (sid : string) (role : Role)
    (content : string) (chunk_ids : json) : M ChatMessage :=
  match chunk_ids_input chunk_ids with
  | None => throw (PrismaError "Invalid value for argument `chunk_ids`")
  | Some stored =>
      s ← read_store;
      if session_exists sid s then
        let m := {| msg_id := fresh_id s;
                    msg_session_id := sid;
                    msg_role := role;
                    msg_content := content;
                    msg_chunk_ids := stored;
                    msg_created_at := clock s |} in
        _ ← write_store {| documents := documents s;
                           chatSessions := chatSessions s;
                           chatMessages := chatMessages s ++ [m];
                           clock := (clock s + 1)%Z;
                           next_id := (next_id s + 1)%N |};
        _ ← emit (EvMessageCreate m);
        mret m
      else throw (PrismaError "Foreign key constraint failed")
  end.

(** The rows left after the session of [document_id] is deleted:
    [ON DELETE CASCADE] removes its messages. *)
Definition without_session (document_id : string) (s : Store)
  : gmap string ChatSession * list ChatMessage :=
  match chatSessions s !! document_id with
  | Some session =>
      (delete document_id (chatSessions s),
       List.filter (fun m => negb (of_session (session_id session) m)) (chatMessages s))
  | None => (chatSessions s, chatMessages s)
  end.

(** [prisma.chatSession.deleteMany({ where: { document_id } })]. *)
Definition chatSession_deleteMany (document_id : string) : M unit :=
  s ← read_store;
  let '(sessions, messages) := without_session document_id s in
  _ ← write_store {| documents := documents s;
                     chatSessions := sessions;
                     chatMessages := messages;
                     clock := clock s;
                     next_id := next_id s |};
  emit (EvSessionDeleteMany document_id).

(** The columns [getStatus] writes.  [upd_status] is the value given for
    the column [status]: [None] is [undefined] (the column is left as it
    is), a string that is no enum member is rejected.  The other columns
    are left as they are when their value is [Undefined]. *)
Record DocumentUpdate : Type := {
  upd_status : option string;
  upd_summary : Field;
  upd_classification : Field;
  upd_error_message : Field
}.

Definition apply_update (d : Document) (status : DocumentStatus)
    (u : DocumentUpdate) (now : Z) : Document :=
  {| doc_user_id := doc_user_id d;
     doc_filename := doc_filename d;
     doc_content_type := doc_content_type d;
     doc_logos_id := doc_logos_id d;
     doc_status := status;
     doc_summary := written (upd_summary u) (doc_summary d);
     doc_classification := written (upd_classification u) (doc_classification d);
     doc_error_message := written (upd_error_message u) (doc_error_message d);
     doc_created_at := doc_created_at d;
     doc_updated_at := now |}.

(** [prisma.document.update({ where: { id }, data })]. *)
Definition document_update (id : string) (u : DocumentUpdate) : M Document :=
  s ← read_store;
  match documents s !! id with
  | None => throw (PrismaError "Record to update not found")
  | Some d =>
      let status :=
        match upd_status u with
        | None => Some (doc_status d)
        | Some name => status_of_name name
        end in
      match status with
      | None => throw (PrismaError "Invalid value for argument `status`")
      | Some status =>
          let d' := apply_update d status u (clock s) in
          _ ← write_store {| documents := <[id := d']> (documents s);
                             chatSessions := chatSessions s;
                             chatMessages := chatMessages s;
                             clock := (clock s + 1)%Z;
                             next_id := next_id s |};
          _ ← emit (EvDocumentUpdate id d');
          mret d'
      end
  end.

(** [prisma.document.delete({ where: { id } })]: [ON DELETE CASCADE]
    removes the session of the document and its messages. *)
Definition document_delete (id : string) : M unit :=
  s ← read_store;
  match documents s !! id with
  | None => throw (PrismaError "Record to delete does not exist")
  | Some _ =>
      let '(sessions, messages) := without_session id s in
      _ ← write_store {| documents := delete id (documents s);
                         chatSessions := sessions;
                         chatMessages := messages;
                         clock := clock s;
                         next_id := next_id s |};
      emit (EvDocumentDelete id)
  end.

End Prisma.

(** ** The Logos service as seen through the HTTP client *)

(** The body of [GET /documents/:id/status] ([LogosStatusResponse]).
    [None] in [ls_status] is a missing status. *)
Record LogosStatusResponse : Type := {
  ls_id : string;
  ls_status : option string;
  ls_summary : Field;
  ls_classification : Field;
  ls_error_message : Field
}.

(** The response to [POST /chat] with [responseType: 'stream']: the chunks
    it delivers, each a buffer of bytes, and how it ends: normally, or with
    a failure after the chunks (with no chunk when the request itself
    fails). *)
Record ChatResponse : Type := {
  chunks : list string;
  failure : option Failure
}.

(** The chunks as strings: [chunk.toString()] of each. *)
Definition decoded (response : ChatResponse) : list string :=
  map Buffer.toString (chunks response).

(** What the Logos endpoints answer. *)
Record Logos : Type := {
  get_status : string -> Failure + LogosStatusResponse;
  delete_document : string -> option Failure;
  post_chat : string -> string -> list ChatMessageDto -> ChatResponse
}.

(** What a generator gives to the loop that drains it: the values it
    yields, then its end or the exception it throws. *)
Record Stream : Type := {
  yielded : list string;
  thrown : option Exception
}.

(** ** DTOs *)

(** [ChatRequestDto]. *)
Record ChatRequestDto : Type := {
  req_document_id : string;
  req_message : string;
  req_conversation_history : option (list ChatMessageDto)
}.

(** [ChatMessageResponseDto]. *)
Record ChatMessageResponseDto : Type := {
  res_id : string;
  res_role : Role;
  res_content : string;
  res_chunk_ids : json;
  res_created_at : Z
}.

(** [ChatHistoryResponseDto]. *)
Record ChatHistoryResponseDto : Type := {
  hist_session_id : string;
  hist_document_id : string;
  hist_messages : list ChatMessageResponseDto
}.

(** The object [DocumentsService.getStatus] returns.  [None] in
    [st_status] is [undefined]. *)
Record StatusDto : Type := {
  st_id : string;
  st_status : option string;
  st_summary : Field;
  st_classification : Field;
  st_error_message : Field
}.

(** The state of the incremental parser of [streamChat]: the variables
    [fullResponse] and [chunkIds].  [fullResponse] holds what was
    appended, one string after the other; its text is [Json.paired] of
    it. *)
Record Accumulated : Type := {
  fullResponse : string;
  chunkIds : json
}.

(** [a || b] on a string that may be [undefined]: the empty string is
    falsy. *)
Definition string_or (a : option string) (b : string) : string :=
  match a with
  | Some s => if String.eqb s "" then b else s
  | None => b
  end.

(** [a || b] on a number that may be [undefined]: zero is falsy. *)
Definition number_or (a : option Z) (b : Z) : Z :=
  match a with
  | Some n => if (n =? 0)%Z then b else n
  | None => b
  end.

(** [!logos_id] on a nullable string: [null] and the empty string. *)
Definition falsy (a : option string) : bool :=
  match a with
  | Some s => String.eqb s ""
  | None => true
  end.

(** ** [LogosService] (logos.service.ts); its own error log is not traced *)

Module LogosService.
Section WithLogos.

Context (logos : Logos) {js_unicode : JsUnicode}.

(** [handleError(error, message): never]. *)
Definition handleError {A : Type} (error : Failure) (message : string) : M A :=
  match error with
  | Axios _ status detail =>
      throw (HttpException (string_or detail message) (number_or status 500))
  | NotAxios _ => throw (HttpException message 500)
  end.

(** [getDocumentStatus(logosId)]. *)
Definition getDocumentStatus (logosId : string) : M LogosStatusResponse :=
  _ ← emit (EvLogosStatus logosId);
  match get_status logos logosId with
  | inr data =>
      mret {| ls_id := ls_id data;
              ls_status := option_map JsString.toUpperCase (ls_status data);
              ls_summary := ls_summary data;
              ls_classification := ls_classification data;
              ls_error_message := ls_error_message data |}
  | inl error => handleError error "Failed to get document status from Logos"
  end.

(** [deleteDocument(logosId)]. *)
Definition deleteDocument (logosId : string) : M unit :=
  _ ← emit (EvLogosDelete logosId);
  match delete_document logos logosId with
  | None => mret tt
  | Some error => handleError error "Failed to delete document from Logos"
  end.

(** [chatStream(logosDocumentId, message, conversationHistory)]: the
    request is sent when the generator is first pulled, and each chunk of
    the response is yielded as the string [chunk.toString()] gives, in
    order; a failure of the request or of the response is thrown as it
    is. *)
Definition chatStream (logosDocumentId message : string)
    (conversationHistory : list ChatMessageDto) : M Stream :=
  _ ← emit (EvLogosChat logosDocumentId message conversationHistory);
  let response := post_chat logos logosDocumentId message conversationHistory in
  mret {| yielded := decoded response;
          thrown := option_map Unhandled (failure response) |}.

End WithLogos.
End LogosService.

(** ** [DocumentsService] (documents.service.ts) *)

Module DocumentsService.
Section WithLogos.

Context (logos : Logos) {js_unicode : JsUnicode}.

(** [findOne(userId, documentId)]. *)
Definition findOne (userId documentId : string) : M Document :=
  document ← Prisma.document_findUnique documentId;
  match document with
  | None => throw (NotFoundException "Document not found")
  | Some document =>
      if negb (String.eqb (doc_user_id document) userId)
      then throw (ForbiddenException "Access denied")
      else mret document
  end.

(** The local cached fields, as they are. *)
Definition local_status (documentId : string) (document : Document) : StatusDto :=
  {| st_id := documentId;
     st_status := Some (status_name (doc_status document));
     st_summary := column (doc_summary document);
     st_classification := column (doc_classification document);
     st_error_message := column (doc_error_message document) |}.

(** [getStatus(userId, documentId)]. *)
Definition getStatus (userId documentId : string) : M StatusDto :=
  document ← findOne userId documentId;
  if falsy (doc_logos_id document) then mret (local_status documentId document)
  else
    (* Fetch fresh status from Logos *)
    logosStatus ← LogosService.getDocumentStatus logos
                    (default "" (doc_logos_id document));
    (* Update local record if status changed *)
    _ ← (if negb (bool_decide (ls_status logosStatus
                               = Some (status_name (doc_status document))))
         then
           _ ← Prisma.document_update documentId
                 {| Prisma.upd_status := ls_status logosStatus;
                    Prisma.upd_summary := ls_summary logosStatus;
                    Prisma.upd_classification := ls_classification logosStatus;
                    Prisma.upd_error_message := ls_error_message logosStatus |};
           mret tt
         else mret tt);
    mret {| st_id := documentId;
            st_status := ls_status logosStatus;
            st_summary := ls_summary logosStatus;
            st_classification := ls_classification logosStatus;
            st_error_message := ls_error_message logosStatus |}.

(** [delete(userId, documentId)]; the value returned is the [message] of
    the object. *)
Definition delete (userId documentId : string) : M string :=
  document ← findOne userId documentId;
  (* Delete from Logos if it has a reference *)
  _ ← (if falsy (doc_logos_id document) then mret tt
       else
         try_catch
           (LogosService.deleteDocument logos (default "" (doc_logos_id document)))
           (fun error =>
              emit (EvWarn ("Failed to delete document from Logos: "
                            +:+ exception_message error))));
  (* Delete local record *)
  _ ← Prisma.document_delete documentId;
  mret "Document deleted successfully".

End WithLogos.
End DocumentsService.

(** ** [ChatService] (chat.service.ts) *)

Module ChatService.
Section WithLogos.

Context (logos : Logos) {js_number : JsNumber} {prisma_client : PrismaClient}.

(** [validateDocumentAccess(userId, documentId)]. *)
Definition validateDocumentAccess (userId documentId : string) : M Document :=
  document ← Prisma.document_findUnique documentId;
  match document with
  | None => throw (NotFoundException "Document not found")
  | Some document =>
      if negb (String.eqb (doc_user_id document) userId)
      then throw (ForbiddenException "Access denied")
      else if negb (bool_decide (doc_status document = COMPLETED))
      then throw (BadRequestException
                    ("Document is not ready. Current status: "
                     +:+ status_name (doc_status document)))
      else if falsy (doc_logos_id document)
      then throw (BadRequestException "Document has no Logos reference")
      else mret document
  end.

(** [getOrCreateSession(documentId)]. *)
Definition getOrCreateSession (documentId : string) : M ChatSession :=
  session ← Prisma.chatSession_findUnique documentId;
  match session with
  | Some session => mret session
  | None => Prisma.chatSession_create documentId
  end.

Definition to_response (m : ChatMessage) : ChatMessageResponseDto :=
  {| res_id := msg_id m;
     res_role := msg_role m;
     res_content := msg_content m;
     res_chunk_ids := msg_chunk_ids m;
     res_created_at := msg_created_at m |}.

(** [getChatHistory(userId, documentId)]. *)
Definition getChatHistory (userId documentId : string) : M ChatHistoryResponseDto :=
  _ ← validateDocumentAccess userId documentId;
  session ← Prisma.chatSession_findUnique_with_messages documentId;
  match session with
  | None =>
      mret {| hist_session_id := "";
              hist_document_id := documentId;
              hist_messages := [] |}
  | Some (session, messages) =>
      mret {| hist_session_id := session_id session;
              hist_document_id := documentId;
              hist_messages := map to_response messages |}
  end.

(** [clearChatHistory(userId, documentId)]. *)
Definition clearChatHistory (userId documentId : string) : M unit :=
  _ ← validateDocumentAccess userId documentId;
  Prisma.chatSession_deleteMany documentId.

(** [saveMessage(documentId, role, content, chunkIds = [])]. *)
Definition saveMessage (documentId : string) (role : Role) (content : string)
    (chunkIds : json) : M ChatMessage :=
  session ← getOrCreateSession documentId;
  Prisma.chatMessage_create (session_id session) role content chunkIds.

(** The rest of the [try] block once [data.content] was read: the
    identifiers are replaced when the payload carries some. *)
Definition track_chunk_ids (data : json) (acc : Accumulated) : Accumulated :=
  match Json.prop data "chunk_ids" with
  | Some chunk_ids =>
      if truthy (Some chunk_ids)
      then {| fullResponse := fullResponse acc; chunkIds := chunk_ids |}
      else acc
  | None => acc
  end.

(** The body of [for (const line of lines)]: a line that starts with
    the prefix carries a payload.  Whatever the [try] block throws is
    caught and the variables are left as they are: a payload that
    [JSON.parse] rejects, the payload [null] (reading a property of it
    throws), and a content that cannot be converted to a string (the
    [+=] throws before the identifiers are read). *)
Definition parse_line (acc : Accumulated) (line : string) : Accumulated :=
  if JsString.startsWith "data: " line then
    match Json.parse (JsString.slice 6 line) with
    | None => acc
    | Some JNull => acc
    | Some data =>
        match Json.prop data "content" with
        | Some content =>
            if truthy (Some content) then
              match ToString content with
              | Some text =>
                  track_chunk_ids data
                    {| fullResponse := fullResponse acc +:+ text;
                       chunkIds := chunkIds acc |}
              | None => acc
              end
            else track_chunk_ids data acc
        | None => track_chunk_ids data acc
        end
    end
  else acc.

(** What one chunk does to the variables. *)
Definition parse_chunk (acc : Accumulated) (chunk : string) : Accumulated :=
  fold_left parse_line (JsString.split JsString.LF chunk) acc.

(** The body of [for await (const chunk of stream)], once for each chunk
    the stream yields. *)
Fixpoint for_await (stream_chunks : list string) (acc : Accumulated) : M Accumulated :=
  match stream_chunks with
  | [] => mret acc
  | chunk :: rest =>
      (* Parse chunk to accumulate full response *)
      let acc' := parse_chunk acc chunk in
      _ ← emit (EvYield chunk);
      for_await rest acc'
  end.

(** [streamChat(userId, chatRequest)], drained by its consumer. *)
Definition streamChat (userId : string) (chatRequest : ChatRequestDto) : M unit :=
  document ← validateDocumentAccess userId (req_document_id chatRequest);
  (* Save user message *)
  _ ← saveMessage (req_document_id chatRequest) user (req_message chatRequest) (JArray []);
  (* Get existing history from DB for context *)
  history ← getChatHistory userId (req_document_id chatRequest);
  let conversationHistory :=
    map (fun m => {| dto_role := res_role m; dto_content := res_content m |})
        (removelast (hist_messages history)) (* Exclude the message we just saved *) in
  (* Stream from Logos service; [document.logos_id!] was checked by the
     validation *)
  stream ← LogosService.chatStream logos (default "" (doc_logos_id document))
             (req_message chatRequest) conversationHistory;
  acc ← for_await (yielded stream) {| fullResponse := ""; chunkIds := JArray [] |};
  _ ← match thrown stream with
      | Some error => throw error
      | None => mret tt
      end;
  (* Save assistant response after streaming completes *)
  if negb (String.eqb (fullResponse acc) "") then
    _ ← saveMessage (req_document_id chatRequest) assistant
          (Json.paired (fullResponse acc)) (chunkIds acc);
    mret tt
  else mret tt.

End WithLogos.
End ChatService.

(** ** The specification's reading of a stream *)

Module Spec.
Section WithNumbers.

Context {js_number : JsNumber}.

(** The content of a payload as text: empty when the payload has none
    or a falsy one, and [None] when it has one that cannot be converted
    to a string. *)
Definition content_text (data : json) : option string :=
  match Json.prop data "content" with
  | Some content => if truthy (Some content) then ToString content else Some ""
  | None => Some ""
  end.

(** The JSON payload a line carries: the line begins with the event-data
    prefix, the rest of it parses, and its content, if any, can be
    converted to a string. *)
Definition payload (line : string) : option json :=
  if JsString.startsWith "data: " line then
    match Json.parse (JsString.slice 6 line) with
    | Some data =>
        match content_text data with
        | Some _ => Some data
        | None => None
        end
    | None => None
    end
  else None.

(** The content fragment a line carries, as text; empty when it carries
    none. *)
Definition content_fragment (line : string) : string :=
  match payload line with
  | Some data => default "" (content_text data)
  | None => ""
  end.

(** The set of chunk identifiers a line carries. *)
Definition chunk_ids_fragment (line : string) : option json :=
  match payload line with
  | Some data =>
      match Json.prop data "chunk_ids" with
      | Some chunk_ids => if truthy (Some chunk_ids) then Some chunk_ids else None
      | None => None
      end
  | None => None
  end.

(** The concatenation, in arrival order, of the content fragments. *)
Definition content_of (lines : list string) : string :=
  String.concat "" (map content_fragment lines).

(** The last set of chunk identifiers seen; none seen is the empty list. *)
Definition chunk_ids_of (lines : list string) : json :=
  List.last (omap chunk_ids_fragment lines) (JArray []).

End WithNumbers.

(** Chunks that are whole lines: each chunk is a non-empty sequence of
    lines joined by line feeds (a chunk that ends with a line feed ends
    with an empty line). *)
Definition whole_lines (lss : list (list string)) : Prop :=
  Forall (fun ls => ls <> [] /\ Forall (fun l => JsString.lacks JsString.LF l = true) ls) lss.

(** The request passes [validateDocumentAccess]: the document [d] is the
    row of [documentId], owned by [userId], completed and with a Logos
    reference. *)
Definition accepted (s : Store) (userId documentId : string) (d : Document) : Prop :=
  documents s !! documentId = Some d /\ doc_user_id d = userId
  /\ doc_status d = COMPLETED /\ falsy (doc_logos_id d) = false.

(** The chunks a trace shows as yielded to the caller, in order. *)
Definition yields (t : list Event) : list string :=
  omap (fun e => match e with EvYield chunk => Some chunk | _ => None end) t.

(** The session a message of [documentId] goes to, with the store and the
    trace entries of creating it when there was none. *)
Definition open_session (documentId : string) (s : Store)
  : ChatSession * Store * list Event :=
  match chatSessions s !! documentId with
  | Some session => (session, s, [])
  | None =>
      let session := {| session_id := Prisma.fresh_id s;
                        session_created_at := clock s;
                        session_updated_at := clock s |} in
      (session,
       {| documents := documents s;
          chatSessions := <[documentId := session]> (chatSessions s);
          chatMessages := chatMessages s;
          clock := (clock s + 1)%Z;
          next_id := (next_id s + 1)%N |},
       [EvSessionCreate documentId session])
  end.

(** The row a message becomes when it is inserted in [s]. *)
Definition new_message (sid : string) (role : Role) (content : string)
    (chunk_ids : json) (s : Store) : ChatMessage :=
  {| msg_id := Prisma.fresh_id s;
     msg_session_id := sid;
     msg_role := role;
     msg_content := content;
     msg_chunk_ids := chunk_ids;
     msg_created_at := clock s |}.

Definition add_message (m : ChatMessage) (s : Store) : Store :=
  {| documents := documents s;
     chatSessions := chatSessions s;
     chatMessages := chatMessages s ++ [m];
     clock := (clock s + 1)%Z;
     next_id := (next_id s + 1)%N |}.

(** The conversation sent to Logos: role and content of each message. *)
Definition to_dto (m : ChatMessage) : ChatMessageDto :=
  {| dto_role := msg_role m; dto_content := msg_content m |}.

(** No message of the store is later than its clock. *)
Definition clock_ahead (s : Store) : Prop :=
  Forall (fun m => (msg_created_at m <= clock s)%Z) (chatMessages s).

Definition by_created_at (a b : ChatMessage) : Prop :=
  (msg_created_at a <= msg_created_at b)%Z.

Section Outcome.

Context (logos : Logos) {js_number : JsNumber} {prisma_client : PrismaClient}.

(** The conversation of the session [sid] in creation order, without its
    last message. *)
Definition context_of (sid : string) (s : Store) : list ChatMessageDto :=
  map to_dto (removelast (Prisma.orderBy_created_at_asc (Prisma.messages_of sid s))).

(** The parser before the first chunk. *)
Definition nothing_yet : Accumulated := {| fullResponse := ""; chunkIds := JArray [] |}.

(** What a chat on the accepted document [d] comes to, in closed form: the
    user message goes to the session, the stream is opened, its chunks are
    yielded as strings, and when the stream ends normally with a non-empty
    buffer the reply is saved, unless the store refuses its chunk ids. *)
Definition chat_outcome (chatRequest : ChatRequestDto) (d : Document) (st : State)
  : Result unit * State :=
  let opened := open_session (req_document_id chatRequest) (store st) in
  let sid := session_id opened.1.1 in
  let asked := new_message sid user (req_message chatRequest) (JArray []) opened.1.2 in
  let s2 := add_message asked opened.1.2 in
  let logos_id := default "" (doc_logos_id d) in
  let history := context_of sid s2 in
  let response := post_chat logos logos_id (req_message chatRequest) history in
  let acc := fold_left ChatService.parse_chunk (decoded response) nothing_yet in
  let t := (trace st ++ opened.2
            ++ [EvMessageCreate asked; EvLogosChat logos_id (req_message chatRequest) history]
            ++ map EvYield (decoded response))%list in
  match failure response with
  | Some f => (Throw (Unhandled f), {| store := s2; trace := t |})
  | None =>
      if String.eqb (fullResponse acc) "" then (Ok tt, {| store := s2; trace := t |})
      else
        match Prisma.chunk_ids_input (chunkIds acc) with
        | Some ids =>
            let reply :=
              new_message sid assistant (Json.paired (fullResponse acc)) ids s2 in
            (Ok tt, {| store := add_message reply s2;
                      trace := (t ++ [EvMessageCreate reply])%list |})
        | None =>
            (Throw (PrismaError "Invalid value for argument `chunk_ids`"),
             {| store := s2; trace := t |})
        end
  end.

End Outcome.

End Spec.

(** ** Fixtures: a store, requests and Logos services to run the model on *)

Module Fixture.

Import JsString.

(** Numbers for streams whose payloads hold none in [content] and
    [chunk_ids]: there every instance gives the same result. *)
Definition literal_numbers : JsNumber :=
  {| Number_ToBoolean := fun _ => true; Number_ToString := fun literal => literal |}.

(** Case mapping for remote bodies whose strings are ASCII: there every
    instance gives the same result. *)
Definition ascii_case : JsUnicode := {| Unicode_toUpperCase := fun s => s |}.

(** A client that refuses, for a column of lists, every value that is no
    array. *)
Definition strict_client : PrismaClient :=
  {| scalar_list_of := fun _ => None |}.

Definition document (owner : string) (status : DocumentStatus)
    (logos_id : option string) : Document :=
  {| doc_user_id := owner;
     doc_filename := "report.pdf";
     doc_content_type := "application/pdf";
     doc_logos_id := logos_id;
     doc_status := status;
     doc_summary := None;
     doc_classification := None;
     doc_error_message := None;
     doc_created_at := 0;
     doc_updated_at := 0 |}.

(** Alice owns a completed document, a pending one, one that was never
    uploaded to Logos and a completed one that lost its Logos reference; Bob
    owns a completed one. *)
Definition initial : State :=
  {| store := {| documents :=
                   <["doc-ready" := document "alice" COMPLETED (Some "logos-1")]>
                   (<["doc-pending" := document "alice" PENDING (Some "logos-2")]>
                   (<["doc-local" := document "alice" PENDING None]>
                   (<["doc-orphan" := document "alice" COMPLETED None]>
                   (<["doc-bob" := document "bob" COMPLETED (Some "logos-3")]> ∅))));
                 chatSessions := ∅;
                 chatMessages := [];
                 clock := 1;
                 next_id := 0 |};
     trace := [] |}.

Definition request_for (document_id message : string)
    (history : option (list ChatMessageDto)) : ChatRequestDto :=
  {| req_document_id := document_id;
     req_message := message;
     req_conversation_history := history |}.

(** A question about the completed document of Alice. *)
Definition request (message : string) (history : option (list ChatMessageDto))
  : ChatRequestDto :=
  request_for "doc-ready" message history.

Definition eol : string := String LF EmptyString.

(** A Logos service that answers every chat with [response], every status
    request with [status] and every delete with [deleted]. *)
Definition service (response : ChatResponse)
    (status : Failure + LogosStatusResponse) (deleted : option Failure) : Logos :=
  {| get_status := fun _ => status;
     delete_document := fun _ => deleted;
     post_chat := fun _ _ _ => response |}.

Definition unavailable : Failure := Axios "connect ECONNREFUSED 127.0.0.1:8000" None None.

(** A Logos service for chat only. *)
Definition chat_service (stream_chunks : list string) (end_ : option Failure) : Logos :=
  service {| chunks := stream_chunks; failure := end_ |} (inl unavailable) (Some unavailable).

(** A Logos service that reports the document as completed, in lower
    case, with a summary, and fails every delete. *)
Definition status_service : Logos :=
  service {| chunks := []; failure := None |}
    (inr {| ls_id := "logos-2";
            ls_status := Some "completed";
            ls_summary := Text "A report.";
            ls_classification := Text "report";
            ls_error_message := Null |})
    (Some unavailable).

(** The three events of the specification's example, one per chunk. *)
Definition hello_lines : list string :=
  [quoted "data: {'content':'Hel'}";
   quoted "data: {'content':'lo'}";
   quoted "data: {'chunk_ids':['a','b']}"].

Definition hello_chunks : list (list string) :=
  map (fun line => [line; ""; ""]) hello_lines.

Definition hello_service : Logos :=
  chat_service (map (join LF) hello_chunks) None.

(** The state after Alice asked about her completed document and the stream
    of the example answered. *)
Definition after_hello : State :=
  (ChatService.streamChat hello_service (js_number := literal_numbers)
     (prisma_client := strict_client)
     "alice" (request "What is it about?" None) initial).2.

(** The stream of the example with a malformed line in its middle. *)
Definition garbled_chunks : list string :=
  [quoted "data: {'content':'Hel'}" +:+ eol;
   quoted "data: {not json" +:+ eol;
   quoted "data: {'content':'lo'}" +:+ eol +:+ quoted "data: {'chunk_ids':['a','b']}" +:+ eol].

(** A data line with a blank after its payload, cut before the blank: the
    two chunks of the stream are [cut_first] and [cut_second]. *)
Definition cut_line : string := quoted "data: {'content':'Hi'} ".
Definition cut_first : string := quoted "data: {'content':'Hi'}".
Definition cut_second : string := " " +:+ eol.

(** A data line cut inside its payload. *)
Definition torn_first : string := quoted "data: {'content':'He".
Definition torn_second : string := quoted "llo'}".

(** A stream whose second line carries chunk ids beside a content that
    cannot be converted to a string. *)
Definition masked_lines : list string :=
  [quoted "data: {'content':'x'}";
   quoted "data: {'content':{'toString':1},'chunk_ids':['z']}"].

Definition masked_chunks : list (list string) :=
  map (fun line => [line; ""]) masked_lines.

Definition masked_service : Logos :=
  chat_service (map (join LF) masked_chunks) None.

(** A stream whose chunk ids are numbers. *)
Definition numbered_chunks : list string :=
  [quoted "data: {'content':'x','chunk_ids':[1,2]}" +:+ eol].

Definition numbered_service : Logos := chat_service numbered_chunks None.

(** The line [data: {"content":"café"}] in UTF-8, cut between the two
    bytes of its last letter (195 and 169). *)
Definition accent_first : string :=
  quoted "data: {'content':'caf" +:+ String (ascii_of_nat 195) "".
Definition accent_second : string :=
  String (ascii_of_nat 169) (quoted "'}" +:+ eol).

Definition accent_service : Logos := chat_service [accent_first; accent_second] None.

(** The two halves of U+1F600, escaped, in two content fragments. *)
Definition halves_chunks : list string :=
  [quoted "data: {'content':'\ud83d'}" +:+ eol;
   quoted "data: {'content':'\ude00'}" +:+ eol].

Definition halves_service : Logos := chat_service halves_chunks None.

(** A Logos service that reports a status outside the enumeration. *)
Definition archived_service : Logos :=
  service {| chunks := []; failure := None |}
    (inr {| ls_id := "logos-2";
            ls_status := Some "archived";
            ls_summary := Text "A report.";
            ls_classification := Null;
            ls_error_message := Null |})
    None.

End Fixture.

(** ** Upload and synchronisation: the rest of the document services *)

(** [Express.Multer.File], with the fields the services read. *)
Record File : Type := {
  originalname : string;
  mimetype : string;
  buffer : list Byte.byte
}.

(** The body of [POST /documents/upload] ([LogosUploadResponse]); [None]
    is a field the body does not have. *)
Record LogosUploadResponse : Type := {
  up_id : option string;
  up_message : option string
}.

(** The body of [GET /documents/:id] ([LogosDocument]). *)
Record LogosDocument : Type := {
  ld_id : string;
  ld_filename : string;
  ld_content_type : string;
  ld_status : option string;
  ld_summary : Field;
  ld_classification : Field;
  ld_error_message : Field;
  ld_created_at : string;
  ld_updated_at : string
}.

(** What the two other Logos endpoints answer. *)
Record LogosDocuments : Type := {
  post_upload : File -> Failure + LogosUploadResponse;
  get_document : string -> Failure + LogosDocument
}.

(** The services that upload and synchronise run in the monad [D]: its
    state has the rows of ["User"] beside the store, and its trace has the
    events of [M] and three more. *)
Module Directory.

Inductive DirectoryEvent : Type :=
| Traced (e : Event)
| EvLogosUpload (file : File)
| EvLogosDocument (logos_id : string)
| EvDocumentCreate (id : string) (d : Document).

Record DirectoryState : Type := {
  dir_store : Store;
  dir_users : gset string;
  dir_trace : list DirectoryEvent
}.

Definition D (A : Type) : Type := DirectoryState -> Result A * DirectoryState.

#[export] Instance D_ret : MRet D := fun A (a : A) ds => (Ok a, ds).

#[export] Instance D_bind : MBind D := fun A B (k : A -> D B) (m : D A) ds =>
  match m ds with
  | (Ok a, ds') => k a ds'
  | (Throw e, ds') => (Throw e, ds')
  end.

Definition raise {A : Type} (e : Exception) : D A := fun ds => (Throw e, ds).

Definition record (e : DirectoryEvent) : D unit :=
  fun ds => (Ok tt, {| dir_store := dir_store ds;
                       dir_users := dir_users ds;
                       dir_trace := dir_trace ds ++ [e] |}).

(** A computation of [M] run in [D]: on the store, its trace entries
    added in their order. *)
Definition lift {A : Type} (m : M A) : D A :=
  fun ds =>
    let '(r, st) := m {| store := dir_store ds; trace := [] |} in
    (r, {| dir_store := store st;
           dir_users := dir_users ds;
           dir_trace := dir_trace ds ++ map Traced (trace st) |}).

(** The entries of [M] in a trace of [D]. *)
Definition traced (t : list DirectoryEvent) : list Event :=
  omap (fun e => match e with Traced e => Some e | _ => None end) t.

End Directory.

(** [prisma.document.create] and [prisma.document.findMany]. *)
Module PrismaDocuments.

Import Directory.

(** The [data] of [document.create] in [uploadDocument]; the columns it
    leaves out take their defaults. *)
Record DocumentCreate : Type := {
  new_user_id : string;
  new_filename : string;
  new_content_type : string;
  new_logos_id : option string;
  new_status : DocumentStatus
}.

(** Some row of ["Document"] has [logos_id] in its column of that name
    ([CREATE UNIQUE INDEX "Document_logos_id_key"]; [NULL]s do not
    collide). *)
Definition logos_id_taken (logos_id : option string) (s : Store) : bool :=
  match logos_id with
  | Some reference =>
      existsb (fun kv => bool_decide (doc_logos_id (snd kv) = Some reference))
              (map_to_list (documents s))
  | None => false
  end.

(** [prisma.document.create({ data })]: the primary key, the unique index
    on [logos_id] and the foreign key to ["User"] hold.  The new row and
    its primary key are returned. *)
Definition document_create (data : DocumentCreate) : D (string * Document) :=
  fun ds =>
    let s := dir_store ds in
    let id := Prisma.fresh_id s in
    if bool_decide (is_Some (documents s !! id)) || logos_id_taken (new_logos_id data) s
    then raise (PrismaError "Unique constraint failed") ds
    else if negb (bool_decide (new_user_id data ∈ dir_users ds))
    then raise (PrismaError "Foreign key constraint failed") ds
    else
      let d := {| doc_user_id := new_user_id data;
                  doc_filename := new_filename data;
                  doc_content_type := new_content_type data;
                  doc_logos_id := new_logos_id data;
                  doc_status := new_status data;
                  doc_summary := None;
                  doc_classification := None;
                  doc_error_message := None;
                  doc_created_at := clock s;
                  doc_updated_at := clock s |} in
      (Ok (id, d),
       {| dir_store := {| documents := <[id := d]> (documents s);
                          chatSessions := chatSessions s;
                          chatMessages := chatMessages s;
                          clock := (clock s + 1)%Z;
                          next_id := (next_id s + 1)%N |};
          dir_users := dir_users ds;
          dir_trace := dir_trace ds ++ [EvDocumentCreate id d] |}).

End PrismaDocuments.

(** [prisma.document.findMany({ where: { user_id }, orderBy:
    { created_at: 'desc' } })] and [DocumentsService.findAllForUser]. *)
Module DocumentsQueries.

(** [orderBy: { created_at: 'desc' }] on rows with their keys. *)
Fixpoint insert_by_created_at_desc (row : string * Document)
    (rows : list (string * Document)) : list (string * Document) :=
  match rows with
  | [] => [row]
  | x :: rest =>
      if (doc_created_at (snd x) <=? doc_created_at (snd row))%Z then row :: rows
      else x :: insert_by_created_at_desc row rest
  end.

Definition orderBy_created_at_desc (rows : list (string * Document))
  : list (string * Document) :=
  foldr insert_by_created_at_desc [] rows.

Definition document_findMany (user_id : string) : M (list (string * Document)) :=
  s ← read_store;
  mret (orderBy_created_at_desc
          (List.filter (fun row => String.eqb (doc_user_id (snd row)) user_id)
                       (map_to_list (documents s)))).

(** [findAllForUser(userId)]. *)
Definition findAllForUser (userId : string) : M (list (string * Document)) :=
  document_findMany userId.

(** The row [a] was created no earlier than the row [b]. *)
Definition newer_first (a b : string * Document) : Prop :=
  (doc_created_at (snd b) <= doc_created_at (snd a))%Z.

End DocumentsQueries.

(** [LogosService.uploadDocument] and [LogosService.getDocument]. *)
Module LogosUploads.
Section WithLogos.

Import Directory.

Context (logos : LogosDocuments) {js_unicode : JsUnicode}.

(** [uploadDocument(file)]. *)
Definition uploadDocument (file : File) : D LogosUploadResponse :=
  _ ← record (EvLogosUpload file);
  match post_upload logos file with
  | inr data => mret data
  | inl error => lift (LogosService.handleError error "Failed to upload document to Logos")
  end.

(** [getDocument(logosId)]. *)
Definition getDocument (logosId : string) : D LogosDocument :=
  _ ← record (EvLogosDocument logosId);
  match get_document logos logosId with
  | inr data =>
      mret {| ld_id := ld_id data;
              ld_filename := ld_filename data;
              ld_content_type := ld_content_type data;
              ld_status := option_map JsString.toUpperCase (ld_status data);
              ld_summary := ld_summary data;
              ld_classification := ld_classification data;
              ld_error_message := ld_error_message data;
              ld_created_at := ld_created_at data;
              ld_updated_at := ld_updated_at data |}
  | inl error => lift (LogosService.handleError error "Failed to get document from Logos")
  end.

End WithLogos.
End LogosUploads.

(** [DocumentsService.uploadDocument] and [DocumentsService.syncDocument]. *)
Module DocumentsUploads.
Section WithLogos.

Import Directory.

Context (logos : LogosDocuments) {js_unicode : JsUnicode}.

(** The object [uploadDocument] returns. *)
Record UploadResult : Type := {
  upl_id : string;
  upl_logos_id : option string;
  upl_message : option string
}.

(** [uploadDocument(userId, file)]. *)
Definition uploadDocument (userId : string) (file : File) : D UploadResult :=
  (* Upload to Logos service *)
  logosResponse ← LogosUploads.uploadDocument logos file;
  (* Create local document record *)
  document ← PrismaDocuments.document_create
                {| PrismaDocuments.new_user_id := userId;
                   PrismaDocuments.new_filename := originalname file;
                   PrismaDocuments.new_content_type := mimetype file;
                   PrismaDocuments.new_logos_id := up_id logosResponse;
                   PrismaDocuments.new_status := PENDING |};
  mret {| upl_id := fst document;
          upl_logos_id := up_id logosResponse;
          upl_message := up_message logosResponse |}.

(** [syncDocument(userId, documentId)]. *)
Definition syncDocument (userId documentId : string) : D Document :=
  document ← lift (DocumentsService.findOne userId documentId);
  if falsy (doc_logos_id document)
  then raise (NotFoundException "Document has no Logos reference")
  else
    logosDoc ← LogosUploads.getDocument logos (default "" (doc_logos_id document));
    (* Update local record *)
    updated ← lift (Prisma.document_update documentId
                      {| Prisma.upd_status := ld_status logosDoc;
                         Prisma.upd_summary := ld_summary logosDoc;
                         Prisma.upd_classification := ld_classification logosDoc;
                         Prisma.upd_error_message := ld_error_message logosDoc |});
    mret updated.

End WithLogos.
End DocumentsUploads.

(** [DocumentsController] (documents.controller.ts): the handler of
    [POST /documents/upload], entered after the file pipe of the framework
    has accepted the file. *)
Module DocumentsController.
Section WithLogos.

Import Directory.

Context (logos : LogosDocuments) {js_unicode : JsUnicode}.

Definition allowedTypes : list string := ["application/pdf"; "text/plain"].

(** [list.includes(x)] on strings. *)
Definition includes (l : list string) (x : string) : bool :=
  existsb (String.eqb x) l.

(** [uploadDocument(userId, file)]; [None] is a request without a user
    id. *)
Definition uploadDocument (userId : option string) (file : File)
  : D DocumentsUploads.UploadResult :=
  if falsy userId then raise (BadRequestException "User ID is required")
  else if negb (includes allowedTypes (mimetype file))
  then raise (BadRequestException
                ("Invalid file type: " +:+ mimetype file
                 +:+ ". Allowed: " +:+ String.concat ", " allowedTypes))
  else DocumentsUploads.uploadDocument logos (default "" userId) file.

End WithLogos.
End DocumentsController.

(** What the properties of the upload services are stated with. *)
Module DirectorySpec.

Import Directory.

(** The row [uploadDocument] stores for [file] of [userId]. *)
Definition uploaded_row (userId : string) (file : File) (reference : option string)
    (s : Store) : Document :=
  {| doc_user_id := userId;
     doc_filename := originalname file;
     doc_content_type := mimetype file;
     doc_logos_id := reference;
     doc_status := PENDING;
     doc_summary := None;
     doc_classification := None;
     doc_error_message := None;
     doc_created_at := clock s;
     doc_updated_at := clock s |}.

(** The store accepts a new row of [userId] with the reference
    [reference]. *)
Definition insertable (userId : string) (reference : option string)
    (ds : DirectoryState) : Prop :=
  userId ∈ dir_users ds
  /\ documents (dir_store ds) !! Prisma.fresh_id (dir_store ds) = None
  /\ PrismaDocuments.logos_id_taken reference (dir_store ds) = false.

End DirectorySpec.

(** A directory for the examples: the store of [Fixture.initial] with the
    users Alice and Bob, and a Logos that takes every file. *)
Module DirectoryFixture.

Import Directory.

Definition initial : DirectoryState :=
  {| dir_store := store Fixture.initial;
     dir_users := {["alice"; "bob"]};
     dir_trace := [] |}.

Definition report : File :=
  {| originalname := "minutes.txt";
     mimetype := "text/plain";
     buffer := [Byte.x48; Byte.x69] |}.

(** The document as Logos has it once it is processed. *)
Definition processed (logos_id : string) : LogosDocument :=
  {| ld_id := logos_id;
     ld_filename := "minutes.txt";
     ld_content_type := "text/plain";
     ld_status := Some "completed";
     ld_summary := Text "Minutes of a meeting.";
     ld_classification := Text "minutes";
     ld_error_message := Null;
     ld_created_at := "2025-12-25T18:27:26Z";
     ld_updated_at := "2025-12-25T18:28:00Z" |}.

(** A Logos that files every upload under [logos-9]. *)
Definition service : LogosDocuments :=
  {| post_upload := fun _ => inr {| up_id := Some "logos-9";
                                    up_message := Some "Document uploaded" |};
     get_document := fun logos_id => inr (processed logos_id) |}.

(** A Logos that is down. *)
Definition down : LogosDocuments :=
  {| post_upload := fun _ => inl Fixture.unavailable;
     get_document := fun _ => inl Fixture.unavailable |}.

End DirectoryFixture.

(** ** [JSON.stringify] of the error object *)

Module JsonStringify.

Import JsString.

(** A hexadecimal digit, in lower case. *)
Definition hex_digit (n : N) : ascii :=
  ascii_of_N (if (n <? 10)%N then 48 + n else 87 + n).

(** What [JSON.stringify] writes for one character of a string: the
    double quote and the backslash are escaped with a backslash, the
    control characters are written [\b], [\t], [\n], [\f], [\r] or
    [\u00XX], and every other byte is written as it is (a string is the
    UTF-8 text of a well-formed JavaScript string). *)
Definition escape_char (c : ascii) : string :=
  let n := N_of_ascii c in
  if (n =? 34)%N then String "\" (String DQ "")
  else if (n =? 92)%N then String "\" (String "\" "")
  else if (n =? 8)%N then String "\" "b"
  else if (n =? 9)%N then String "\" "t"
  else if (n =? 10)%N then String "\" "n"
  else if (n =? 12)%N then String "\" "f"
  else if (n =? 13)%N then String "\" "r"
  else if (n <? 32)%N
  then String "\" (String "u" (String "0" (String "0"
         (String (hex_digit (n / 16)) (String (hex_digit (n mod 16)) "")))))
  else String c "".

Fixpoint quote_body (s : string) : string :=
  match s with
  | EmptyString => EmptyString
  | String c rest => escape_char c +:+ quote_body rest
  end.

(** [QuoteJSONString(s)]. *)
Definition QuoteJSONString (s : string) : string :=
  String DQ (quote_body s +:+ String DQ "").

(** [JSON.stringify({ error: message })] for a string [message]. *)
Definition stringify_error (message : string) : string :=
  quoted "{'error':" +:+ QuoteJSONString message +:+ "}".

(** The lexer of [JSON.parse] run over the beginning of a text: the mode
    it is left in and the tokens it has given. *)
Fixpoint lex_prefix (mode : Json.lex_mode) (s : string)
  : option (Json.lex_mode * list Json.token) :=
  match s with
  | EmptyString => Some (mode, [])
  | String c rest =>
      match Json.lex_step mode c with
      | Some (mode', ts) =>
          match lex_prefix mode' rest with
          | Some (mode'', ts') => Some (mode'', ts ++ ts')
          | None => None
          end
      | None => None
      end
  end.

(** The piece of a string literal the lexer makes of [escape_char c]. *)
Definition item (c : ascii) : Json.str_item :=
  let n := N_of_ascii c in
  if (n <? 32)%N && negb ((n =? 8)%N || (n =? 9)%N || (n =? 10)%N
                          || (n =? 12)%N || (n =? 13)%N)
  then Json.Unit n else Json.Byte c.

End JsonStringify.

(** ** [ChatController] (chat.controller.ts) *)

Module ChatController.
Section WithLogos.

Import JsString.

Context (logos : Logos) {js_number : JsNumber} {prisma_client : PrismaClient}.

(** What a handler does to the response object [res]. *)
Inductive ResponseEvent : Type :=
| ResSetHeader (name value : string)
| ResFlushHeaders
| ResWrite (chunk : string)
| ResEnd.

(** Set SSE headers. *)
Definition sse_headers : list ResponseEvent :=
  [ResSetHeader "Content-Type" "text/event-stream";
   ResSetHeader "Cache-Control" "no-cache";
   ResSetHeader "Connection" "keep-alive";
   ResFlushHeaders].

(** The error as an SSE event. *)
Definition error_event (message : string) : string :=
  "event: error" +:+ String LF
    ("data: " +:+ JsonStringify.stringify_error message +:+ String LF (String LF "")).

(** [chat(userId, chatRequest, res)]: the generator of [streamChat] is
    drained, every chunk it yields is written to the response, and an
    exception it throws is written as an error event; the value is what
    was done to the response, in order. *)
Definition chat (userId : string) (chatRequest : ChatRequestDto)
  : State -> list ResponseEvent * State :=
  fun st =>
    let '(outcome, st') :=
      ChatService.streamChat logos userId chatRequest
        {| store := store st; trace := [] |} in
    (sse_headers
     ++ map ResWrite (Spec.yields (trace st'))
     ++ match outcome with
        | Ok _ => [ResEnd]
        | Throw error => [ResWrite (error_event (exception_message error)); ResEnd]
        end,
     {| store := store st'; trace := trace st ++ trace st' |}).

End WithLogos.
End ChatController.

(* ===================================================================== *)
(** * Part II: properties                                                 *)
(* ===================================================================== *)

(** ** Strings *)

Section Strings.

Import JsString.

Lemma append_cons (c : ascii) (s t : string) :
  String c s +:+ t = String c (s +:+ t).
Proof. reflexivity. Qed.

Lemma append_empty_r (s : string) : s +:+ "" = s.
Proof.
  induction s as [|c s IH]; [reflexivity |].
  now rewrite append_cons, IH.
Qed.

Lemma append_assoc (a b c : string) : (a +:+ b) +:+ c = a +:+ (b +:+ c).
Proof.
  induction a as [|x a IH]; [reflexivity |].
  now rewrite !append_cons, IH.
Qed.

(** A string without the separator is one piece. *)
Lemma split_lacks (sep : ascii) (s : string) :
  lacks sep s = true -> split sep s = [s].
Proof.
  induction s as [|c s IH]; simpl; [reflexivity |].
  intros Hl. apply andb_true_iff in Hl as [Hc Hs].
  apply negb_true_iff in Hc. rewrite Hc, (IH Hs). reflexivity.
Qed.

(** The first separator ends the first piece. *)
Lemma split_app_sep (sep : ascii) (a b : string) :
  lacks sep a = true ->
  split sep (a +:+ String sep b) = a :: split sep b.
Proof.
  induction a as [|c a IH].
  - intros _. change ("" +:+ String sep b) with (String sep b).
    simpl. now rewrite Ascii.eqb_refl.
  - intros Hl. simpl in Hl. apply andb_true_iff in Hl as [Hc Ha].
    apply negb_true_iff in Hc. rewrite append_cons. simpl.
    rewrite Hc, (IH Ha). reflexivity.
Qed.

(** Splitting undoes joining, for pieces without the separator. *)
Lemma split_join (sep : ascii) (ls : list string) :
  ls <> [] -> Forall (fun l => lacks sep l = true) ls ->
  split sep (join sep ls) = ls.
Proof.
  induction ls as [|l ls IH]; [congruence |].
  intros _ Hall. inversion Hall as [|? ? Hl Hls]; subst.
  destruct ls as [|l' ls].
  - simpl. now apply split_lacks.
  - change (join sep (l :: l' :: ls)) with (l +:+ String sep (join sep (l' :: ls))).
    rewrite split_app_sep by assumption.
    rewrite IH; [reflexivity | congruence | assumption].
Qed.

End Strings.

(** ** Decoding a chunk *)

Section Decoding.

Import Buffer.

Lemma decode_awaits (bytes : string) (need : nat) (lo hi : N) (pending : string) :
  awaits need lo hi bytes = true ->
  decode need lo hi pending bytes
  = match need with
    | O => bytes
    | S _ => pending +:+ bytes
    end.
Proof.
  revert need lo hi pending.
  induction bytes as [|c rest IH]; intros need lo hi pending Hw.
  - destruct need; [reflexivity | discriminate].
  - destruct need as [|need].
    + cbn [awaits] in Hw. cbn [decode].
      destruct (between 0 127 c).
      * now rewrite (IH 0%nat _ _ "" Hw).
      * destruct (between 194 223 c); [now rewrite (IH 1%nat _ _ _ Hw) |].
        destruct (between 224 239 c); [now rewrite (IH 2%nat _ _ _ Hw) |].
        destruct (between 240 244 c); [now rewrite (IH 3%nat _ _ _ Hw) |].
        discriminate.
    + cbn [awaits] in Hw. apply andb_true_iff in Hw as [Hc Hrest].
      cbn [decode]. rewrite Hc. destruct need as [|need].
      * now rewrite (IH 0%nat _ _ "" Hrest).
      * rewrite (IH (S need) _ _ _ Hrest), append_assoc. reflexivity.
Qed.

(** A chunk of well-formed UTF-8 is its own text. *)
Lemma toString_well_formed (chunk : string) :
  well_formed chunk = true -> toString chunk = chunk.
Proof. intros Hw. unfold toString. now rewrite (decode_awaits _ 0%nat _ _ "" Hw). Qed.

Lemma decoded_well_formed (response : ChatResponse) :
  Forall (fun chunk => well_formed chunk = true) (chunks response) ->
  decoded response = chunks response.
Proof.
  unfold decoded. induction 1 as [|c cs Hc _ IH]; [reflexivity |].
  cbn [map]. now rewrite toString_well_formed, IH.
Qed.

End Decoding.

(** ** The monad *)

Ltac run_monad :=
  unfold mbind, M_bind, mret, M_ret, throw, try_catch, emit, read_store, write_store.

Lemma state_eta (st : State) : {| store := store st; trace := trace st |} = st.
Proof. now destruct st. Qed.

(** ** The incremental parser *)

Section Parser.

Context {js_number : JsNumber}.

Import JsString Spec ChatService.

Lemma concat_empty_cons (x : string) (xs : list string) :
  String.concat "" (x :: xs) = x +:+ String.concat "" xs.
Proof.
  destruct xs as [|y ys]; simpl; [now rewrite append_empty_r | reflexivity].
Qed.

Lemma last_default_irrelevant {A : Type} (l : list A) (d d' : A) :
  l <> [] -> List.last l d = List.last l d'.
Proof.
  induction l as [|x l IH]; [congruence |].
  intros _. destruct l as [|y l]; [reflexivity |].
  change (List.last (y :: l) d = List.last (y :: l) d'). apply IH. congruence.
Qed.

Lemma last_cons {A : Type} (x : A) (l : list A) (d : A) :
  List.last (x :: l) d = List.last l x.
Proof.
  destruct l as [|y l]; [reflexivity |].
  change (List.last (y :: l) d = List.last (y :: l) x).
  apply last_default_irrelevant. congruence.
Qed.

Lemma omap_cons {A B : Type} (f : A -> option B) (x : A) (l : list A) :
  omap f (x :: l) = match f x with Some y => y :: omap f l | None => omap f l end.
Proof. reflexivity. Qed.

(** One line appends its content fragment and replaces the tracked
    identifiers by its own, when it has any. *)
Lemma parse_line_spec (acc : Accumulated) (line : string) :
  parse_line acc line =
  {| fullResponse := fullResponse acc +:+ content_fragment line;
     chunkIds := default (chunkIds acc) (chunk_ids_fragment line) |}.
Proof.
  unfold parse_line, content_fragment, chunk_ids_fragment, payload.
  destruct acc as [full ids]. cbn [fullResponse chunkIds].
  destruct (startsWith "data: " line);
    [| cbn [default from_option id]; now rewrite append_empty_r].
  destruct (Json.parse (slice 6 line)) as [data|];
    [| cbn [default from_option id]; now rewrite append_empty_r].
  destruct data as [|b|lit|s|els|members];
    try (cbn [content_text Json.prop default from_option id];
         now rewrite append_empty_r).
  unfold content_text, track_chunk_ids.
  destruct (Json.prop (JObject members) "content") as [content|] eqn:Econtent.
  - destruct (truthy (Some content)) eqn:Etruthy.
    + destruct (ToString content) as [text|] eqn:Etext.
      * rewrite Econtent, Etruthy, Etext.
        destruct (Json.prop (JObject members) "chunk_ids") as [chunk_ids|];
          [destruct (truthy (Some chunk_ids)) |];
          cbn [fullResponse chunkIds default from_option id]; reflexivity.
      * cbn [default from_option id]. now rewrite append_empty_r.
    + rewrite Econtent, Etruthy.
      destruct (Json.prop (JObject members) "chunk_ids") as [chunk_ids|];
        [destruct (truthy (Some chunk_ids)) |];
        cbn [fullResponse chunkIds default from_option id];
        now rewrite append_empty_r.
  - rewrite Econtent.
    destruct (Json.prop (JObject members) "chunk_ids") as [chunk_ids|];
      [destruct (truthy (Some chunk_ids)) |];
      cbn [fullResponse chunkIds default from_option id];
      now rewrite append_empty_r.
Qed.

(** A sequence of lines appends the concatenation of its fragments and
    keeps the last identifiers seen. *)
Lemma parse_lines_spec (lines : list string) (acc : Accumulated) :
  fold_left parse_line lines acc =
  {| fullResponse := fullResponse acc +:+ content_of lines;
     chunkIds := List.last (omap chunk_ids_fragment lines) (chunkIds acc) |}.
Proof.
  revert acc. induction lines as [|l lines IH]; intros acc.
  - destruct acc. simpl. now rewrite append_empty_r.
  - simpl fold_left. rewrite IH, parse_line_spec.
    cbn [fullResponse chunkIds].
    unfold content_of. rewrite map_cons, concat_empty_cons, append_assoc.
    f_equal. rewrite omap_cons.
    destruct (chunk_ids_fragment l) as [ids|]; cbn [default from_option id].
    + now rewrite last_cons.
    + reflexivity.
Qed.

(** Chunks that are whole lines are parsed as the lines they hold. *)
Lemma parse_chunks_whole_lines (lss : list (list string)) (acc : Accumulated) :
  whole_lines lss ->
  fold_left parse_chunk (map (join LF) lss) acc =
  fold_left parse_line (List.concat lss) acc.
Proof.
  intros Hw. revert acc. induction Hw as [|ls lss [Hne Hls] _ IH]; intros acc.
  - reflexivity.
  - simpl. rewrite fold_left_app, <- IH. f_equal.
    unfold parse_chunk. now rewrite split_join.
Qed.

(** The loop yields every chunk, in order, whatever the parser makes of
    it, and leaves the store alone. *)
Lemma for_await_run (cs : list string) (acc : Accumulated) (st : State) :
  for_await cs acc st =
  (Ok (fold_left parse_chunk cs acc),
   {| store := store st; trace := trace st ++ map EvYield cs |}).
Proof.
  revert acc st. induction cs as [|c cs IH]; intros acc st.
  - simpl. run_monad. now rewrite app_nil_r, state_eta.
  - simpl. run_monad. rewrite IH. simpl. now rewrite <- app_assoc.
Qed.

End Parser.

(** ** Access validation *)

Section Validation.

Import Spec ChatService.

Lemma validate_not_found (userId documentId : string) (st : State) :
  documents (store st) !! documentId = None ->
  validateDocumentAccess userId documentId st =
  (Throw (NotFoundException "Document not found"), st).
Proof.
  intros Hd. unfold validateDocumentAccess, Prisma.document_findUnique.
  run_monad. now rewrite Hd.
Qed.

Lemma validate_forbidden (userId documentId : string) (st : State) (d : Document) :
  documents (store st) !! documentId = Some d ->
  doc_user_id d <> userId ->
  validateDocumentAccess userId documentId st =
  (Throw (ForbiddenException "Access denied"), st).
Proof.
  intros Hd Hu. unfold validateDocumentAccess, Prisma.document_findUnique.
  run_monad. rewrite Hd. apply String.eqb_neq in Hu. now rewrite Hu.
Qed.

Lemma validate_not_ready (userId documentId : string) (st : State) (d : Document) :
  documents (store st) !! documentId = Some d ->
  doc_user_id d = userId ->
  doc_status d <> COMPLETED ->
  validateDocumentAccess userId documentId st =
  (Throw (BadRequestException
            ("Document is not ready. Current status: " +:+ status_name (doc_status d))),
   st).
Proof.
  intros Hd Hu Hs. unfold validateDocumentAccess, Prisma.document_findUnique.
  run_monad. rewrite Hd. apply String.eqb_eq in Hu. rewrite Hu.
  now rewrite bool_decide_eq_false_2.
Qed.

Lemma validate_no_reference (userId documentId : string) (st : State) (d : Document) :
  documents (store st) !! documentId = Some d ->
  doc_user_id d = userId ->
  doc_status d = COMPLETED ->
  falsy (doc_logos_id d) = true ->
  validateDocumentAccess userId documentId st =
  (Throw (BadRequestException "Document has no Logos reference"), st).
Proof.
  intros Hd Hu Hs Hl. unfold validateDocumentAccess, Prisma.document_findUnique.
  run_monad. rewrite Hd. apply String.eqb_eq in Hu. rewrite Hu.
  rewrite bool_decide_eq_true_2 by assumption. now rewrite Hl.
Qed.

Lemma validate_accepted (userId documentId : string) (st : State) (d : Document) :
  accepted (store st) userId documentId d ->
  validateDocumentAccess userId documentId st = (Ok d, st).
Proof.
  intros (Hd & Hu & Hs & Hl). unfold validateDocumentAccess, Prisma.document_findUnique.
  run_monad. rewrite Hd. apply String.eqb_eq in Hu. rewrite Hu.
  rewrite bool_decide_eq_true_2 by assumption. now rewrite Hl.
Qed.

End Validation.

(** ** The session store *)

Section Sessions.

Context {prisma_client : PrismaClient}.

Import Spec ChatService.

(** The session of a document is a row of the session table. *)
Lemma session_exists_lookup (s : Store) (documentId : string) (session : ChatSession) :
  chatSessions s !! documentId = Some session ->
  Prisma.session_exists (session_id session) s = true.
Proof.
  intros Hs. unfold Prisma.session_exists. apply existsb_exists.
  exists (documentId, session). split.
  - apply list_elem_of_In. now apply elem_of_map_to_list.
  - apply String.eqb_refl.
Qed.

Lemma open_session_lookup (s : Store) (documentId : string) :
  chatSessions (open_session documentId s).1.2 !! documentId
  = Some (open_session documentId s).1.1.
Proof.
  unfold open_session. destruct (chatSessions s !! documentId) eqn:E; simpl.
  - assumption.
  - apply lookup_insert_eq.
Qed.

Lemma open_session_documents (s : Store) (documentId : string) :
  documents (open_session documentId s).1.2 = documents s.
Proof.
  unfold open_session. now destruct (chatSessions s !! documentId).
Qed.

Lemma open_session_messages (s : Store) (documentId : string) :
  chatMessages (open_session documentId s).1.2 = chatMessages s.
Proof.
  unfold open_session. now destruct (chatSessions s !! documentId).
Qed.

(** [getOrCreateSession] on a document that exists. *)
Lemma getOrCreateSession_run (documentId : string) (st : State) (d : Document) :
  documents (store st) !! documentId = Some d ->
  getOrCreateSession documentId st =
  (Ok (open_session documentId (store st)).1.1,
   {| store := (open_session documentId (store st)).1.2;
      trace := trace st ++ (open_session documentId (store st)).2 |}).
Proof.
  intros Hd. unfold getOrCreateSession, Prisma.chatSession_findUnique,
    Prisma.chatSession_create, open_session.
  run_monad. simpl.
  destruct (chatSessions (store st) !! documentId) eqn:E; simpl.
  - now rewrite app_nil_r, state_eta.
  - rewrite Hd, E. reflexivity.
Qed.

(** [saveMessage] on a document that exists, with chunk ids the store
    takes: the message is appended to the log of the document's session,
    created first when there is none. *)
Lemma saveMessage_run (documentId : string) (role : Role) (content : string)
    (chunk_ids stored : json) (st : State) (d : Document) :
  documents (store st) !! documentId = Some d ->
  Prisma.chunk_ids_input chunk_ids = Some stored ->
  let opened := open_session documentId (store st) in
  let m := new_message (session_id opened.1.1) role content stored opened.1.2 in
  saveMessage documentId role content chunk_ids st =
  (Ok m, {| store := add_message m opened.1.2;
            trace := trace st ++ opened.2 ++ [EvMessageCreate m] |}).
Proof.
  intros Hd Hids opened m. unfold saveMessage.
  unfold mbind at 1. unfold M_bind.
  rewrite (getOrCreateSession_run _ _ _ Hd). fold opened.
  unfold Prisma.chatMessage_create. rewrite Hids. run_monad. cbn [store trace].
  rewrite (session_exists_lookup _ documentId) by apply open_session_lookup.
  cbn [trace]. now rewrite <- app_assoc.
Qed.

(** [saveMessage] with chunk ids the store refuses: the session is there,
    and no message is added. *)
Lemma saveMessage_refused (documentId : string) (role : Role) (content : string)
    (chunk_ids : json) (st : State) (d : Document) :
  documents (store st) !! documentId = Some d ->
  Prisma.chunk_ids_input chunk_ids = None ->
  let opened := open_session documentId (store st) in
  saveMessage documentId role content chunk_ids st =
  (Throw (PrismaError "Invalid value for argument `chunk_ids`"),
   {| store := opened.1.2; trace := trace st ++ opened.2 |}).
Proof.
  intros Hd Hids opened. unfold saveMessage.
  unfold mbind at 1. unfold M_bind.
  rewrite (getOrCreateSession_run _ _ _ Hd). fold opened.
  unfold Prisma.chatMessage_create. now rewrite Hids.
Qed.

(** The chunk ids of a user message, and every array of strings, are
    stored as they are. *)
Lemma chunk_ids_input_strings (ids : list string) :
  Prisma.chunk_ids_input (JArray (map JString ids)) = Some (JArray (map JString ids)).
Proof.
  unfold Prisma.chunk_ids_input.
  replace (forallb Prisma.is_string (map JString ids)) with true; [reflexivity |].
  symmetry. apply forallb_forall. intros v Hv.
  apply in_map_iff in Hv as (id & <- & _). reflexivity.
Qed.

End Sessions.

(** ** Ordering by creation time *)

Section Ordering.

Import Spec Prisma.

Lemma insert_by_created_at_perm (m : ChatMessage) (l : list ChatMessage) :
  Permutation (insert_by_created_at m l) (m :: l).
Proof.
  induction l as [|x l IH]; simpl; [reflexivity |].
  destruct (msg_created_at m <=? msg_created_at x)%Z; [reflexivity |].
  rewrite IH. apply perm_swap.
Qed.

Lemma orderBy_created_at_asc_perm (l : list ChatMessage) :
  Permutation (orderBy_created_at_asc l) l.
Proof.
  induction l as [|x l IH]; simpl; [reflexivity |].
  rewrite insert_by_created_at_perm. now apply perm_skip.
Qed.

Lemma insert_by_created_at_sorted (m : ChatMessage) (l : list ChatMessage) :
  Sorted by_created_at l -> Sorted by_created_at (insert_by_created_at m l).
Proof.
  induction l as [|x l IH]; simpl; intros Hs.
  - repeat constructor.
  - destruct (msg_created_at m <=? msg_created_at x)%Z eqn:E.
    + constructor; [assumption |]. constructor. unfold by_created_at. lia.
    + inversion Hs as [|? ? Hl Hx]; subst. constructor; [now apply IH |].
      destruct l as [|y l]; simpl.
      * constructor. unfold by_created_at. lia.
      * destruct (msg_created_at m <=? msg_created_at y)%Z.
        -- constructor. unfold by_created_at. lia.
        -- inversion Hx; subst. now constructor.
Qed.

Lemma orderBy_created_at_asc_sorted (l : list ChatMessage) :
  Sorted by_created_at (orderBy_created_at_asc l).
Proof.
  induction l as [|x l IH]; simpl; [constructor |].
  now apply insert_by_created_at_sorted.
Qed.

(** A message no earlier than [m] that ends the list stays at the end. *)
Lemma insert_by_created_at_snoc (m x : ChatMessage) (l : list ChatMessage) :
  (msg_created_at m <= msg_created_at x)%Z ->
  insert_by_created_at m (l ++ [x]) = insert_by_created_at m l ++ [x].
Proof.
  intros Hle. induction l as [|y l IH]; simpl.
  - now rewrite (proj2 (Z.leb_le _ _) Hle).
  - destruct (msg_created_at m <=? msg_created_at y)%Z; [reflexivity |].
    now rewrite IH.
Qed.

(** A message no earlier than all the others is the last of the order. *)
Lemma orderBy_created_at_asc_snoc (x : ChatMessage) (l : list ChatMessage) :
  Forall (fun m => (msg_created_at m <= msg_created_at x)%Z) l ->
  orderBy_created_at_asc (l ++ [x]) = orderBy_created_at_asc l ++ [x].
Proof.
  induction 1 as [|m l Hm _ IH]; simpl; [reflexivity |].
  rewrite IH. now apply insert_by_created_at_snoc.
Qed.

Lemma removelast_map {A B : Type} (f : A -> B) (l : list A) :
  removelast (map f l) = map f (removelast l).
Proof.
  induction l as [|x l IH]; [reflexivity |].
  destruct l as [|y l]; [reflexivity |].
  change (f x :: removelast (map f (y :: l)) = f x :: map f (removelast (y :: l))).
  now rewrite IH.
Qed.

(** The messages of a session after one more was added to it. *)
Lemma messages_of_add (sid : string) (m : ChatMessage) (s : Store) :
  msg_session_id m = sid ->
  messages_of sid (add_message m s) = messages_of sid s ++ [m].
Proof.
  intros Hm. unfold messages_of, add_message. simpl.
  rewrite List.filter_app. simpl. unfold of_session at 2.
  now rewrite Hm, String.eqb_refl.
Qed.

(** The context sent to Logos is the conversation before the message just
    saved, when no message of the store is later than its clock. *)
Lemma context_of_add (sid : string) (role : Role) (content : string)
    (chunk_ids : json) (s : Store) :
  clock_ahead s ->
  context_of sid (add_message (new_message sid role content chunk_ids s) s)
  = map to_dto (orderBy_created_at_asc (messages_of sid s)).
Proof.
  intros Hc. unfold context_of.
  rewrite messages_of_add by reflexivity.
  rewrite orderBy_created_at_asc_snoc.
  - now rewrite removelast_last.
  - unfold messages_of. apply List.Forall_forall. intros m Hin.
    apply List.filter_In in Hin as [Hin _].
    unfold clock_ahead in Hc. rewrite List.Forall_forall in Hc.
    simpl. now apply Hc.
Qed.

End Ordering.

(** ** Running the services *)

Lemma bind_ok {A B : Type} (m : M A) (k : A -> M B) (st st' : State) (a : A) :
  m st = (Ok a, st') -> (m ≫= k) st = k a st'.
Proof. intros Hm. unfold mbind, M_bind. now rewrite Hm. Qed.

Lemma bind_throw {A B : Type} (m : M A) (k : A -> M B) (st st' : State) (e : Exception) :
  m st = (Throw e, st') -> (m ≫= k) st = (Throw e, st').
Proof. intros Hm. unfold mbind, M_bind. now rewrite Hm. Qed.

Section Chat.

Context (logos : Logos) {js_number : JsNumber} {prisma_client : PrismaClient}.

Import Spec ChatService.

(** The history of an accepted document: read only. *)
Lemma getChatHistory_run (userId documentId : string) (st : State) (d : Document) :
  accepted (store st) userId documentId d ->
  getChatHistory userId documentId st =
  (Ok match chatSessions (store st) !! documentId with
      | Some session =>
          {| hist_session_id := session_id session;
             hist_document_id := documentId;
             hist_messages :=
               map to_response
                 (Prisma.orderBy_created_at_asc
                    (Prisma.messages_of (session_id session) (store st))) |}
      | None =>
          {| hist_session_id := "";
             hist_document_id := documentId;
             hist_messages := [] |}
      end, st).
Proof.
  intros Ha. unfold getChatHistory.
  erewrite bind_ok by (apply validate_accepted; eassumption).
  unfold Prisma.chatSession_findUnique_with_messages. run_monad.
  now destruct (chatSessions (store st) !! documentId).
Qed.

Lemma accepted_after_message (s : Store) (userId documentId : string)
    (d : Document) (m : ChatMessage) :
  accepted s userId documentId d ->
  accepted (add_message m (open_session documentId s).1.2) userId documentId d.
Proof.
  intros (Hd & Hrest). split; [| exact Hrest].
  unfold add_message. cbn [documents].
  now rewrite open_session_documents.
Qed.

Lemma history_context (messages : list ChatMessage) :
  map (fun m => {| dto_role := res_role m; dto_content := res_content m |})
      (removelast (map to_response messages))
  = map to_dto (removelast messages).
Proof. now rewrite removelast_map, map_map. Qed.

(** A chat on an accepted document comes to [chat_outcome]. *)
Lemma streamChat_run (userId : string) (chatRequest : ChatRequestDto)
    (st : State) (d : Document) :
  accepted (store st) userId (req_document_id chatRequest) d ->
  streamChat logos userId chatRequest st = chat_outcome logos chatRequest d st.
Proof.
  intros Ha. pose proof Ha as (Hd & _).
  unfold streamChat, chat_outcome.
  erewrite bind_ok by (apply validate_accepted; eassumption).
  erewrite bind_ok by (eapply saveMessage_run; [eassumption | reflexivity]).
  set (opened := open_session (req_document_id chatRequest) (store st)).
  set (sid := session_id opened.1.1).
  set (asked := new_message sid user (req_message chatRequest) (JArray []) opened.1.2).
  set (s2 := add_message asked opened.1.2).
  assert (Ha2 : accepted s2 userId (req_document_id chatRequest) d)
    by (now apply accepted_after_message).
  assert (Hs2 : chatSessions s2 !! req_document_id chatRequest = Some opened.1.1)
    by (apply open_session_lookup).
  erewrite bind_ok by (eapply getChatHistory_run; exact Ha2).
  cbn [store]. rewrite Hs2. cbn [hist_messages].
  rewrite history_context. fold sid. fold (context_of sid s2).
  set (history := context_of sid s2).
  set (logos_id := default "" (doc_logos_id d)).
  unfold LogosService.chatStream.
  set (response := post_chat logos logos_id (req_message chatRequest) history).
  run_monad. cbn [yielded thrown store trace].
  rewrite for_await_run. cbn [store trace].
  rewrite <- !app_assoc. cbn [app].
  destruct (failure response) as [f|]; cbn [option_map]; [reflexivity |].
  fold nothing_yet.
  set (acc := fold_left parse_chunk (decoded response) nothing_yet).
  destruct (String.eqb (fullResponse acc) "") eqn:E; cbn [negb]; [reflexivity |].
  assert (Hd2 : documents s2 !! req_document_id chatRequest = Some d) by apply Ha2.
  assert (Hopen : open_session (req_document_id chatRequest) s2 = (opened.1.1, s2, [])).
  { unfold open_session at 1. now rewrite Hs2. }
  set (t := trace st ++ opened.2 ++ EvMessageCreate asked
            :: EvLogosChat logos_id (req_message chatRequest) history
            :: map EvYield (decoded response)).
  destruct (Prisma.chunk_ids_input (chunkIds acc)) as [ids|] eqn:Eids.
  - pose proof (saveMessage_run (req_document_id chatRequest) assistant
                  (Json.paired (fullResponse acc)) (chunkIds acc) ids
                  {| store := s2; trace := t |} d Hd2 Eids) as Hsave.
    cbn [store trace] in Hsave.
    rewrite Hopen in Hsave. cbn [fst snd] in Hsave. rewrite Hsave.
    unfold t. cbn [app]. rewrite <- !app_assoc. reflexivity.
  - pose proof (saveMessage_refused (req_document_id chatRequest) assistant
                  (Json.paired (fullResponse acc)) (chunkIds acc)
                  {| store := s2; trace := t |} d Hd2 Eids) as Hsave.
    cbn [store trace] in Hsave.
    rewrite Hopen in Hsave. cbn [fst snd] in Hsave. rewrite Hsave.
    unfold t. now rewrite app_nil_r.
Qed.

End Chat.

(** ** The chat proxy: rejection, forwarding and persistence *)

Section ChatProxy.

Context (logos : Logos) {js_number : JsNumber} {prisma_client : PrismaClient}.

Import Spec ChatService.

Lemma streamChat_throws (userId : string) (chatRequest : ChatRequestDto)
    (st : State) (e : Exception) :
  validateDocumentAccess userId (req_document_id chatRequest) st = (Throw e, st) ->
  streamChat logos userId chatRequest st = (Throw e, st).
Proof. intros Hv. unfold streamChat. now erewrite bind_throw by exact Hv. Qed.

(** C4: [streamChat] fails with NotFound ([NotFoundException]) when the
    document is absent, with Forbidden ([ForbiddenException]) when its owner
    is not the caller, and with InvalidState ([BadRequestException]) when
    its status is not COMPLETED or it has no remote reference, each check
    presupposing that the earlier ones pass.  In each case the state after
    the failure is the state before it: the trace has no new entry, so no
    remote call was made, and the store is the same, so no message was
    persisted. *)
Theorem streamChat_rejects_before_any_effect (userId : string)
    (chatRequest : ChatRequestDto) (st : State) :
  (documents (store st) !! req_document_id chatRequest = None ->
   streamChat logos userId chatRequest st
   = (Throw (NotFoundException "Document not found"), st))
  /\ (forall d, documents (store st) !! req_document_id chatRequest = Some d ->
      doc_user_id d <> userId ->
      streamChat logos userId chatRequest st
      = (Throw (ForbiddenException "Access denied"), st))
  /\ (forall d, documents (store st) !! req_document_id chatRequest = Some d ->
      doc_user_id d = userId ->
      doc_status d <> COMPLETED \/ doc_logos_id d = None ->
      exists message,
        streamChat logos userId chatRequest st
        = (Throw (BadRequestException message), st)).
Proof.
  split; [| split].
  - intros Hd. now apply streamChat_throws, validate_not_found.
  - intros d Hd Hu. now apply streamChat_throws, (validate_forbidden _ _ _ d).
  - intros d Hd Hu Hbad.
    destruct (decide (doc_status d = COMPLETED)) as [Hs|Hs].
    + destruct Hbad as [Hn|Hn]; [contradiction |].
      eexists. apply streamChat_throws, (validate_no_reference _ _ _ d); try assumption.
      now rewrite Hn.
    + eexists. now apply streamChat_throws, (validate_not_ready _ _ _ d).
Qed.

Lemma yields_app (t1 t2 : list Event) : yields (t1 ++ t2) = yields t1 ++ yields t2.
Proof. unfold yields. apply omap_app. Qed.

Lemma yields_map_EvYield (cs : list string) : yields (map EvYield cs) = cs.
Proof.
  induction cs as [|c cs IH]; [reflexivity |].
  change (yields (map EvYield (c :: cs))) with (c :: yields (map EvYield cs)).
  now rewrite IH.
Qed.

Lemma yields_open_session (documentId : string) (s : Store) :
  yields (open_session documentId s).2 = [].
Proof. unfold open_session. now destruct (chatSessions s !! documentId). Qed.


End ChatProxy.

(** Runs of C4: a document that does not exist, the document of Bob, the
    pending document and the completed document without a Logos reference,
    each asked about by Alice. *)
Lemma streamChat_rejects_before_any_effect_run :
  ChatService.streamChat Fixture.hello_service (js_number := Fixture.literal_numbers)
    (prisma_client := Fixture.strict_client)
    "alice" (Fixture.request_for "doc-missing" "Hi" None) Fixture.initial
  = (Throw (NotFoundException "Document not found"), Fixture.initial)
  /\ ChatService.streamChat Fixture.hello_service (js_number := Fixture.literal_numbers)
       (prisma_client := Fixture.strict_client)
       "alice" (Fixture.request_for "doc-bob" "Hi" None) Fixture.initial
     = (Throw (ForbiddenException "Access denied"), Fixture.initial)
  /\ (exists message,
        ChatService.streamChat Fixture.hello_service (js_number := Fixture.literal_numbers)
          (prisma_client := Fixture.strict_client)
          "alice" (Fixture.request_for "doc-pending" "Hi" None) Fixture.initial
        = (Throw (BadRequestException message), Fixture.initial))
  /\ (exists message,
        ChatService.streamChat Fixture.hello_service (js_number := Fixture.literal_numbers)
          (prisma_client := Fixture.strict_client)
          "alice" (Fixture.request_for "doc-orphan" "Hi" None) Fixture.initial
        = (Throw (BadRequestException message), Fixture.initial)).
Proof.
  repeat apply conj.
  - apply (streamChat_rejects_before_any_effect Fixture.hello_service
             (js_number := Fixture.literal_numbers)
             (prisma_client := Fixture.strict_client)
             "alice" (Fixture.request_for "doc-missing" "Hi" None) Fixture.initial).
    vm_compute. reflexivity.
  - apply (proj1 (proj2 (streamChat_rejects_before_any_effect Fixture.hello_service
                           (js_number := Fixture.literal_numbers)
                           (prisma_client := Fixture.strict_client)
                           "alice" (Fixture.request_for "doc-bob" "Hi" None)
                           Fixture.initial))
             (Fixture.document "bob" COMPLETED (Some "logos-3")));
      [vm_compute; reflexivity | discriminate].
  - apply (proj2 (proj2 (streamChat_rejects_before_any_effect Fixture.hello_service
                           (js_number := Fixture.literal_numbers)
                           (prisma_client := Fixture.strict_client)
                           "alice" (Fixture.request_for "doc-pending" "Hi" None)
                           Fixture.initial))
             (Fixture.document "alice" PENDING (Some "logos-2")));
      [vm_compute; reflexivity | reflexivity | left; discriminate].
  - apply (proj2 (proj2 (streamChat_rejects_before_any_effect Fixture.hello_service
                           (js_number := Fixture.literal_numbers)
                           (prisma_client := Fixture.strict_client)
                           "alice" (Fixture.request_for "doc-orphan" "Hi" None)
                           Fixture.initial))
             (Fixture.document "alice" COMPLETED None));
      [vm_compute; reflexivity | reflexivity | right; reflexivity].
Defined.

Section ChatPersistence.

Context (logos : Logos) {js_number : JsNumber} {prisma_client : PrismaClient}.

Import Spec ChatService.

Lemma open_session_events (documentId : string) (s : Store) :
  Forall (fun e => exists session, e = EvSessionCreate documentId session)
         (open_session documentId s).2.
Proof.
  unfold open_session. destruct (chatSessions s !! documentId); simpl.
  - constructor.
  - constructor; [eauto | constructor].
Qed.


End ChatPersistence.

Section Accumulation.

Context (logos : Logos) {js_number : JsNumber} {prisma_client : PrismaClient}.

Import JsString Spec ChatService.

(** A line without the prefix carries nothing. *)
Lemma no_prefix_no_fragment (line : string) :
  startsWith "data: " line = false ->
  content_fragment line = "" /\ chunk_ids_fragment line = None.
Proof.
  intros Hp. unfold content_fragment, chunk_ids_fragment, payload.
  now rewrite Hp.
Qed.

(** Only the lines with the prefix count. *)
Lemma content_of_data_lines (lines : list string) :
  content_of (List.filter (startsWith "data: ") lines) = content_of lines.
Proof.
  unfold content_of. induction lines as [|l lines IH]; [reflexivity |].
  cbn [List.filter]. destruct (startsWith "data: " l) eqn:E.
  - now rewrite !map_cons, !concat_empty_cons, IH.
  - rewrite map_cons, concat_empty_cons, IH.
    now rewrite (proj1 (no_prefix_no_fragment l E)).
Qed.

Lemma chunk_ids_of_data_lines (lines : list string) :
  chunk_ids_of (List.filter (startsWith "data: ") lines) = chunk_ids_of lines.
Proof.
  unfold chunk_ids_of. f_equal.
  induction lines as [|l lines IH]; [reflexivity |].
  cbn [List.filter]. destruct (startsWith "data: " l) eqn:E.
  - now rewrite !omap_cons, IH.
  - now rewrite omap_cons, IH, (proj2 (no_prefix_no_fragment l E)).
Qed.

Lemma last_add_message (m : ChatMessage) (s : Store) :
  last (chatMessages (add_message m s)) = Some m.
Proof. unfold add_message. cbn [chatMessages]. apply last_snoc. Qed.

(** On a payload that follows the wire contract the fragments are the
    members themselves: the string of [content], the array of [chunk_ids]. *)
Lemma content_fragment_string (line : string) (members : list (string * json))
    (s : string) :
  payload line = Some (JObject members) ->
  Json.lookup_last "content" members = Some (JString s) ->
  content_fragment line = s.
Proof.
  intros Hp Hc. unfold content_fragment, content_text. rewrite Hp. cbn [Json.prop].
  rewrite Hc. now destruct s.
Qed.

Lemma chunk_ids_fragment_array (line : string) (members : list (string * json))
    (ids : list json) :
  payload line = Some (JObject members) ->
  Json.lookup_last "chunk_ids" members = Some (JArray ids) ->
  chunk_ids_fragment line = Some (JArray ids).
Proof.
  intros Hp Hc. unfold chunk_ids_fragment. rewrite Hp. cbn [Json.prop].
  now rewrite Hc.
Qed.

Lemma hello_lines_read :
  content_of Fixture.hello_lines = "Hello"
  /\ chunk_ids_of Fixture.hello_lines = JArray [JString "a"; JString "b"].
Proof. split; vm_compute; reflexivity. Qed.


End Accumulation.


Section ChatContext.

Context (logos : Logos) {js_number : JsNumber} {prisma_client : PrismaClient}.

Import Spec ChatService.

Lemma clock_ahead_open_session (documentId : string) (s : Store) :
  clock_ahead s -> clock_ahead (open_session documentId s).1.2.
Proof.
  unfold clock_ahead, open_session. intros Hc.
  destruct (chatSessions s !! documentId); cbn [fst snd chatMessages clock];
    [exact Hc |].
  eapply Forall_impl; [exact Hc |]. cbn beta. intros m Hm. lia.
Qed.

Lemma messages_of_open_session (sid documentId : string) (s : Store) :
  Prisma.messages_of sid (open_session documentId s).1.2 = Prisma.messages_of sid s.
Proof. unfold Prisma.messages_of. now rewrite open_session_messages. Qed.

Lemma not_a_chat_open_session (documentId : string) (s : Store) :
  Forall (fun e => forall a b c, e <> EvLogosChat a b c) (open_session documentId s).2.
Proof.
  unfold open_session. destruct (chatSessions s !! documentId); cbn [snd].
  - constructor.
  - constructor; [discriminate | constructor].
Qed.

Lemma not_a_chat_yields (cs : list string) :
  Forall (fun e => forall a b c, e <> EvLogosChat a b c) (map EvYield cs).
Proof. induction cs; constructor; [discriminate | assumption]. Qed.

(** C9: two chat requests with the same document and the same message come
    to the same outcome, the same store and the same trace, whatever their
    [conversation_history] fields are: the same call to Logos, the same
    chunks forwarded and the same messages persisted.  The stream is opened
    once, and when no message of the store is later than its clock, the
    history it is given is the conversation of the document's session as
    it was persisted before the request, in creation order; the message
    saved by the request is not in it. *)
Theorem streamChat_ignores_conversation_history (userId : string)
    (request1 request2 : ChatRequestDto) (st : State) :
  req_document_id request1 = req_document_id request2 ->
  req_message request1 = req_message request2 ->
  streamChat logos userId request1 st = streamChat logos userId request2 st
  /\ (forall d,
        accepted (store st) userId (req_document_id request1) d ->
        clock_ahead (store st) ->
        let sid := session_id (open_session (req_document_id request1) (store st)).1.1 in
        let history :=
          map to_dto (Prisma.orderBy_created_at_asc (Prisma.messages_of sid (store st))) in
        exists outcome st' before after,
          streamChat logos userId request1 st = (outcome, st')
          /\ trace st' = trace st ++ before
                         ++ EvLogosChat (default "" (doc_logos_id d))
                              (req_message request1) history :: after
          /\ Forall (fun e => forall a b c, e <> EvLogosChat a b c) (before ++ after)).
Proof.
  intros Hdoc Hmsg. split.
  - destruct request1, request2. cbn in Hdoc, Hmsg. subst. reflexivity.
  - intros d Ha Hclock sid history. subst sid history.
    rewrite (streamChat_run logos _ _ _ d Ha). unfold chat_outcome. cbv zeta.
    set (opened := open_session (req_document_id request1) (store st)).
    set (sid := session_id opened.1.1).
    set (history := map to_dto (Prisma.orderBy_created_at_asc
                                  (Prisma.messages_of sid (store st)))).
    assert (Hh : context_of sid
                   (add_message (new_message sid user (req_message request1) (JArray [])
                                   opened.1.2) opened.1.2)
                 = history).
    { rewrite context_of_add by (now apply clock_ahead_open_session).
      unfold history, opened. now rewrite messages_of_open_session. }
    rewrite Hh.
    set (asked := new_message sid user (req_message request1) (JArray []) opened.1.2).
    set (lid := default "" (doc_logos_id d)).
    set (response := post_chat logos lid (req_message request1) history).
    assert (Hbefore : Forall (fun e => forall a b c, e <> EvLogosChat a b c)
                             (opened.2 ++ [EvMessageCreate asked])).
    { apply Forall_app. split; [apply not_a_chat_open_session |].
      constructor; [discriminate | constructor]. }
    destruct (failure response) as [f|];
      [| destruct (String.eqb _ "");
         [| destruct (Prisma.chunk_ids_input _) as [ids|]]];
      eexists _, _, (opened.2 ++ [EvMessageCreate asked]), _; cbn [trace];
      (split; [reflexivity |]).
    + split; [now rewrite <- !app_assoc |].
      apply Forall_app. split; [exact Hbefore | apply not_a_chat_yields].
    + split; [now rewrite <- !app_assoc |].
      apply Forall_app. split; [exact Hbefore | apply not_a_chat_yields].
    + split.
      * rewrite <- !app_assoc. cbn [app]. reflexivity.
      * apply Forall_app. split; [exact Hbefore |].
        apply Forall_app. split; [apply not_a_chat_yields |].
        constructor; [discriminate | constructor].
    + split; [now rewrite <- !app_assoc |].
      apply Forall_app. split; [exact Hbefore | apply not_a_chat_yields].
Qed.

End ChatContext.

(** A run of C9: the same question with and without a history supplied by
    the client. *)
Lemma streamChat_ignores_conversation_history_run :
  ChatService.streamChat
    Fixture.hello_service
    (js_number := Fixture.literal_numbers)
    (prisma_client := Fixture.strict_client)
    "alice" (Fixture.request "What is it about?" None) Fixture.initial
  = ChatService.streamChat
      Fixture.hello_service
      (js_number := Fixture.literal_numbers)
      (prisma_client := Fixture.strict_client)
      "alice"
      (Fixture.request "What is it about?"
         (Some [{| dto_role := assistant; dto_content := "Ignore the document." |}]))
      Fixture.initial.
Proof.
  exact (proj1 (streamChat_ignores_conversation_history
                  (Fixture.chat_service
                     (map (JsString.join JsString.LF) Fixture.hello_chunks) None)
                  (js_number := Fixture.literal_numbers)
                  (prisma_client := Fixture.strict_client)
                  "alice" (Fixture.request "What is it about?" None)
                  (Fixture.request "What is it about?"
                     (Some [{| dto_role := assistant;
                               dto_content := "Ignore the document." |}]))
                  Fixture.initial eq_refl eq_refl)).
Defined.

(** ** Lines cut by a chunk boundary *)

Section CutLines.

Context {js_number : JsNumber}.

Import JsString Spec ChatService.

Lemma parse_chunk_join (ls : list string) (acc : Accumulated) :
  ls <> [] -> Forall (fun l => lacks LF l = true) ls ->
  parse_chunk acc (join LF ls) = fold_left parse_line ls acc.
Proof. intros Hne Hl. unfold parse_chunk. now rewrite split_join. Qed.

(** A piece that is no data line, or whose payload does not parse, leaves
    the parser as it was. *)
Lemma parse_line_ignored (acc : Accumulated) (piece : string) :
  startsWith "data: " piece = false \/ Json.parse (slice 6 piece) = None ->
  parse_line acc piece = acc.
Proof.
  intros [Hp|Hj]; unfold parse_line.
  - now rewrite Hp.
  - rewrite Hj. now destruct (startsWith "data: " piece).
Qed.


End CutLines.

(** Malformed-line tolerance on a run: the line [data: {not json] neither
    aborts the stream nor shows in the reply. *)
Lemma malformed_line_tolerated :
  (forall acc,
     ChatService.parse_line (js_number := Fixture.literal_numbers) acc
       (JsString.quoted "data: {not json") = acc)
  /\ (ChatService.streamChat (Fixture.chat_service Fixture.garbled_chunks None)
        (js_number := Fixture.literal_numbers)
        (prisma_client := Fixture.strict_client)
        "alice" (Fixture.request "What is it about?" None) Fixture.initial).1 = Ok tt
  /\ option_map (fun m => (msg_role m, msg_content m, msg_chunk_ids m))
       (last (chatMessages (store
          (ChatService.streamChat (Fixture.chat_service Fixture.garbled_chunks None)
             (js_number := Fixture.literal_numbers)
             (prisma_client := Fixture.strict_client)
             "alice" (Fixture.request "What is it about?" None) Fixture.initial).2)))
     = Some (assistant, "Hello", JArray [JString "a"; JString "b"]).
Proof.
  split; [| split; vm_compute; reflexivity].
  intros acc. apply parse_line_ignored. right. vm_compute. reflexivity.
Qed.



(** ** The chat history *)

Section History.

Import Spec ChatService.

(** C5 (amended): [getChatHistory] validates access with the rule of the
    chat service, [validateDocumentAccess]: it fails with NotFound when the
    document is absent, with Forbidden when the caller is not its owner,
    and with InvalidState when the document is not COMPLETED or has no
    remote reference.  For an owned, completed document with a remote
    reference it reads the store only: it returns the empty history (empty
    session id, no message) when the document has no session, and
    otherwise all the messages of its session, ordered by creation time
    ascending. *)
Theorem getChatHistory_access_and_order (userId documentId : string) (st : State) :
  (documents (store st) !! documentId = None ->
   getChatHistory userId documentId st
   = (Throw (NotFoundException "Document not found"), st))
  /\ (forall d, documents (store st) !! documentId = Some d ->
      doc_user_id d <> userId ->
      getChatHistory userId documentId st
      = (Throw (ForbiddenException "Access denied"), st))
  /\ (forall d, documents (store st) !! documentId = Some d ->
      doc_user_id d = userId ->
      doc_status d <> COMPLETED ->
      getChatHistory userId documentId st
      = (Throw (BadRequestException
                  ("Document is not ready. Current status: "
                   +:+ status_name (doc_status d))), st))
  /\ (forall d, documents (store st) !! documentId = Some d ->
      doc_user_id d = userId ->
      doc_status d = COMPLETED ->
      falsy (doc_logos_id d) = true ->
      getChatHistory userId documentId st
      = (Throw (BadRequestException "Document has no Logos reference"), st))
  /\ (forall d, accepted (store st) userId documentId d ->
      chatSessions (store st) !! documentId = None ->
      getChatHistory userId documentId st
      = (Ok {| hist_session_id := "";
               hist_document_id := documentId;
               hist_messages := [] |}, st))
  /\ (forall d session, accepted (store st) userId documentId d ->
      chatSessions (store st) !! documentId = Some session ->
      exists messages,
        getChatHistory userId documentId st
        = (Ok {| hist_session_id := session_id session;
                 hist_document_id := documentId;
                 hist_messages := map to_response messages |}, st)
        /\ Permutation messages (Prisma.messages_of (session_id session) (store st))
        /\ Sorted by_created_at messages).
Proof.
  repeat apply conj.
  - intros Hd. unfold getChatHistory.
    now erewrite bind_throw by (apply validate_not_found; exact Hd).
  - intros d Hd Hu. unfold getChatHistory.
    now erewrite bind_throw by (eapply validate_forbidden; eassumption).
  - intros d Hd Hu Hs. unfold getChatHistory.
    now erewrite bind_throw by (eapply validate_not_ready; eassumption).
  - intros d Hd Hu Hs Hl. unfold getChatHistory.
    now erewrite bind_throw by (eapply validate_no_reference; eassumption).
  - intros d Ha Hs. rewrite (getChatHistory_run _ _ _ d Ha). now rewrite Hs.
  - intros d session Ha Hs. rewrite (getChatHistory_run _ _ _ d Ha). rewrite Hs.
    eexists. split; [reflexivity |]. split.
    + apply orderBy_created_at_asc_perm.
    + apply orderBy_created_at_asc_sorted.
Qed.

End History.

(** Runs of C5 (amended): before the first chat the history of the
    completed document is empty; after it, it is the session's messages in
    creation order. *)
Lemma getChatHistory_access_and_order_run :
  ChatService.getChatHistory "alice" "doc-ready" Fixture.initial
  = (Ok {| hist_session_id := "";
           hist_document_id := "doc-ready";
           hist_messages := [] |}, Fixture.initial)
  /\ exists messages,
       ChatService.getChatHistory "alice" "doc-ready" Fixture.after_hello
       = (Ok {| hist_session_id := "id-0";
                hist_document_id := "doc-ready";
                hist_messages := map ChatService.to_response messages |},
          Fixture.after_hello)
       /\ Permutation messages (Prisma.messages_of "id-0" (store Fixture.after_hello))
       /\ Sorted Spec.by_created_at messages.
Proof.
  split.
  - apply (proj1 (proj2 (proj2 (proj2 (proj2
             (getChatHistory_access_and_order "alice" "doc-ready" Fixture.initial)))))
             (Fixture.document "alice" COMPLETED (Some "logos-1")));
      [repeat split |]; vm_compute; reflexivity.
  - apply (proj2 (proj2 (proj2 (proj2 (proj2
             (getChatHistory_access_and_order "alice" "doc-ready" Fixture.after_hello)))))
             (Fixture.document "alice" COMPLETED (Some "logos-1"))
             {| session_id := "id-0"; session_created_at := 1; session_updated_at := 1 |});
      [repeat split |]; vm_compute; reflexivity.
Defined.

(** C5 (as stated) fails: Alice owns the pending document, and the access
    rule of the document directory ([DocumentsService.findOne]) lets her
    read it, but [getChatHistory] refuses with InvalidState instead of
    returning a history. *)
Lemma getChatHistory_refuses_pending_document :
  documents (store Fixture.initial) !! "doc-pending"
  = Some (Fixture.document "alice" PENDING (Some "logos-2"))
  /\ DocumentsService.findOne "alice" "doc-pending" Fixture.initial
     = (Ok (Fixture.document "alice" PENDING (Some "logos-2")), Fixture.initial)
  /\ ChatService.getChatHistory "alice" "doc-pending" Fixture.initial
     = (Throw (BadRequestException "Document is not ready. Current status: PENDING"),
        Fixture.initial).
Proof. repeat split; vm_compute; reflexivity. Qed.

(** ** The document directory *)

Section Directory.

Context (logos : Logos) {js_unicode : JsUnicode}.

Lemma findOne_ok (userId documentId : string) (st : State) (d : Document) :
  documents (store st) !! documentId = Some d ->
  doc_user_id d = userId ->
  DocumentsService.findOne userId documentId st = (Ok d, st).
Proof.
  intros Hd Hu. unfold DocumentsService.findOne, Prisma.document_findUnique.
  run_monad. rewrite Hd. apply String.eqb_eq in Hu. now rewrite Hu.
Qed.

Lemma status_of_name_sound (name : string) (s : DocumentStatus) :
  status_of_name name = Some s -> status_name s = name.
Proof.
  unfold status_of_name.
  destruct (String.eqb name "PENDING") eqn:E1;
    [apply String.eqb_eq in E1; intros [= <-]; now subst |].
  destruct (String.eqb name "PROCESSING") eqn:E2;
    [apply String.eqb_eq in E2; intros [= <-]; now subst |].
  destruct (String.eqb name "COMPLETED") eqn:E3;
    [apply String.eqb_eq in E3; intros [= <-]; now subst |].
  destruct (String.eqb name "FAILED") eqn:E4;
    [apply String.eqb_eq in E4; intros [= <-]; now subst |].
  discriminate.
Qed.

Lemma status_name_inj (s1 s2 : DocumentStatus) :
  status_name s1 = status_name s2 -> s1 = s2.
Proof. destruct s1, s2; simpl; congruence. Qed.

Lemma falsy_reference (lid : string) : lid <> "" -> falsy (Some lid) = false.
Proof. intros Hne. simpl. now apply String.eqb_neq. Qed.



(** C8: for an owned document, [delete] returns normally and the local
    record is gone, whatever the remote service answers.  With no remote
    reference no remote call is made.  With one, the remote delete is
    called first; when it fails, the failure is logged as a warning and the
    local delete follows all the same. *)
Theorem delete_survives_remote_failure (userId documentId : string) (st : State)
    (d : Document) :
  documents (store st) !! documentId = Some d ->
  doc_user_id d = userId ->
  exists st',
    DocumentsService.delete logos userId documentId st
    = (Ok "Document deleted successfully", st')
    /\ documents (store st') = delete documentId (documents (store st))
    /\ documents (store st') !! documentId = None
    /\ (falsy (doc_logos_id d) = true ->
        trace st' = trace st ++ [EvDocumentDelete documentId])
    /\ (forall lid, doc_logos_id d = Some lid -> lid <> "" ->
        delete_document logos lid = None ->
        trace st' = trace st ++ [EvLogosDelete lid; EvDocumentDelete documentId])
    /\ (forall lid f, doc_logos_id d = Some lid -> lid <> "" ->
        delete_document logos lid = Some f ->
        exists warning,
          trace st' = trace st ++ [EvLogosDelete lid; EvWarn warning;
                                   EvDocumentDelete documentId]).
Proof.
  intros Hd Hu. unfold DocumentsService.delete.
  erewrite bind_ok by (apply findOne_ok; eassumption).
  destruct (falsy (doc_logos_id d)) eqn:Ef.
  - unfold Prisma.document_delete. run_monad. rewrite Hd.
    destruct (Prisma.without_session documentId (store st)) as [sessions messages].
    eexists. split; [reflexivity |]. cbn [store documents trace].
    split; [reflexivity |]. split; [apply lookup_delete_eq |].
    split; [reflexivity |]. split.
    + intros lid Hl Hne. rewrite Hl, (falsy_reference lid Hne) in Ef. discriminate.
    + intros lid f Hl Hne. rewrite Hl, (falsy_reference lid Hne) in Ef. discriminate.
  - destruct (doc_logos_id d) as [lid0|] eqn:El; [| discriminate].
    cbn [default from_option id].
    unfold LogosService.deleteDocument, LogosService.handleError,
      Prisma.document_delete.
    run_monad. cbn [store trace].
    destruct (delete_document logos lid0) as [f0|] eqn:Edel.
    + destruct f0 as [message status detail | description]; cbn [store trace]; rewrite Hd;
        destruct (Prisma.without_session documentId (store st)) as [sessions messages];
        (eexists; split; [reflexivity |]); cbn [store documents trace];
        (split; [reflexivity |]); (split; [apply lookup_delete_eq |]);
        (split; [discriminate |]); split;
        try (intros lid Hl Hne Hdel; injection Hl as <-; congruence);
        intros lid f Hl Hne Hdel; injection Hl as <-; eexists;
        rewrite <- !app_assoc; reflexivity.
    + cbn [store trace]. rewrite Hd.
      destruct (Prisma.without_session documentId (store st)) as [sessions messages].
      eexists. split; [reflexivity |]. cbn [store documents trace].
      split; [reflexivity |]. split; [apply lookup_delete_eq |].
      split; [discriminate |]. split.
      * intros lid Hl Hne Hdel. injection Hl as <-.
        rewrite <- !app_assoc. reflexivity.
      * intros lid f Hl Hne Hdel. injection Hl as <-. congruence.
Qed.

End Directory.

(** ** Runs of the theorems on the fixtures *)




(** C2, at a stream that cuts a character: Logos sends the line
    [data: {"content":"café"}] in two chunks, cut between the two bytes of
    its last letter.  [chatStream] decodes each chunk on its own, so each
    half of the letter becomes U+FFFD, and the chunks [streamChat] yields
    are not the chunks of the stream. *)
Theorem streamChat_reencodes_cut_character :
  exists outcome st',
    ChatService.streamChat
      Fixture.accent_service
      (js_number := Fixture.literal_numbers)
      (prisma_client := Fixture.strict_client)
      "alice" (Fixture.request "What is it about?" None) Fixture.initial
    = (outcome, st')
    /\ chunks (post_chat Fixture.accent_service "logos-1" "What is it about?" [])
       = [Fixture.accent_first; Fixture.accent_second]
    /\ Spec.yields (trace st')
       = [JsString.quoted "data: {'content':'caf" +:+ Buffer.replacement;
          Buffer.replacement +:+ JsString.quoted "'}" +:+ Fixture.eol]
    /\ Spec.yields (trace st') <> [Fixture.accent_first; Fixture.accent_second].
Proof.
  eexists _, _. split; [vm_compute; reflexivity |].
  split; [reflexivity |]. split; [vm_compute; reflexivity |].
  vm_compute. discriminate.
Qed.


(** The two halves of a character outside the basic plane, escaped in two
    content fragments, are stored as the character (the four bytes of
    U+1F600). *)
Lemma streamChat_joins_surrogate_halves :
  exists st' reply,
    ChatService.streamChat
      Fixture.halves_service
      (js_number := Fixture.literal_numbers)
      (prisma_client := Fixture.strict_client)
      "alice" (Fixture.request "What is it about?" None) Fixture.initial
    = (Ok tt, st')
    /\ last (chatMessages (store st')) = Some reply
    /\ msg_content reply
       = JsString.of_chars (map ascii_of_nat [240; 159; 152; 128]).
Proof.
  eexists _, _. repeat split; vm_compute; reflexivity.
Qed.




(** A run of C8: Logos fails the delete, and the document is deleted all
    the same. *)
Lemma delete_survives_remote_failure_run :
  exists st' warning,
    DocumentsService.delete Fixture.status_service "alice" "doc-ready" Fixture.initial
    = (Ok "Document deleted successfully", st')
    /\ documents (store st') !! "doc-ready" = None
    /\ trace st' = [EvLogosDelete "logos-1"; EvWarn warning; EvDocumentDelete "doc-ready"].
Proof.
  destruct (delete_survives_remote_failure Fixture.status_service "alice" "doc-ready"
              Fixture.initial (Fixture.document "alice" COMPLETED (Some "logos-1")))
    as (st' & Hrun & _ & Hgone & _ & _ & Hwarn); try (vm_compute; reflexivity).
  destruct (Hwarn "logos-1" Fixture.unavailable) as (warning & Htrace);
    try reflexivity; try discriminate.
  exists st', warning. split; [exact Hrun |]. split; [exact Hgone | exact Htrace].
Defined.

(* ===================================================================== *)
(** * Part III: further properties of the services                        *)
(* ===================================================================== *)

(** ** Access validation decides before anything else *)

Section AccessRules.

Import Spec ChatService.

Lemma validate_cases (userId documentId : string) (st : State) :
  (exists d, accepted (store st) userId documentId d
             /\ validateDocumentAccess userId documentId st = (Ok d, st))
  \/ (exists e, validateDocumentAccess userId documentId st = (Throw e, st)
                /\ forall d, ~ accepted (store st) userId documentId d).
Proof.
  destruct (documents (store st) !! documentId) as [d|] eqn:Hd.
  - destruct (decide (doc_user_id d = userId)) as [Hu|Hu].
    + destruct (decide (doc_status d = COMPLETED)) as [Hs|Hs].
      * destruct (falsy (doc_logos_id d)) eqn:Hl.
        -- right. eexists. split; [now apply (validate_no_reference _ _ _ d) |].
           intros d' (Hd' & _ & _ & Hl'). congruence.
        -- left. exists d. split; [| apply validate_accepted]; now repeat split.
      * right. eexists. split; [now apply (validate_not_ready _ _ _ d) |].
        intros d' (Hd' & _ & Hs' & _). congruence.
    + right. eexists. split; [now apply (validate_forbidden _ _ _ d) |].
      intros d' (Hd' & Hu' & _). congruence.
  - right. eexists. split; [now apply validate_not_found |].
    intros d' (Hd' & _). congruence.
Qed.

(** X1: [validateDocumentAccess] only reads: whatever it answers, the state
    after it is the state before it.  It returns a document exactly when
    that document is the row of the id, is owned by the caller, is
    COMPLETED and has a non-empty Logos reference; in every other case it
    throws. *)
Theorem validateDocumentAccess_decides (userId documentId : string) (st : State) :
  (validateDocumentAccess userId documentId st).2 = st
  /\ (forall d, validateDocumentAccess userId documentId st = (Ok d, st)
                <-> accepted (store st) userId documentId d)
  /\ ((forall d, ~ accepted (store st) userId documentId d) ->
      exists e, validateDocumentAccess userId documentId st = (Throw e, st)).
Proof.
  destruct (validate_cases userId documentId st)
    as [(d & Ha & Hrun) | (e & Hrun & Hno)]; rewrite Hrun.
  - split; [reflexivity |]. split.
    + intros d'. split.
      * intros [= <-]. exact Ha.
      * intros Ha'. destruct Ha as (Hd & _), Ha' as (Hd' & _).
        rewrite Hd in Hd'. now injection Hd' as <-.
    + intros Hno. now destruct (Hno d).
  - split; [reflexivity |]. split.
    + intros d. split; [discriminate |]. intros Ha. now destruct (Hno d).
    + intros _. now exists e.
Qed.

End AccessRules.

(** ** Clearing a history *)

Section ClearHistory.

Import Spec ChatService.

Lemma store_eta (s : Store) :
  {| documents := documents s; chatSessions := chatSessions s;
     chatMessages := chatMessages s; clock := clock s; next_id := next_id s |} = s.
Proof. now destruct s. Qed.

Lemma of_session_true (sid : string) (m : ChatMessage) :
  Prisma.of_session sid m = true <-> msg_session_id m = sid.
Proof. unfold Prisma.of_session. apply String.eqb_eq. Qed.

(** No message of a session is left once its messages are filtered out. *)
Lemma messages_of_removed (sid : string) (l : list ChatMessage) :
  List.filter (Prisma.of_session sid)
    (List.filter (fun m => negb (Prisma.of_session sid m)) l) = [].
Proof.
  induction l as [|m l IH]; [reflexivity |]. cbn [List.filter].
  destruct (Prisma.of_session sid m) eqn:E; cbn [negb List.filter];
    [exact IH | now rewrite E].
Qed.

(** The messages of the other sessions stay. *)
Lemma messages_of_kept (sid removed : string) (l : list ChatMessage) :
  removed <> sid ->
  List.filter (Prisma.of_session sid)
    (List.filter (fun m => negb (Prisma.of_session removed m)) l)
  = List.filter (Prisma.of_session sid) l.
Proof.
  intros Hne. induction l as [|m l IH]; [reflexivity |]. cbn [List.filter].
  destruct (Prisma.of_session removed m) eqn:Er; cbn [negb List.filter].
  - destruct (Prisma.of_session sid m) eqn:Es; [| exact IH].
    apply of_session_true in Er, Es. congruence.
  - now rewrite IH.
Qed.

(** What [clearChatHistory] does on an accepted document. *)
Lemma clearChatHistory_run (userId documentId : string) (st : State) (d : Document) :
  accepted (store st) userId documentId d ->
  clearChatHistory userId documentId st
  = (Ok tt,
     {| store := {| documents := documents (store st);
                    chatSessions := (Prisma.without_session documentId (store st)).1;
                    chatMessages := (Prisma.without_session documentId (store st)).2;
                    clock := clock (store st);
                    next_id := next_id (store st) |};
        trace := trace st ++ [EvSessionDeleteMany documentId] |}).
Proof.
  intros Ha. unfold clearChatHistory.
  erewrite bind_ok by (apply validate_accepted; eassumption).
  unfold Prisma.chatSession_deleteMany. run_monad.
  now destruct (Prisma.without_session documentId (store st)).
Qed.

(** X2: on a document that passes the validation, [clearChatHistory]
    returns, and the history read next is the empty one.  The session of
    the document and every message of that session are gone; the documents,
    the sessions of the other documents and the messages of the other
    sessions are as they were.  When the document had no session, the store
    is left as it was (the clear is a no-op that succeeds). *)
Theorem clearChatHistory_empties_history (userId documentId : string) (st : State)
    (d : Document) :
  accepted (store st) userId documentId d ->
  exists st',
    clearChatHistory userId documentId st = (Ok tt, st')
    /\ getChatHistory userId documentId st'
       = (Ok {| hist_session_id := "";
                hist_document_id := documentId;
                hist_messages := [] |}, st')
    /\ documents (store st') = documents (store st)
    /\ (forall session, chatSessions (store st) !! documentId = Some session ->
        Prisma.messages_of (session_id session) (store st') = [])
    /\ (forall other, other <> documentId ->
        chatSessions (store st') !! other = chatSessions (store st) !! other)
    /\ (forall sid,
          (forall session, chatSessions (store st) !! documentId = Some session ->
                           session_id session <> sid) ->
          Prisma.messages_of sid (store st') = Prisma.messages_of sid (store st))
    /\ (chatSessions (store st) !! documentId = None -> store st' = store st).
Proof.
  intros Ha. rewrite (clearChatHistory_run _ _ _ d Ha).
  eexists. split; [reflexivity |]. cbn [store].
  assert (Hgone : (Prisma.without_session documentId (store st)).1 !! documentId = None).
  { unfold Prisma.without_session.
    destruct (chatSessions (store st) !! documentId) eqn:E; cbn [fst];
      [apply lookup_delete_eq | exact E]. }
  split.
  - erewrite getChatHistory_run.
    + cbn [store chatSessions]. now rewrite Hgone.
    + destruct Ha as (Hd & Hrest). split; [exact Hd | exact Hrest].
  - split; [reflexivity |]. unfold Prisma.messages_of, Prisma.without_session.
    cbn [chatSessions chatMessages].
    destruct (chatSessions (store st) !! documentId) as [session0|] eqn:E;
      cbn [fst snd].
    + split; [intros session [= <-]; apply messages_of_removed |].
      split; [intros other Hne; now apply lookup_delete_ne |].
      split; [| discriminate].
      intros sid Hsid. apply messages_of_kept. now apply Hsid.
    + split; [discriminate |]. split; [reflexivity |]. split; [reflexivity |].
      intros _. apply store_eta.
Qed.

(** X3: on a document that does not pass the validation,
    [clearChatHistory] throws and the state is the state before it: no
    session and no message is deleted. *)
Theorem clearChatHistory_rejects_without_effect (userId documentId : string)
    (st : State) :
  (forall d, ~ accepted (store st) userId documentId d) ->
  exists e, clearChatHistory userId documentId st = (Throw e, st).
Proof.
  intros Hno.
  destruct (validate_cases userId documentId st)
    as [(d & Ha & _) | (e & Hrun & _)]; [now destruct (Hno d) |].
  exists e. unfold clearChatHistory. now erewrite bind_throw by exact Hrun.
Qed.

End ClearHistory.

(** ** Sessions and the message log *)

Section MessageLog.

Context {prisma_client : PrismaClient}.

Import Spec ChatService.

(** X4: [getOrCreateSession] is idempotent on a document that exists: a
    second call returns the session of the first and writes nothing, so a
    document never gets a second session from it. *)
Theorem getOrCreateSession_idempotent (documentId : string) (st : State) (d : Document) :
  documents (store st) !! documentId = Some d ->
  exists session st1,
    getOrCreateSession documentId st = (Ok session, st1)
    /\ chatSessions (store st1) !! documentId = Some session
    /\ getOrCreateSession documentId st1 = (Ok session, st1)
    /\ (forall session0, chatSessions (store st) !! documentId = Some session0 ->
        session = session0 /\ st1 = st).
Proof.
  intros Hd. rewrite (getOrCreateSession_run _ _ d Hd).
  eexists _, _. split; [reflexivity |]. cbn [store].
  split; [apply open_session_lookup |]. split.
  - erewrite getOrCreateSession_run
      by (cbn [store]; rewrite open_session_documents; exact Hd).
    cbn [store trace].
    assert (Hagain : open_session documentId (open_session documentId (store st)).1.2
                     = ((open_session documentId (store st)).1.1,
                        (open_session documentId (store st)).1.2, [])).
    { unfold open_session at 1. now rewrite open_session_lookup. }
    rewrite Hagain. cbn [fst snd]. now rewrite app_nil_r.
  - intros session0 Hs. unfold open_session. rewrite Hs. cbn [fst snd].
    split; [reflexivity |]. now rewrite app_nil_r, state_eta.
Qed.

(** X5: [saveMessage] for a document that does not exist (and has no
    session) throws, because the session it would create has no document
    to reference, and nothing is persisted. *)
Theorem saveMessage_without_document (documentId : string) (role : Role)
    (content : string) (chunkIds : json) (st : State) :
  documents (store st) !! documentId = None ->
  chatSessions (store st) !! documentId = None ->
  exists message,
    saveMessage documentId role content chunkIds st = (Throw (PrismaError message), st).
Proof.
  intros Hd Hs. eexists. unfold saveMessage, getOrCreateSession,
    Prisma.chatSession_findUnique, Prisma.chatSession_create.
  run_monad. now rewrite Hs, Hd.
Qed.

Lemma clock_ahead_add_message (sid : string) (role : Role) (content : string)
    (chunk_ids : json) (s : Store) :
  clock_ahead s ->
  clock_ahead (add_message (new_message sid role content chunk_ids s) s).
Proof.
  unfold clock_ahead, add_message. cbn [chatMessages clock]. intros Hc.
  apply Forall_app. split.
  - eapply Forall_impl; [exact Hc |]. cbn beta. intros m Hm. lia.
  - constructor; [| constructor]. cbn [new_message msg_created_at]. lia.
Qed.

(** The conversation of a session after one more message was saved in it:
    the new message is the last. *)
Lemma ordered_after_add (sid : string) (role : Role) (content : string)
    (chunk_ids : json) (s : Store) :
  clock_ahead s ->
  Prisma.orderBy_created_at_asc
    (Prisma.messages_of sid (add_message (new_message sid role content chunk_ids s) s))
  = Prisma.orderBy_created_at_asc (Prisma.messages_of sid s)
    ++ [new_message sid role content chunk_ids s].
Proof.
  intros Hc. rewrite messages_of_add by reflexivity.
  apply orderBy_created_at_asc_snoc.
  unfold Prisma.messages_of. apply List.Forall_forall. intros m Hin.
  apply List.filter_In in Hin as [Hin _].
  unfold clock_ahead in Hc. rewrite List.Forall_forall in Hc.
  cbn [new_message msg_created_at]. now apply Hc.
Qed.


End MessageLog.

(** ** What a chat leaves in the store, and what the next one is given *)

Section ChatTurns.

Context (logos : Logos) {js_number : JsNumber} {prisma_client : PrismaClient}.

Import Spec ChatService.

Lemma open_session_keeps_sessions (documentId key : string) (s : Store)
    (session : ChatSession) :
  chatSessions s !! key = Some session ->
  chatSessions (open_session documentId s).1.2 !! key = Some session.
Proof.
  intros Hk. unfold open_session.
  destruct (chatSessions s !! documentId) eqn:E; cbn [fst snd chatSessions];
    [exact Hk |].
  rewrite lookup_insert_ne; [exact Hk | congruence].
Qed.

(** X7: whatever the request and the remote stream are, [streamChat] only
    appends to the message log: the messages of the store before it are the
    first messages of the store after it, unchanged and in the same order,
    and at most two messages follow them.  It leaves the documents as they
    were, keeps every session that existed, and only adds entries to the
    trace. *)
Theorem streamChat_only_appends (userId : string) (chatRequest : ChatRequestDto)
    (st : State) :
  let st' := (streamChat logos userId chatRequest st).2 in
  documents (store st') = documents (store st)
  /\ (exists added, chatMessages (store st') = chatMessages (store st) ++ added
                    /\ length added <= 2)
  /\ (forall key session, chatSessions (store st) !! key = Some session ->
                          chatSessions (store st') !! key = Some session)
  /\ (exists entries, trace st' = trace st ++ entries).
Proof.
  cbv zeta.
  destruct (validate_cases userId (req_document_id chatRequest) st)
    as [(d & Ha & _) | (e & Hrun & _)].
  - rewrite (streamChat_run logos _ _ _ d Ha). unfold chat_outcome. cbv zeta.
    set (opened := open_session (req_document_id chatRequest) (store st)).
    assert (Hdocs : documents opened.1.2 = documents (store st))
      by apply open_session_documents.
    assert (Hmsgs : chatMessages opened.1.2 = chatMessages (store st))
      by apply open_session_messages.
    assert (Hkeep : forall key session,
               chatSessions (store st) !! key = Some session ->
               chatSessions opened.1.2 !! key = Some session)
      by (intros; now apply open_session_keeps_sessions).
    destruct (failure _) as [f|];
      [| destruct (String.eqb _ ""); [| destruct (Prisma.chunk_ids_input _) as [ids|]]];
      cbn [snd store trace add_message documents chatMessages chatSessions];
      rewrite Hdocs, Hmsgs; (split; [reflexivity |]).
    + split; [eexists; split; [reflexivity | cbn; lia] |].
      split; [exact Hkeep |]. eexists. reflexivity.
    + split; [eexists; split; [reflexivity | cbn; lia] |].
      split; [exact Hkeep |]. eexists. reflexivity.
    + split; [eexists; split; [now rewrite <- app_assoc | cbn; lia] |].
      split; [exact Hkeep |]. eexists. now rewrite <- app_assoc.
    + split; [eexists; split; [reflexivity | cbn; lia] |].
      split; [exact Hkeep |]. eexists. reflexivity.
  - rewrite (streamChat_throws logos _ _ _ e Hrun). cbn [snd].
    split; [reflexivity |].
    split; [exists []; split; [now rewrite app_nil_r | cbn; lia] |].
    split; [trivial |]. exists []. now rewrite app_nil_r.
Qed.

(** The call to Logos in the trace of a chat on an accepted document. *)
Lemma chat_outcome_opens_once (chatRequest : ChatRequestDto) (d : Document) (st : State) :
  let opened := open_session (req_document_id chatRequest) (store st) in
  let sid := session_id opened.1.1 in
  let asked := new_message sid user (req_message chatRequest) (JArray []) opened.1.2 in
  exists before after,
    trace (chat_outcome logos chatRequest d st).2
    = trace st ++ before
      ++ EvLogosChat (default "" (doc_logos_id d)) (req_message chatRequest)
           (context_of sid (add_message asked opened.1.2)) :: after
    /\ Forall (fun e => forall a b c, e <> EvLogosChat a b c) (before ++ after).
Proof.
  intros opened sid asked. unfold chat_outcome. cbv zeta. fold opened. fold sid. fold asked.
  set (history := context_of sid (add_message asked opened.1.2)).
  set (lid := default "" (doc_logos_id d)).
  set (response := post_chat logos lid (req_message chatRequest) history).
  assert (Hbefore : Forall (fun e => forall a b c, e <> EvLogosChat a b c)
                           (opened.2 ++ [EvMessageCreate asked])).
  { apply Forall_app. split; [apply not_a_chat_open_session |].
    constructor; [discriminate | constructor]. }
  destruct (failure response) as [f|];
    [| destruct (String.eqb _ ""); [| destruct (Prisma.chunk_ids_input _) as [ids|]]];
    exists (opened.2 ++ [EvMessageCreate asked]); eexists; cbn [snd trace].
  - split; [now rewrite <- !app_assoc |].
    apply Forall_app. split; [exact Hbefore | apply not_a_chat_yields].
  - split; [now rewrite <- !app_assoc |].
    apply Forall_app. split; [exact Hbefore | apply not_a_chat_yields].
  - split; [rewrite <- !app_assoc; cbn [app]; reflexivity |].
    apply Forall_app. split; [exact Hbefore |].
    apply Forall_app. split; [apply not_a_chat_yields |].
    constructor; [discriminate | constructor].
  - split; [now rewrite <- !app_assoc |].
    apply Forall_app. split; [exact Hbefore | apply not_a_chat_yields].
Qed.


End ChatTurns.

(** ** The incremental parser and the boundaries of the chunks *)

Section Chunking.

Context {js_number : JsNumber}.

Import JsString Spec ChatService.

Lemma split_not_nil (sep : ascii) (s : string) : split sep s <> [].
Proof.
  destruct s as [|c s]; cbn [split]; [discriminate |].
  destruct (Ascii.eqb c sep); [discriminate |].
  destruct (split sep s); discriminate.
Qed.

(** The pieces of a text around one of its separators. *)
Lemma split_at_separator (sep : ascii) (a b : string) :
  split sep (a +:+ String sep b) = split sep a ++ split sep b.
Proof.
  induction a as [|c a IH].
  - change ("" +:+ String sep b) with (String sep b). cbn [split].
    now rewrite Ascii.eqb_refl.
  - rewrite append_cons. cbn [split]. rewrite IH.
    destruct (Ascii.eqb c sep); [reflexivity |].
    destruct (split sep a) as [|p ps] eqn:E; [now destruct (split_not_nil sep a) |].
    reflexivity.
Qed.

Lemma parse_line_empty (acc : Accumulated) : parse_line acc "" = acc.
Proof. reflexivity. Qed.

(** A chunk that ends with a line feed, then more text: as one chunk or as
    two, the parser ends in the same state. *)
Lemma parse_chunk_after_line_feed (a rest : string) (acc : Accumulated) :
  parse_chunk acc ((a +:+ String LF "") +:+ rest)
  = parse_chunk (parse_chunk acc (a +:+ String LF "")) rest.
Proof.
  unfold parse_chunk. rewrite append_assoc.
  change (String LF "" +:+ rest) with (String LF rest).
  rewrite !split_at_separator, !fold_left_app. reflexivity.
Qed.

(** X9: where the remote cuts its stream does not matter as long as it cuts
    after line feeds: when every chunk but the last ends with a line feed,
    parsing the chunks one by one leaves the parser in the state that
    parsing their concatenation as a single chunk does. *)
Theorem parse_chunk_boundaries_at_line_feeds (stream_chunks : list string)
    (final : string) (acc : Accumulated) :
  Forall (fun chunk => exists a, chunk = a +:+ String LF "") stream_chunks ->
  fold_left parse_chunk (stream_chunks ++ [final]) acc
  = parse_chunk acc (String.concat "" (stream_chunks ++ [final])).
Proof.
  intros Hall. revert acc.
  induction Hall as [|chunk rest [a ->] _ IH]; intros acc; [reflexivity |].
  change (((a +:+ String LF "") :: rest) ++ [final])
    with ((a +:+ String LF "") :: (rest ++ [final])).
  rewrite concat_empty_cons, parse_chunk_after_line_feed.
  cbn [fold_left]. apply IH.
Qed.

(** X10: the parser never takes back what it accumulated: after any chunks,
    the buffer is the buffer before them followed by what they added, and
    the tracked chunk ids are those before them or a value carried by one
    of their lines. *)
Theorem parse_chunk_only_appends (stream_chunks : list string) (acc : Accumulated) :
  let acc' := fold_left parse_chunk stream_chunks acc in
  (exists added, fullResponse acc' = fullResponse acc +:+ added)
  /\ (chunkIds acc' = chunkIds acc
      \/ exists chunk line,
           In chunk stream_chunks /\ In line (split LF chunk)
           /\ chunk_ids_fragment line = Some (chunkIds acc')).
Proof.
  cbv zeta. revert acc.
  induction stream_chunks as [|chunk rest IH]; intros acc.
  - split; [exists ""; now rewrite append_empty_r | now left].
  - cbn [fold_left].
    assert (Hfull : fullResponse (parse_chunk acc chunk)
                    = fullResponse acc +:+ content_of (split LF chunk))
      by (unfold parse_chunk; now rewrite parse_lines_spec).
    assert (Hlast : chunkIds (parse_chunk acc chunk)
                    = List.last (omap chunk_ids_fragment (split LF chunk)) (chunkIds acc))
      by (unfold parse_chunk; now rewrite parse_lines_spec).
    destruct (IH (parse_chunk acc chunk)) as [[added Hadd] Hids].
    split.
    + eexists. rewrite Hadd, Hfull, append_assoc. reflexivity.
    + destruct Hids as [Hsame | (c & l & Hc & Hl & Hf)].
      * rewrite Hsame, Hlast.
        destruct (omap chunk_ids_fragment (split LF chunk)) as [|x xs] eqn:E;
          [now left |].
        right. exists chunk.
        assert (Hin : In (List.last (x :: xs) (chunkIds acc)) (x :: xs)).
        { destruct (exists_last (l := x :: xs)) as (l' & y & Hl'); [discriminate |].
          rewrite Hl', last_last. apply in_or_app. right. now left. }
        rewrite <- E in Hin. apply list_elem_of_In, list_elem_of_omap in Hin
          as (line & Hline & Hfrag).
        exists line. split; [now left |]. split; [now apply list_elem_of_In |].
        rewrite E in Hfrag. exact Hfrag.
      * right. exists c, l. split; [now right | now split].
Qed.

End Chunking.

(** A run of X9: the events of the example, one in each chunk, then an
    unfinished line. *)
Lemma parse_chunk_boundaries_at_line_feeds_run :
  fold_left (ChatService.parse_chunk (js_number := Fixture.literal_numbers))
    (map (fun line => line +:+ Fixture.eol) Fixture.hello_lines ++ ["data: [DONE]"])
    Spec.nothing_yet
  = ChatService.parse_chunk (js_number := Fixture.literal_numbers) Spec.nothing_yet
      (String.concat ""
         (map (fun line => line +:+ Fixture.eol) Fixture.hello_lines ++ ["data: [DONE]"])).
Proof.
  apply (parse_chunk_boundaries_at_line_feeds (js_number := Fixture.literal_numbers)).
  repeat constructor; eexists; reflexivity.
Defined.

(** ** The document directory: access, remote failures and cascades *)

Section DirectoryAccess.

Context (logos : Logos) {js_unicode : JsUnicode}.

Lemma findOne_not_found (userId documentId : string) (st : State) :
  documents (store st) !! documentId = None ->
  DocumentsService.findOne userId documentId st
  = (Throw (NotFoundException "Document not found"), st).
Proof.
  intros Hd. unfold DocumentsService.findOne, Prisma.document_findUnique.
  run_monad. now rewrite Hd.
Qed.

Lemma findOne_forbidden (userId documentId : string) (st : State) (d : Document) :
  documents (store st) !! documentId = Some d ->
  doc_user_id d <> userId ->
  DocumentsService.findOne userId documentId st
  = (Throw (ForbiddenException "Access denied"), st).
Proof.
  intros Hd Hu. unfold DocumentsService.findOne, Prisma.document_findUnique.
  run_monad. rewrite Hd. apply String.eqb_neq in Hu. now rewrite Hu.
Qed.

(** X11: the access rule of the document directory.  [findOne] only reads,
    and returns a document exactly when it is the row of the id and the
    caller owns it.  For an id with no row, [findOne], [getStatus] and
    [delete] throw NotFound, and for a document of another user they throw
    Forbidden; in both cases the state is left as it was, so nothing is
    asked of Logos and nothing is deleted. *)
Theorem directory_rejects_without_effect (userId documentId : string) (st : State) :
  (forall d, DocumentsService.findOne userId documentId st = (Ok d, st)
             <-> documents (store st) !! documentId = Some d /\ doc_user_id d = userId)
  /\ (documents (store st) !! documentId = None ->
      DocumentsService.findOne userId documentId st
      = (Throw (NotFoundException "Document not found"), st)
      /\ DocumentsService.getStatus logos userId documentId st
         = (Throw (NotFoundException "Document not found"), st)
      /\ DocumentsService.delete logos userId documentId st
         = (Throw (NotFoundException "Document not found"), st))
  /\ (forall d, documents (store st) !! documentId = Some d ->
      doc_user_id d <> userId ->
      DocumentsService.findOne userId documentId st
      = (Throw (ForbiddenException "Access denied"), st)
      /\ DocumentsService.getStatus logos userId documentId st
         = (Throw (ForbiddenException "Access denied"), st)
      /\ DocumentsService.delete logos userId documentId st
         = (Throw (ForbiddenException "Access denied"), st)).
Proof.
  split; [| split].
  - intros d. split.
    + destruct (documents (store st) !! documentId) as [d0|] eqn:Hd.
      * destruct (decide (doc_user_id d0 = userId)) as [Hu|Hu].
        -- rewrite (findOne_ok _ _ _ d0 Hd Hu). now intros [= <-].
        -- rewrite (findOne_forbidden _ _ _ d0 Hd Hu). discriminate.
      * rewrite (findOne_not_found _ _ _ Hd). discriminate.
    + intros [Hd Hu]. now apply findOne_ok.
  - intros Hd. pose proof (findOne_not_found userId documentId st Hd) as Hf.
    split; [exact Hf |].
    unfold DocumentsService.getStatus, DocumentsService.delete.
    now rewrite !(bind_throw _ _ _ _ _ Hf).
  - intros d Hd Hu. pose proof (findOne_forbidden userId documentId st d Hd Hu) as Hf.
    split; [exact Hf |].
    unfold DocumentsService.getStatus, DocumentsService.delete.
    now rewrite !(bind_throw _ _ _ _ _ Hf).
Qed.

(** X12: when the status request to Logos fails, [getStatus] throws an
    [HttpException] and writes nothing to the store.  The exception carries
    the detail and the status of the remote response when there are any,
    and otherwise the message of the operation and the status 500. *)
Theorem getStatus_remote_failure (userId documentId : string) (st : State)
    (d : Document) (lid : string) (f : Failure) :
  documents (store st) !! documentId = Some d ->
  doc_user_id d = userId ->
  doc_logos_id d = Some lid -> lid <> "" ->
  get_status logos lid = inl f ->
  DocumentsService.getStatus logos userId documentId st
  = (Throw match f with
           | Axios _ status detail =>
               HttpException
                 match detail with
                 | Some text =>
                     if String.eqb text ""
                     then "Failed to get document status from Logos" else text
                 | None => "Failed to get document status from Logos"
                 end
                 match status with
                 | Some code => if (code =? 0)%Z then 500%Z else code
                 | None => 500%Z
                 end
           | NotAxios _ =>
               HttpException "Failed to get document status from Logos" 500
           end,
     {| store := store st; trace := trace st ++ [EvLogosStatus lid] |}).
Proof.
  intros Hd Hu Hl Hne Hget. unfold DocumentsService.getStatus.
  erewrite bind_ok by (apply findOne_ok; eassumption).
  rewrite Hl, (falsy_reference lid Hne). cbn [default from_option id].
  unfold LogosService.getDocumentStatus, LogosService.handleError. run_monad.
  rewrite Hget. now destruct f.
Qed.

Import Spec.

(** X13: deleting a document deletes its conversation.  After [delete] on
    an owned document, the session of the document and every message of
    that session are gone, the sessions of the other documents and the
    messages of the other sessions are as they were, and the history of the
    document can no longer be read: [getChatHistory] throws NotFound. *)
Theorem delete_cascades_to_conversation (userId documentId : string) (st : State)
    (d : Document) :
  documents (store st) !! documentId = Some d ->
  doc_user_id d = userId ->
  exists st',
    DocumentsService.delete logos userId documentId st
    = (Ok "Document deleted successfully", st')
    /\ chatSessions (store st') !! documentId = None
    /\ (forall session, chatSessions (store st) !! documentId = Some session ->
        Prisma.messages_of (session_id session) (store st') = [])
    /\ (forall other, other <> documentId ->
        documents (store st') !! other = documents (store st) !! other
        /\ chatSessions (store st') !! other = chatSessions (store st) !! other)
    /\ (forall sid,
          (forall session, chatSessions (store st) !! documentId = Some session ->
                           session_id session <> sid) ->
          Prisma.messages_of sid (store st') = Prisma.messages_of sid (store st))
    /\ ChatService.getChatHistory userId documentId st'
       = (Throw (NotFoundException "Document not found"), st').
Proof.
  intros Hd Hu.
  assert (Hlocal : forall st0, store st0 = store st ->
            exists st', Prisma.document_delete documentId st0 = (Ok tt, st')
              /\ store st'
                 = {| documents := delete documentId (documents (store st));
                      chatSessions := (Prisma.without_session documentId (store st)).1;
                      chatMessages := (Prisma.without_session documentId (store st)).2;
                      clock := clock (store st);
                      next_id := next_id (store st) |}).
  { intros st0 Hst0. unfold Prisma.document_delete. run_monad. rewrite Hst0, Hd.
    destruct (Prisma.without_session documentId (store st)). eexists.
    split; reflexivity. }
  assert (Hremote : exists st0,
            (if falsy (doc_logos_id d) then mret tt
             else try_catch
                    (LogosService.deleteDocument logos (default "" (doc_logos_id d)))
                    (fun error =>
                       emit (EvWarn ("Failed to delete document from Logos: "
                                     +:+ exception_message error)))) st
            = (Ok tt, st0) /\ store st0 = store st).
  { destruct (falsy (doc_logos_id d)); [now exists st |].
    unfold LogosService.deleteDocument, LogosService.handleError. run_monad.
    destruct (delete_document logos _) as [[message status detail | description]|];
      eexists; split; reflexivity. }
  destruct Hremote as (st0 & Hrun0 & Hst0).
  destruct (Hlocal st0 Hst0) as (st' & Hrun' & Hst').
  exists st'. split.
  { unfold DocumentsService.delete.
    erewrite bind_ok by (apply findOne_ok; eassumption).
    erewrite bind_ok by exact Hrun0.
    now erewrite bind_ok by exact Hrun'. }
  rewrite Hst'. cbn [chatSessions documents].
  assert (Hgone : (Prisma.without_session documentId (store st)).1 !! documentId = None).
  { unfold Prisma.without_session.
    destruct (chatSessions (store st) !! documentId) eqn:E; cbn [fst];
      [apply lookup_delete_eq | exact E]. }
  split; [exact Hgone |].
  unfold Prisma.messages_of, Prisma.without_session. cbn [chatMessages].
  split; [| split; [| split]].
  - intros session Hs. rewrite Hs. cbn [snd]. apply messages_of_removed.
  - intros other Hne. split; [now apply lookup_delete_ne |].
    destruct (chatSessions (store st) !! documentId); cbn [fst];
      [now apply lookup_delete_ne | reflexivity].
  - intros sid Hsid.
    destruct (chatSessions (store st) !! documentId) as [session|] eqn:E; cbn [snd];
      [| reflexivity].
    apply messages_of_kept. now apply Hsid.
  - unfold ChatService.getChatHistory.
    erewrite bind_throw; [reflexivity |].
    apply validate_not_found. rewrite Hst'. cbn [documents]. apply lookup_delete_eq.
Qed.

End DirectoryAccess.

(** A run of X12: Logos has no document of that id and says so. *)
Lemma getStatus_remote_failure_run :
  DocumentsService.getStatus (js_unicode := Fixture.ascii_case)
    (Fixture.service {| chunks := []; failure := None |}
       (inl (Axios "Request failed with status code 404" (Some 404%Z)
                   (Some "Document not found in Logos"))) None)
    "alice" "doc-pending" Fixture.initial
  = (Throw (HttpException "Document not found in Logos" 404),
     {| store := store Fixture.initial; trace := [EvLogosStatus "logos-2"] |}).
Proof.
  apply (getStatus_remote_failure
           (Fixture.service {| chunks := []; failure := None |}
              (inl (Axios "Request failed with status code 404" (Some 404%Z)
                   (Some "Document not found in Logos"))) None)
           "alice" "doc-pending" Fixture.initial
           (Fixture.document "alice" PENDING (Some "logos-2")) "logos-2"
           (Axios "Request failed with status code 404" (Some 404%Z)
                   (Some "Document not found in Logos")));
    try (vm_compute; reflexivity); discriminate.
Defined.

(** A run of X13: Alice deletes the document she chatted about. *)
Lemma delete_cascades_to_conversation_run :
  exists st',
    DocumentsService.delete Fixture.status_service "alice" "doc-ready" Fixture.after_hello
    = (Ok "Document deleted successfully", st')
    /\ Prisma.messages_of "id-0" (store Fixture.after_hello) <> []
    /\ chatMessages (store st') = []
    /\ ChatService.getChatHistory "alice" "doc-ready" st'
       = (Throw (NotFoundException "Document not found"), st').
Proof.
  destruct (delete_cascades_to_conversation Fixture.status_service "alice" "doc-ready"
              Fixture.after_hello (Fixture.document "alice" COMPLETED (Some "logos-1")))
    as (st' & Hrun & _ & _ & _ & _ & Hhistory); try (vm_compute; reflexivity).
  exists st'. split; [exact Hrun |]. split; [vm_compute; discriminate |].
  split; [| exact Hhistory].
  assert (Hst : st' = (DocumentsService.delete Fixture.status_service "alice" "doc-ready"
                         Fixture.after_hello).2) by (now rewrite Hrun).
  rewrite Hst. vm_compute. reflexivity.
Defined.

(** ** Runs of the properties above on the example store *)

Section Runs.

Import Spec.

(** A run of X2: Alice clears the conversation of the example. *)
Lemma clearChatHistory_empties_history_run :
  exists st',
    ChatService.clearChatHistory "alice" "doc-ready" Fixture.after_hello = (Ok tt, st')
    /\ ChatService.getChatHistory "alice" "doc-ready" st'
       = (Ok {| hist_session_id := "";
                hist_document_id := "doc-ready";
                hist_messages := [] |}, st')
    /\ documents (store st') = documents (store Fixture.after_hello).
Proof.
  destruct (clearChatHistory_empties_history "alice" "doc-ready" Fixture.after_hello
              (Fixture.document "alice" COMPLETED (Some "logos-1")))
    as (st' & Hrun & Hhistory & Hdocuments & _).
  - repeat split; vm_compute; reflexivity.
  - exists st'. split; [exact Hrun |]. split; [exact Hhistory | exact Hdocuments].
Defined.

(** A run of X3: the pending document of Alice has no history to clear. *)
Lemma clearChatHistory_rejects_without_effect_run :
  exists e,
    ChatService.clearChatHistory "alice" "doc-pending" Fixture.initial
    = (Throw e, Fixture.initial).
Proof.
  apply (clearChatHistory_rejects_without_effect "alice" "doc-pending" Fixture.initial).
  intros d (Hd & _ & Hstatus & _). vm_compute in Hd.
  injection Hd as <-. discriminate Hstatus.
Defined.

(** A run of X4: the first message of a document opens its session. *)
Lemma getOrCreateSession_idempotent_run :
  exists session st1,
    ChatService.getOrCreateSession "doc-ready" Fixture.initial = (Ok session, st1)
    /\ chatSessions (store st1) !! "doc-ready" = Some session
    /\ ChatService.getOrCreateSession "doc-ready" st1 = (Ok session, st1).
Proof.
  destruct (getOrCreateSession_idempotent "doc-ready" Fixture.initial
              (Fixture.document "alice" COMPLETED (Some "logos-1")))
    as (session & st1 & Hrun & Hlookup & Hagain & _).
  - vm_compute. reflexivity.
  - exists session, st1. split; [exact Hrun |]. split; [exact Hlookup | exact Hagain].
Defined.

(** A run of X5: a message for a document that was never stored. *)
Lemma saveMessage_without_document_run :
  exists message,
    ChatService.saveMessage (prisma_client := Fixture.strict_client)
      "doc-missing" user "Hello?" (JArray []) Fixture.initial
    = (Throw (PrismaError message), Fixture.initial).
Proof.
  apply (saveMessage_without_document (prisma_client := Fixture.strict_client)
           "doc-missing" user "Hello?" (JArray [])
           Fixture.initial); vm_compute; reflexivity.
Defined.



End Runs.

(** ** Upload and synchronisation *)

Section Uploads.

Import Directory Spec DirectorySpec.

Lemma lift_run {A : Type} (m : M A) (ds : DirectoryState) (r : Result A) (st : State) :
  m {| store := dir_store ds; trace := [] |} = (r, st) ->
  lift m ds = (r, {| dir_store := store st;
                     dir_users := dir_users ds;
                     dir_trace := dir_trace ds ++ map Traced (trace st) |}).
Proof. intros Hm. unfold lift. now rewrite Hm. Qed.

Lemma directory_eta (ds : DirectoryState) :
  {| dir_store := dir_store ds; dir_users := dir_users ds; dir_trace := dir_trace ds |} = ds.
Proof. now destruct ds. Qed.

(** A computation that only reads leaves the directory as it is. *)
Lemma lift_read {A : Type} (m : M A) (ds : DirectoryState) (r : Result A) :
  m {| store := dir_store ds; trace := [] |} = (r, {| store := dir_store ds; trace := [] |}) ->
  lift m ds = (r, ds).
Proof.
  intros Hm. rewrite (lift_run _ _ _ _ Hm). cbn [store trace map].
  now rewrite app_nil_r, directory_eta.
Qed.

Lemma run_ok {A B : Type} (m : D A) (k : A -> D B) (ds ds' : DirectoryState) (a : A) :
  m ds = (Ok a, ds') -> (m ≫= k) ds = k a ds'.
Proof. intros Hm. unfold mbind, D_bind. now rewrite Hm. Qed.

Lemma run_throw {A B : Type} (m : D A) (k : A -> D B) (ds ds' : DirectoryState)
    (e : Exception) :
  m ds = (Throw e, ds') -> (m ≫= k) ds = (Throw e, ds').
Proof. intros Hm. unfold mbind, D_bind. now rewrite Hm. Qed.

(** The exception [handleError] makes of a failed exchange. *)
Lemma handleError_run {A : Type} (f : Failure) (message : string) (st : State) :
  LogosService.handleError (A := A) f message st
  = (Throw match f with
           | Axios _ status detail =>
               HttpException (string_or detail message) (number_or status 500)
           | NotAxios _ => HttpException message 500
           end, st).
Proof. now destruct f. Qed.

Context (logos : LogosDocuments) {js_unicode : JsUnicode}.

Lemma logos_upload_run (file : File) (ds : DirectoryState) :
  LogosUploads.uploadDocument logos file ds
  = (match post_upload logos file with
     | inr data => Ok data
     | inl f =>
         Throw match f with
               | Axios _ status detail =>
                   HttpException (string_or detail "Failed to upload document to Logos")
                                 (number_or status 500)
               | NotAxios _ => HttpException "Failed to upload document to Logos" 500
               end
     end,
     {| dir_store := dir_store ds;
        dir_users := dir_users ds;
        dir_trace := dir_trace ds ++ [EvLogosUpload file] |}).
Proof.
  unfold LogosUploads.uploadDocument, mbind, D_bind, record.
  destruct (post_upload logos file) as [f | data]; [| reflexivity].
  erewrite lift_run by apply handleError_run.
  cbn [dir_store dir_users dir_trace store trace map]. now rewrite app_nil_r.
Qed.

Lemma logos_document_run (logosId : string) (ds : DirectoryState) :
  LogosUploads.getDocument logos logosId ds
  = (match get_document logos logosId with
     | inr data =>
         Ok {| ld_id := ld_id data;
               ld_filename := ld_filename data;
               ld_content_type := ld_content_type data;
               ld_status := option_map JsString.toUpperCase (ld_status data);
               ld_summary := ld_summary data;
               ld_classification := ld_classification data;
               ld_error_message := ld_error_message data;
               ld_created_at := ld_created_at data;
               ld_updated_at := ld_updated_at data |}
     | inl f =>
         Throw match f with
               | Axios _ status detail =>
                   HttpException (string_or detail "Failed to get document from Logos")
                                 (number_or status 500)
               | NotAxios _ => HttpException "Failed to get document from Logos" 500
               end
     end,
     {| dir_store := dir_store ds;
        dir_users := dir_users ds;
        dir_trace := dir_trace ds ++ [EvLogosDocument logosId] |}).
Proof.
  unfold LogosUploads.getDocument, mbind, D_bind, record.
  destruct (get_document logos logosId) as [f | data]; [| reflexivity].
  erewrite lift_run by apply handleError_run.
  cbn [dir_store dir_users dir_trace store trace map]. now rewrite app_nil_r.
Qed.

Lemma uploadDocument_run (userId : string) (file : File) (ds : DirectoryState)
    (answer : LogosUploadResponse) :
  post_upload logos file = inr answer ->
  insertable userId (up_id answer) ds ->
  let id := Prisma.fresh_id (dir_store ds) in
  let row := uploaded_row userId file (up_id answer) (dir_store ds) in
  DocumentsUploads.uploadDocument logos userId file ds
  = (Ok {| DocumentsUploads.upl_id := id;
           DocumentsUploads.upl_logos_id := up_id answer;
           DocumentsUploads.upl_message := up_message answer |},
     {| dir_store := {| documents := <[id := row]> (documents (dir_store ds));
                        chatSessions := chatSessions (dir_store ds);
                        chatMessages := chatMessages (dir_store ds);
                        clock := (clock (dir_store ds) + 1)%Z;
                        next_id := (next_id (dir_store ds) + 1)%N |};
        dir_users := dir_users ds;
        dir_trace := dir_trace ds ++ [EvLogosUpload file; EvDocumentCreate id row] |}).
Proof.
  intros Hpost (Huser & Hfresh & Hfree) id row.
  unfold DocumentsUploads.uploadDocument.
  erewrite run_ok by (rewrite logos_upload_run, Hpost; reflexivity).
  unfold mbind, D_bind, PrismaDocuments.document_create, mret, D_ret.
  cbn [dir_store dir_users dir_trace PrismaDocuments.new_user_id
       PrismaDocuments.new_logos_id PrismaDocuments.new_filename
       PrismaDocuments.new_content_type PrismaDocuments.new_status].
  rewrite Hfree, Hfresh.
  rewrite bool_decide_eq_false_2 by (intros [x Hx]; discriminate).
  rewrite (bool_decide_eq_true_2 _ Huser). cbn [orb negb fst].
  now rewrite <- app_assoc.
Qed.

(** X14: a file Logos does not take is not recorded.  When the upload
    request fails, [uploadDocument] throws the [HttpException] made of the
    failure, and the directory is as it was but for the trace entry of the
    request: no row is created. *)
Theorem uploadDocument_remote_failure (userId : string) (file : File)
    (ds : DirectoryState) (f : Failure) :
  post_upload logos file = inl f ->
  DocumentsUploads.uploadDocument logos userId file ds
  = (Throw match f with
           | Axios _ status detail =>
               HttpException (string_or detail "Failed to upload document to Logos")
                             (number_or status 500)
           | NotAxios _ => HttpException "Failed to upload document to Logos" 500
           end,
     {| dir_store := dir_store ds;
        dir_users := dir_users ds;
        dir_trace := dir_trace ds ++ [EvLogosUpload file] |}).
Proof.
  intros Hpost. unfold DocumentsUploads.uploadDocument.
  erewrite run_throw; [reflexivity |]. now rewrite logos_upload_run, Hpost.
Qed.


(** X16: an upload the store refuses is not taken back from Logos.  When
    Logos took the file but the row cannot be inserted (the user has no
    row, the reference is that of another document, or the generated key
    is in use), [uploadDocument] throws the error of the store; the store
    is as it was, and the trace has the upload request and nothing after
    it: no request to delete the file from Logos is made. *)
Theorem uploadDocument_local_failure_keeps_remote (userId : string) (file : File)
    (ds : DirectoryState) (answer : LogosUploadResponse) :
  post_upload logos file = inr answer ->
  ~ insertable userId (up_id answer) ds ->
  exists message,
    DocumentsUploads.uploadDocument logos userId file ds
    = (Throw (PrismaError message),
       {| dir_store := dir_store ds;
          dir_users := dir_users ds;
          dir_trace := dir_trace ds ++ [EvLogosUpload file] |}).
Proof.
  intros Hpost Hno. unfold DocumentsUploads.uploadDocument.
  erewrite run_ok by (rewrite logos_upload_run, Hpost; reflexivity).
  unfold mbind, D_bind, PrismaDocuments.document_create, raise.
  cbn [dir_store dir_users dir_trace PrismaDocuments.new_user_id
       PrismaDocuments.new_logos_id].
  destruct (bool_decide (is_Some (documents (dir_store ds)
                                    !! Prisma.fresh_id (dir_store ds)))) eqn:Ekey;
    [eexists; reflexivity |].
  destruct (PrismaDocuments.logos_id_taken (up_id answer) (dir_store ds)) eqn:Etaken;
    [eexists; reflexivity |].
  destruct (bool_decide (userId ∈ dir_users ds)) eqn:Euser;
    [| eexists; reflexivity].
  exfalso. apply Hno. split; [now apply bool_decide_eq_true_1 in Euser |].
  split; [| exact Etaken].
  apply bool_decide_eq_false_1 in Ekey.
  destruct (documents (dir_store ds) !! Prisma.fresh_id (dir_store ds)) eqn:E;
    [exfalso; apply Ekey; eauto | reflexivity].
Qed.

End Uploads.

Section Synchronisation.

Import Directory Spec DirectorySpec.

Context (logos : LogosDocuments) {js_unicode : JsUnicode}.


(** [syncDocument] up to the answer of Logos, for an owned document with
    a reference. *)
Lemma syncDocument_asks (userId documentId : string) (ds : DirectoryState)
    (d : Document) (lid : string) :
  documents (dir_store ds) !! documentId = Some d ->
  doc_user_id d = userId ->
  doc_logos_id d = Some lid ->
  lid <> "" ->
  DocumentsUploads.syncDocument logos userId documentId ds
  = (logosDoc ← LogosUploads.getDocument logos lid;
     updated ← lift (Prisma.document_update documentId
                       {| Prisma.upd_status := ld_status logosDoc;
                          Prisma.upd_summary := ld_summary logosDoc;
                          Prisma.upd_classification := ld_classification logosDoc;
                          Prisma.upd_error_message := ld_error_message logosDoc |});
     mret updated) ds.
Proof.
  intros Hd Hu Hl Hne. unfold DocumentsUploads.syncDocument.
  erewrite run_ok by (apply lift_read, findOne_ok; eassumption).
  now rewrite Hl, (falsy_reference lid Hne).
Qed.


(** X19: [syncDocument] refuses without effect: an id with no row
    (NotFound), the document of another user (Forbidden) and an owned
    document with no reference (NotFound, where the chat says
    InvalidState) leave the directory as it was, so Logos is not asked and
    nothing is written. *)
Theorem syncDocument_rejects_without_effect (userId documentId : string)
    (ds : DirectoryState) :
  (documents (dir_store ds) !! documentId = None ->
   DocumentsUploads.syncDocument logos userId documentId ds
   = (Throw (NotFoundException "Document not found"), ds))
  /\ (forall d, documents (dir_store ds) !! documentId = Some d ->
      doc_user_id d <> userId ->
      DocumentsUploads.syncDocument logos userId documentId ds
      = (Throw (ForbiddenException "Access denied"), ds))
  /\ (forall d, documents (dir_store ds) !! documentId = Some d ->
      doc_user_id d = userId ->
      falsy (doc_logos_id d) = true ->
      DocumentsUploads.syncDocument logos userId documentId ds
      = (Throw (NotFoundException "Document has no Logos reference"), ds)
      /\ (doc_status d = COMPLETED ->
          lift (ChatService.validateDocumentAccess userId documentId) ds
          = (Throw (BadRequestException "Document has no Logos reference"), ds))).
Proof.
  split; [| split].
  - intros Hd. unfold DocumentsUploads.syncDocument.
    erewrite run_throw; [reflexivity |]. now apply lift_read, findOne_not_found.
  - intros d Hd Hu. unfold DocumentsUploads.syncDocument.
    erewrite run_throw; [reflexivity |]. now apply lift_read, (findOne_forbidden _ _ _ d).
  - intros d Hd Hu Hl. split.
    + unfold DocumentsUploads.syncDocument.
      erewrite run_ok by (apply lift_read, findOne_ok; eassumption).
      now rewrite Hl.
    + intros Hs. now apply lift_read, (validate_no_reference _ _ _ d).
Qed.

(** X20: a synchronisation of an owned document with a reference that
    fails after Logos was asked leaves the row as it was.  When the request
    fails, [syncDocument] throws the [HttpException] made of the failure;
    when Logos reports a status that in upper case ([toUpperCase]) is no
    member of the enumeration, the store refuses the update.  In both
    cases the store is unchanged and the trace has the request only. *)
Theorem syncDocument_failure_keeps_record (userId documentId : string)
    (ds : DirectoryState) (d : Document) (lid : string) :
  documents (dir_store ds) !! documentId = Some d ->
  doc_user_id d = userId ->
  doc_logos_id d = Some lid ->
  lid <> "" ->
  let asked := {| dir_store := dir_store ds;
                  dir_users := dir_users ds;
                  dir_trace := dir_trace ds ++ [EvLogosDocument lid] |} in
  (forall f, get_document logos lid = inl f ->
     DocumentsUploads.syncDocument logos userId documentId ds
     = (Throw match f with
              | Axios _ status detail =>
                  HttpException (string_or detail "Failed to get document from Logos")
                                (number_or status 500)
              | NotAxios _ => HttpException "Failed to get document from Logos" 500
              end, asked))
  /\ (forall remote name, get_document logos lid = inr remote ->
        ld_status remote = Some name ->
        status_of_name (JsString.toUpperCase name) = None ->
        exists message,
          DocumentsUploads.syncDocument logos userId documentId ds
          = (Throw (PrismaError message), asked)).
Proof.
  intros Hd Hu Hl Hne asked. split.
  - intros f Hget. rewrite (syncDocument_asks _ _ _ d lid Hd Hu Hl Hne).
    erewrite run_throw; [reflexivity |]. now rewrite logos_document_run, Hget.
  - intros remote name Hget Hname Hunknown.
    rewrite (syncDocument_asks _ _ _ d lid Hd Hu Hl Hne).
    erewrite run_ok by (rewrite logos_document_run, Hget; reflexivity).
    cbn [ld_status ld_summary ld_classification ld_error_message].
    assert (Hwrite : Prisma.document_update documentId
                       {| Prisma.upd_status :=
                            option_map JsString.toUpperCase (ld_status remote);
                          Prisma.upd_summary := ld_summary remote;
                          Prisma.upd_classification := ld_classification remote;
                          Prisma.upd_error_message := ld_error_message remote |}
                       {| store := dir_store ds; trace := [] |}
                     = (Throw (PrismaError "Invalid value for argument `status`"),
                        {| store := dir_store ds; trace := [] |})).
    { unfold Prisma.document_update. run_monad. cbn [store]. rewrite Hd.
      cbn [Prisma.upd_status]. rewrite Hname. cbn [option_map]. now rewrite Hunknown. }
    eexists. erewrite run_throw; [reflexivity |].
    apply lift_read. exact Hwrite.
Qed.

(** X21: the handler of the upload stops a request with no user id and a
    file whose type is neither [application/pdf] nor [text/plain] with
    BadRequest (InvalidState), before Logos is asked and before anything
    is written; every other request is the upload of the service for that
    user. *)
Theorem upload_handler_guards (userId : option string) (file : File)
    (ds : DirectoryState) :
  (falsy userId = true ->
   DocumentsController.uploadDocument logos userId file ds
   = (Throw (BadRequestException "User ID is required"), ds))
  /\ (falsy userId = false ->
      mimetype file <> "application/pdf" -> mimetype file <> "text/plain" ->
      DocumentsController.uploadDocument logos userId file ds
      = (Throw (BadRequestException
                  ("Invalid file type: " +:+ mimetype file
                   +:+ ". Allowed: application/pdf, text/plain")), ds))
  /\ (forall user, userId = Some user -> user <> "" ->
      mimetype file = "application/pdf" \/ mimetype file = "text/plain" ->
      DocumentsController.uploadDocument logos userId file ds
      = DocumentsUploads.uploadDocument logos user file ds).
Proof.
  unfold DocumentsController.uploadDocument, DocumentsController.includes,
    DocumentsController.allowedTypes.
  split; [| split].
  - intros Hu. now rewrite Hu.
  - intros Hu Hpdf Htxt. rewrite Hu. cbn [existsb].
    apply String.eqb_neq in Hpdf, Htxt. now rewrite Hpdf, Htxt.
  - intros user -> Hne Htype. rewrite (falsy_reference user Hne). cbn [existsb].
    destruct Htype as [-> | ->]; reflexivity.
Qed.

End Synchronisation.

(** ** Runs of the upload and synchronisation properties *)

Section DirectoryRuns.

Import Directory Spec DirectorySpec.

Lemma alice_insertable (reference : option string) :
  PrismaDocuments.logos_id_taken reference (dir_store DirectoryFixture.initial) = false ->
  insertable "alice" reference DirectoryFixture.initial.
Proof.
  intros Hfree. split; [| split; [vm_compute; reflexivity | exact Hfree]].
  apply elem_of_union. left. now apply elem_of_singleton.
Qed.

(** A run of X14: Logos is down. *)
Lemma uploadDocument_remote_failure_run :
  DocumentsUploads.uploadDocument DirectoryFixture.down "alice"
    DirectoryFixture.report DirectoryFixture.initial
  = (Throw (HttpException "Failed to upload document to Logos" 500),
     {| dir_store := store Fixture.initial;
        dir_users := dir_users DirectoryFixture.initial;
        dir_trace := [EvLogosUpload DirectoryFixture.report] |}).
Proof.
  apply (uploadDocument_remote_failure DirectoryFixture.down "alice"
           DirectoryFixture.report DirectoryFixture.initial Fixture.unavailable).
  reflexivity.
Defined.


(** A run of X16: Carol has no row among the users. *)
Lemma uploadDocument_local_failure_keeps_remote_run :
  exists message,
    DocumentsUploads.uploadDocument DirectoryFixture.service "carol"
      DirectoryFixture.report DirectoryFixture.initial
    = (Throw (PrismaError message),
       {| dir_store := store Fixture.initial;
          dir_users := dir_users DirectoryFixture.initial;
          dir_trace := [EvLogosUpload DirectoryFixture.report] |}).
Proof.
  apply (uploadDocument_local_failure_keeps_remote DirectoryFixture.service "carol"
           DirectoryFixture.report DirectoryFixture.initial
           {| up_id := Some "logos-9"; up_message := Some "Document uploaded" |}).
  - reflexivity.
  - intros (Huser & _). apply elem_of_union in Huser.
    destruct Huser as [Huser | Huser]; apply elem_of_singleton in Huser; discriminate.
Defined.



(** A run of X20: Alice synchronises while Logos is down. *)
Lemma syncDocument_failure_keeps_record_run :
  DocumentsUploads.syncDocument (js_unicode := Fixture.ascii_case)
      DirectoryFixture.down "alice" "doc-pending"
    DirectoryFixture.initial
  = (Throw (HttpException "Failed to get document from Logos" 500),
     {| dir_store := store Fixture.initial;
        dir_users := dir_users DirectoryFixture.initial;
        dir_trace := [EvLogosDocument "logos-2"] |}).
Proof.
  assert (Hd : documents (dir_store DirectoryFixture.initial) !! "doc-pending"
               = Some (Fixture.document "alice" PENDING (Some "logos-2")))
    by (vm_compute; reflexivity).
  assert (Hne : "logos-2" <> "") by discriminate.
  destruct (syncDocument_failure_keeps_record (js_unicode := Fixture.ascii_case)
      DirectoryFixture.down "alice"
              "doc-pending" DirectoryFixture.initial
              (Fixture.document "alice" PENDING (Some "logos-2")) "logos-2"
              Hd eq_refl eq_refl Hne)
    as (Hdown & _).
  exact (Hdown Fixture.unavailable eq_refl).
Defined.

End DirectoryRuns.

(** ** The chat handler and its error event *)

Section ErrorEvent.

Import JsString JsonStringify.

Lemma option_map_app_nil {A : Type} (x : option (list A)) : option_map (app []) x = x.
Proof. now destruct x. Qed.

Lemma option_map_app_app {A : Type} (ts ts' : list A) (x : option (list A)) :
  option_map (app ts) (option_map (app ts') x) = option_map (app (ts ++ ts')) x.
Proof. destruct x; cbn [option_map]; [now rewrite app_assoc | reflexivity]. Qed.

(** Lexing a text is lexing its beginning and then the rest. *)
Lemma lex_app (a b : string) (mode : Json.lex_mode) :
  Json.lex mode (a +:+ b)
  = match lex_prefix mode a with
    | Some (mode', ts) => option_map (app ts) (Json.lex mode' b)
    | None => None
    end.
Proof.
  revert mode. induction a as [|c a IH]; intros mode.
  - change ("" +:+ b) with b. cbn [lex_prefix]. now rewrite option_map_app_nil.
  - rewrite append_cons. cbn [Json.lex lex_prefix].
    destruct (Json.lex_step mode c) as [[mode' ts]|]; [| reflexivity].
    rewrite IH. destruct (lex_prefix mode' a) as [[mode'' ts']|]; [| reflexivity].
    apply option_map_app_app.
Qed.

Lemma lex_prefix_app (a b : string) (mode : Json.lex_mode) :
  lex_prefix mode (a +:+ b)
  = match lex_prefix mode a with
    | Some (mode', ts) =>
        match lex_prefix mode' b with
        | Some (mode'', ts') => Some (mode'', ts ++ ts')
        | None => None
        end
    | None => None
    end.
Proof.
  revert mode. induction a as [|c a IH]; intros mode.
  - change ("" +:+ b) with b. cbn [lex_prefix].
    now destruct (lex_prefix mode b) as [[mode' ts]|].
  - rewrite append_cons. cbn [lex_prefix].
    destruct (Json.lex_step mode c) as [[mode' ts]|]; [| reflexivity].
    rewrite IH. destruct (lex_prefix mode' a) as [[mode'' ts']|]; [| reflexivity].
    destruct (lex_prefix mode'' b) as [[mode3 ts3]|]; [| reflexivity].
    now rewrite app_assoc.
Qed.

(** The lexer reads what [JSON.stringify] writes for a character as one
    piece of the string literal. *)
Lemma lex_escape_char (c : ascii) (acc : list Json.str_item) :
  lex_prefix (Json.LString acc) (escape_char c) = Some (Json.LString (item c :: acc), []).
Proof.
  destruct c as [[] [] [] [] [] [] [] []]; vm_compute; reflexivity.
Qed.

Lemma lex_quote_body (s : string) (acc : list Json.str_item) :
  lex_prefix (Json.LString acc) (quote_body s)
  = Some (Json.LString (rev (map item (list_ascii_of_string s)) ++ acc), []).
Proof.
  revert acc. induction s as [|c s IH]; intros acc; [reflexivity |].
  cbn [quote_body list_ascii_of_string map rev].
  rewrite lex_prefix_app, lex_escape_char, IH. cbn [app].
  now rewrite <- app_assoc.
Qed.

(** The piece decodes to the character. *)
Lemma encode_item (c : ascii) (rest : list Json.str_item) :
  Json.encode_items (item c :: rest) = c :: Json.encode_items rest.
Proof.
  destruct c as [[] [] [] [] [] [] [] []]; reflexivity.
Qed.

Lemma encode_items_of_string (s : string) :
  of_chars (Json.encode_items (map item (list_ascii_of_string s))) = s.
Proof.
  induction s as [|c s IH]; [reflexivity |].
  cbn [list_ascii_of_string map]. rewrite encode_item. cbn [of_chars]. now rewrite IH.
Qed.

Lemma lacks_app (c : ascii) (a b : string) :
  lacks c (a +:+ b) = lacks c a && lacks c b.
Proof.
  induction a as [|x a IH]; [reflexivity |].
  rewrite append_cons. cbn [lacks]. now rewrite IH, andb_assoc.
Qed.

Lemma escape_char_one_line (c : ascii) : lacks LF (escape_char c) = true.
Proof.
  destruct c as [[] [] [] [] [] [] [] []]; vm_compute; reflexivity.
Qed.

Lemma quote_body_one_line (s : string) : lacks LF (quote_body s) = true.
Proof.
  induction s as [|c s IH]; [reflexivity |].
  cbn [quote_body]. now rewrite lacks_app, escape_char_one_line, IH.
Qed.

(** The text of the error object is one line, and [JSON.parse] reads the
    object back from it. *)
Lemma stringify_error_one_line (message : string) :
  lacks LF (stringify_error message) = true.
Proof.
  unfold stringify_error, QuoteJSONString.
  rewrite !lacks_app. cbn [lacks]. rewrite lacks_app, quote_body_one_line.
  reflexivity.
Qed.

Lemma parse_stringify_error (message : string) :
  Json.parse (stringify_error message) = Some (JObject [("error", JString message)]).
Proof.
  unfold Json.parse, stringify_error, QuoteJSONString.
  change (quoted "{'error':" +:+ String DQ (quote_body message +:+ String DQ "") +:+ "}")
    with ((quoted "{'error':" +:+ String DQ "")
          +:+ ((quote_body message +:+ String DQ "") +:+ "}")).
  rewrite lex_app.
  change (lex_prefix Json.LIdle (quoted "{'error':" +:+ String DQ ""))
    with (Some (Json.LString [],
                [Json.TLBrace; Json.TScalar (JString "error"); Json.TColon])).
  cbv iota beta. rewrite append_assoc, lex_app, lex_quote_body. rewrite app_nil_r.
  cbn [append Json.lex Json.lex_step]. 
  change (String DQ "" +:+ "}") with (String DQ "}").
  cbn [Json.lex Json.lex_step]. 
  change (Ascii.eqb DQ DQ) with true. cbv iota.
  rewrite rev_involutive, encode_items_of_string.
  reflexivity.
Qed.

(** X22: the error event of the chat handler is one well-formed event,
    whatever the message is.  Split at line feeds it is the line
    [event: error], one data line and the two empty pieces of the blank
    line that ends it: a line feed, a quote or a backslash in the message
    cannot break the event.  The payload of the data line is JSON text
    from which [JSON.parse] reads back an object whose only member,
    [error], is the message, byte for byte. *)
Theorem error_event_is_one_json_event (message : string) :
  exists payload,
    split LF (ChatController.error_event message)
    = ["event: error"; "data: " +:+ payload; ""; ""]
    /\ Json.parse payload = Some (JObject [("error", JString message)]).
Proof.
  exists (stringify_error message). split; [| apply parse_stringify_error].
  - unfold ChatController.error_event.
    rewrite split_app_sep by reflexivity. f_equal.
    rewrite <- append_assoc.
    rewrite split_app_sep.
    + reflexivity.
    + rewrite lacks_app, stringify_error_one_line. reflexivity.
Qed.

End ErrorEvent.

Section ChatHandler.

Import Spec ChatService ChatController.

Context (logos : Logos) {js_number : JsNumber} {prisma_client : PrismaClient}.

(** The guard of the chat reads the store only. *)
Lemma validate_store_only (userId documentId : string) (st : State) (t : list Event)
    (r : Result Document) :
  validateDocumentAccess userId documentId st = (r, st) ->
  validateDocumentAccess userId documentId {| store := store st; trace := t |}
  = (r, {| store := store st; trace := t |}).
Proof.
  unfold validateDocumentAccess, Prisma.document_findUnique. run_monad. cbn [store].
  destruct (documents (store st) !! documentId) as [d|]; [| now intros [= <-]].
  destruct (negb (String.eqb (doc_user_id d) userId)); [now intros [= <-] |].
  destruct (negb (bool_decide (doc_status d = COMPLETED))); [now intros [= <-] |].
  destruct (falsy (doc_logos_id d)); now intros [= <-].
Qed.

(** X23: a chat that is refused is refused inside the stream.  When the
    guard does not accept the document, the handler has already set the
    headers of an event stream and flushed them; it then writes one error
    event with the message of the exception and ends the response.
    Nothing is written to the store and Logos is not asked: the state is
    as it was. *)
Theorem chat_rejects_in_band (userId : string) (chatRequest : ChatRequestDto)
    (st : State) :
  (forall d, ~ accepted (store st) userId (req_document_id chatRequest) d) ->
  exists e,
    validateDocumentAccess userId (req_document_id chatRequest) st = (Throw e, st)
    /\ chat logos userId chatRequest st
       = (sse_headers ++ [ResWrite (error_event (exception_message e)); ResEnd], st).
Proof.
  intros Hno.
  destruct (validate_cases userId (req_document_id chatRequest) st)
    as [(d & Ha & _) | (e & Hrun & _)]; [now destruct (Hno d) |].
  exists e. split; [exact Hrun |]. unfold chat.
  rewrite (streamChat_throws logos _ _ _ e (validate_store_only _ _ _ [] _ Hrun)).
  cbn [store trace yields omap map app]. now rewrite app_nil_r, state_eta.
Qed.


End ChatHandler.

(** A run of X23: Alice asks about a document that does not exist. *)
Lemma chat_rejects_in_band_run :
  exists e,
    ChatService.validateDocumentAccess "alice" "doc-missing" Fixture.initial
    = (Throw e, Fixture.initial)
    /\ ChatController.chat Fixture.hello_service (js_number := Fixture.literal_numbers)
         (prisma_client := Fixture.strict_client)
         "alice" (Fixture.request_for "doc-missing" "Hello?" None) Fixture.initial
       = (ChatController.sse_headers
          ++ [ChatController.ResWrite
                (ChatController.error_event (exception_message e));
              ChatController.ResEnd],
          Fixture.initial).
Proof.
  apply (chat_rejects_in_band Fixture.hello_service (js_number := Fixture.literal_numbers)
           (prisma_client := Fixture.strict_client)
           "alice" (Fixture.request_for "doc-missing" "Hello?" None) Fixture.initial).
  intros d (Hd & _). vm_compute in Hd. discriminate Hd.
Defined.



(** ** The list of a user's documents *)

Section Listing.

Import DocumentsQueries.

Lemma insert_desc_permutation (row : string * Document) (rows : list (string * Document)) :
  Permutation (insert_by_created_at_desc row rows) (row :: rows).
Proof.
  induction rows as [|x rest IH]; [reflexivity |].
  cbn [insert_by_created_at_desc].
  destruct (doc_created_at x.2 <=? doc_created_at row.2)%Z; [reflexivity |].
  rewrite IH. apply perm_swap.
Qed.

Lemma orderBy_desc_permutation (rows : list (string * Document)) :
  Permutation (orderBy_created_at_desc rows) rows.
Proof.
  induction rows as [|x rest IH]; [reflexivity |].
  change (orderBy_created_at_desc (x :: rest))
    with (insert_by_created_at_desc x (orderBy_created_at_desc rest)).
  now rewrite insert_desc_permutation, IH.
Qed.

Lemma insert_desc_sorted (row : string * Document) (rows : list (string * Document)) :
  StronglySorted newer_first rows ->
  StronglySorted newer_first (insert_by_created_at_desc row rows).
Proof.
  induction rows as [|x rest IH]; intros Hs.
  - repeat constructor.
  - cbn [insert_by_created_at_desc].
    apply StronglySorted_inv in Hs as [Hrest Hx].
    destruct (doc_created_at x.2 <=? doc_created_at row.2)%Z eqn:E.
    + apply Z.leb_le in E. constructor; [now constructor |].
      constructor; [exact E |].
      eapply Forall_impl; [exact Hx |]. unfold newer_first. cbn beta. intros y Hy. lia.
    + apply Z.leb_gt in E. constructor; [now apply IH |].
      rewrite insert_desc_permutation. constructor; [| exact Hx].
      unfold newer_first. lia.
Qed.

Lemma orderBy_desc_sorted (rows : list (string * Document)) :
  StronglySorted newer_first (orderBy_created_at_desc rows).
Proof.
  induction rows as [|x rest IH]; [constructor |].
  change (orderBy_created_at_desc (x :: rest))
    with (insert_by_created_at_desc x (orderBy_created_at_desc rest)).
  now apply insert_desc_sorted.
Qed.

Lemma filter_keeps_keys (keep : string * Document -> bool)
    (rows : list (string * Document)) :
  NoDup (map fst rows) -> NoDup (map fst (List.filter keep rows)).
Proof.
  induction rows as [|x rest IH]; [constructor |].
  cbn [map List.filter]. intros Hkeys. apply NoDup_cons in Hkeys as [Hx Hrest].
  destruct (keep x); [| now apply IH].
  cbn [map]. apply NoDup_cons. split; [| now apply IH].
  intros Hin. apply Hx. apply list_elem_of_In, in_map_iff in Hin as (y & Hy & Hin).
  apply list_elem_of_In, in_map_iff. exists y. split; [exact Hy |].
  now apply filter_In in Hin.
Qed.

(** X25: [findAllForUser] only reads, and lists the documents of the
    caller and no other: a row is in the list exactly when it is a row of
    the store owned by the caller, no row is listed twice, and every row
    is at least as new as all the rows after it ([newer_first]). *)
Theorem findAllForUser_lists_own_documents (userId : string) (st : State) :
  exists rows,
    findAllForUser userId st = (Ok rows, st)
    /\ (forall id d, In (id, d) rows
                     <-> documents (store st) !! id = Some d /\ doc_user_id d = userId)
    /\ NoDup (map fst rows)
    /\ StronglySorted newer_first rows.
Proof.
  eexists. split; [reflexivity |].
  set (owned := List.filter (fun row => String.eqb (doc_user_id row.2) userId)
                            (map_to_list (documents (store st)))).
  pose proof (orderBy_desc_permutation owned) as Hperm.
  split; [| split].
  - intros id d. rewrite <- !list_elem_of_In, Hperm. unfold owned.
    rewrite list_elem_of_In, filter_In, <- list_elem_of_In, elem_of_map_to_list.
    cbn [snd]. now rewrite String.eqb_eq.
  - rewrite Hperm. apply filter_keeps_keys. apply NoDup_fst_map_to_list.
  - apply orderBy_desc_sorted.
Qed.

End Listing.

(** ** Runs of the properties stated by cases *)

(** A run of X11: Alice asks for the status of Bob's document and tries
    to delete it. *)
Lemma directory_rejects_without_effect_run :
  DocumentsService.getStatus (js_unicode := Fixture.ascii_case)
      Fixture.status_service "alice" "doc-bob" Fixture.initial
  = (Throw (ForbiddenException "Access denied"), Fixture.initial)
  /\ DocumentsService.delete Fixture.status_service "alice" "doc-bob" Fixture.initial
     = (Throw (ForbiddenException "Access denied"), Fixture.initial).
Proof.
  destruct (directory_rejects_without_effect (js_unicode := Fixture.ascii_case)
      Fixture.status_service "alice" "doc-bob"
              Fixture.initial) as (_ & _ & Hforbidden).
  destruct (Hforbidden (Fixture.document "bob" COMPLETED (Some "logos-3")))
    as (_ & Hstatus & Hdelete).
  - vm_compute. reflexivity.
  - discriminate.
  - split; assumption.
Defined.

(** A run of X19: Alice synchronises the document that never went to
    Logos. *)
Lemma syncDocument_rejects_without_effect_run :
  DocumentsUploads.syncDocument (js_unicode := Fixture.ascii_case)
      DirectoryFixture.service "alice" "doc-local"
    DirectoryFixture.initial
  = (Throw (NotFoundException "Document has no Logos reference"),
     DirectoryFixture.initial).
Proof.
  destruct (syncDocument_rejects_without_effect (js_unicode := Fixture.ascii_case)
      DirectoryFixture.service "alice"
              "doc-local" DirectoryFixture.initial) as (_ & _ & Hlocal).
  destruct (Hlocal (Fixture.document "alice" PENDING None)) as (Hsync & _).
  - vm_compute. reflexivity.
  - reflexivity.
  - reflexivity.
  - exact Hsync.
Defined.

(** A run of X21: Alice uploads a picture. *)
Lemma upload_handler_guards_run :
  DocumentsController.uploadDocument DirectoryFixture.service (Some "alice")
    {| originalname := "photo.png"; mimetype := "image/png"; buffer := [] |}
    DirectoryFixture.initial
  = (Throw (BadRequestException
              "Invalid file type: image/png. Allowed: application/pdf, text/plain"),
     DirectoryFixture.initial).
Proof.
  destruct (upload_handler_guards DirectoryFixture.service (Some "alice")
              {| originalname := "photo.png"; mimetype := "image/png"; buffer := [] |}
              DirectoryFixture.initial) as (_ & Htype & _).
  apply Htype; [reflexivity | discriminate | discriminate].
Defined.
